(** * Open3D-ML: label look-up table and the torch semantic-segmentation pipeline

    A shallow embedding of
      - [ml3d/vis/labellut.py]                          (class [LabelLUT]),
      - [ml3d/torch/pipelines/semantic_segmentation.py] (class
        [SemanticSegmentation]: [update_tests], [run_train], [get_batcher],
        [load_ckpt], [save_ckpt]).

    Python values are modelled as follows.  Integers are [Z].  Floating point
    numbers only occur as data that is stored, copied and compared with the
    literal [0.5]; they are modelled as rationals ([Q]), decimal literals
    standing for themselves.  A [dict] whose insertion order matters is an
    association list ([Py.dict_set] is Python's [d[k] = v]); a [dict] that is
    only read by key is a [gmap].  A raised exception is the [Raise] branch of
    [result].  Objects of the training framework and helpers of other modules
    are interfaces (type classes); a concrete instance of each is given for
    evaluation. *)

From stdpp Require Import gmap strings list sorting pretty.
From Stdlib Require Import QArith Ascii.

Local Open Scope string_scope.
Local Open Scope list_scope.
Local Open Scope Z_scope.

(* ===================================================================== *)
(** ** Exceptions *)
(* ===================================================================== *)

Inductive exn : Type :=
  | KeyError
  | IndexError
  | AttributeError
  | FileNotFoundError
  | ZeroDivisionError
  | UnpicklingError
  | TypeError
  | RuntimeError.

Inductive result (A : Type) : Type :=
  | Ok (a : A)
  | Raise (e : exn).
Arguments Ok {A} a.
Arguments Raise {A} e.

(** [result] is the error monad; stdpp's [x ← r; k] is sequencing that stops
    at the first exception. *)
#[global] Instance result_ret : MRet result := fun A a => Ok a.
#[global] Instance result_bind : MBind result := fun A B k r =>
  match r with
  | Ok a => k a
  | Raise e => Raise e
  end.

Definition is_Ok {A : Type} (r : result A) : Prop := exists a, r = Ok a.

(* ===================================================================== *)
(** ** Python built-ins used by the two files *)
(* ===================================================================== *)

Module Py.

Section Dict.
Context {K V : Type} `{EqDecision K}.

(** [d[k]] as a read ([None] is the [KeyError] case). *)
Fixpoint dict_get (d : list (K * V)) (k : K) : option V :=
    match d with
    | [] => None
    | (k', v) :: d' => if decide (k' = k) then Some v else dict_get d' k
    end.

(** [d[k] = v]: an existing key keeps its position and gets the new value,
      a new key is appended. *)
Fixpoint dict_set (k : K) (v : V) (d : list (K * V)) : list (K * V) :=
    match d with
    | [] => [(k, v)]
    | (k', v') :: d' =>
        if decide (k' = k) then (k', v) :: d' else (k', v') :: dict_set k v d'
    end.

Definition keys (d : list (K * V)) : list K := d.*1.
End Dict.

(** [range(lo, hi)]. *)
Definition range (lo hi : Z) : list Z :=
  (fun i : nat => lo + Z.of_nat i) <$> seq 0 (Z.to_nat (hi - lo)).

(** [l[i]] for a list or the first axis of an array: negative indices count
    from the end, anything else out of range raises [IndexError]. *)
Definition norm_index (len : nat) (i : Z) : option nat :=
  if decide (0 <= i < Z.of_nat len) then Some (Z.to_nat i)
  else if decide (- Z.of_nat len <= i < 0) then Some (Z.to_nat (Z.of_nat len + i))
  else None.

Definition getitem {A : Type} (l : list A) (i : Z) : result A :=
  match norm_index (length l) i with
  | Some n => match l !! n with Some a => Ok a | None => Raise IndexError end
  | None => Raise IndexError
  end.

(** [l[i] = a]. *)
Definition setitem {A : Type} (l : list A) (i : Z) (a : A) : result (list A) :=
  match norm_index (length l) i with
  | Some n => Ok (<[n := a]> l)
  | None => Raise IndexError
  end.

(** [a[inds]] with an integer index array (numpy fancy indexing). *)
Fixpoint take_inds {A : Type} (a : list A) (inds : list Z) : result (list A) :=
  match inds with
  | [] => Ok []
  | i :: inds' =>
      x ← getitem a i;
      xs ← take_inds a inds';
      Ok (x :: xs)
  end.

(** [a % b]: the sign follows the divisor, as [Z.modulo] does. *)
Definition mod_ (a b : Z) : result Z :=
  if decide (b = 0) then Raise ZeroDivisionError else Ok (a mod b).

End Py.

(* ===================================================================== *)
(** ** [ml3d/vis/labellut.py] *)
(* ===================================================================== *)

Module LabelLUT.

(** An RGB colour: a Python list of three floats. *)
Abbreviation color := (list Q).

(** [class Label]. *)
Record Label : Type := mkLabel {
  name : string;
  value : Z;
  label_color : color;
}.

Local Open Scope Q_scope.

Definition COLORS_default : list color :=
  [ [0.0; 0.0; 0.0]; [0.96078431; 0.58823529; 0.39215686];
    [0.96078431; 0.90196078; 0.39215686];
    [0.58823529; 0.23529412; 0.11764706];
    [0.70588235; 0.11764706; 0.31372549]; [1.0; 0.0; 0.0];
    [0.11764706; 0.11764706; 1.0]; [0.78431373; 0.15686275; 1.0];
    [0.35294118; 0.11764706; 0.58823529]; [1.0; 0.0; 1.0];
    [1.0; 0.58823529; 1.0]; [0.29411765; 0.0; 0.29411765];
    [0.29411765; 0.0; 0.68627451]; [0.0; 0.78431373; 1.0];
    [0.19607843; 0.47058824; 1.0]; [0.0; 0.68627451; 0.0];
    [0.0; 0.23529412; 0.52941176];
    [0.31372549; 0.94117647; 0.58823529];
    [0.58823529; 0.94117647; 1.0];
    [0.0; 0.0; 1.0]; [1.0; 1.0; 0.25]; [0.5; 1.0; 0.25];
    [0.25; 1.0; 0.25]; [0.25; 1.0; 0.5]; [0.25; 1.0; 1.25];
    [0.25; 0.5; 1.25]; [0.25; 0.25; 1.0]; [0.125; 0.125; 0.125];
    [0.25; 0.25; 0.25]; [0.375; 0.375; 0.375]; [0.5; 0.5; 0.5];
    [0.625; 0.625; 0.625]; [0.75; 0.75; 0.75];
    [0.875; 0.875; 0.875] ].

Definition COLORS_spectrum : list color :=
  [ [0.0; 0.7529411764705882; 0.7803921568627451];
    [0.3176470588235294; 0.26666666666666666; 0.8274509803921568];
    [0.9098039215686274; 0.5294117647058824; 0.10196078431372549];
    [0.8549019607843137; 0.20392156862745098; 0.5647058823529412];
    [0.5647058823529412; 0.5372549019607843; 0.9803921568627451];
    [0.2784313725490196; 0.8862745098039215; 0.43529411764705883];
    [0.15294117647058825; 0.5019607843137255; 0.9215686274509803];
    [0.43529411764705883; 0.2196078431372549; 0.6941176470588235];
    [0.8745098039215686; 0.7490196078431373; 0.011764705882352941];
    [0.796078431372549; 0.43529411764705883; 0.06274509803921569];
    [0.14901960784313725; 0.5529411764705883; 0.4235294117647059];
    [0.6078431372549019; 0.9254901960784314; 0.32941176470588235] ].

(** The class attribute [COLORS]. *)
Definition COLORS : list (string * list color) :=
  [ ("default"%string, COLORS_default); ("spectrum"%string, COLORS_spectrum) ].

(** The colour given once the palette is used up. *)
Definition fallback_color : color := [0.85; 1.0; 1.0].

Local Close Scope Q_scope.

(** The instance attributes of a [LabelLUT]. *)
Record t : Type := mkLUT {
  _next_color : nat;
  labels : list (Z * Label);
  colors : list color;
}.

(** [add_label(self, name, value, color=None)].  The first [match] is the
    [if color is None] block, which picks the colour and moves [_next_color]. *)
Definition add_label (nm : string) (val : Z) (col : option color) (self : t) : t :=
  let '(c, next) :=
    match col with
    | None =>
        if decide (length (colors self) <= _next_color self)%nat then
          (fallback_color, _next_color self)
        else
          (default [] (colors self !! _next_color self), S (_next_color self))
    | Some c => (c, _next_color self)
    end in
  {| _next_color := next;
     labels := Py.dict_set val (mkLabel nm val c) (labels self);
     colors := colors self |}.

(** The state of [__init__] before its loop. *)
Definition fresh (palette : list color) : t :=
  {| _next_color := 0; labels := []; colors := palette |}.

(** [sorted(label_to_names.keys())]. *)
Definition sorted_keys (label_to_names : gmap Z string) : list Z :=
  merge_sort Z.le (map_to_list label_to_names).*1.

(** The loop of [__init__]: [for val in ...: self.add_label(label_to_names[val], val)].
    [label_to_names[val]] raises [KeyError] for a missing key. *)
Fixpoint init_loop (label_to_names : gmap Z string) (vals : list Z) (self : t)
  : result t :=
  match vals with
  | [] => Ok self
  | val :: vals' =>
      match label_to_names !! val with
      | Some nm => init_loop label_to_names vals' (add_label nm val None self)
      | None => Raise KeyError
      end
  end.

(** [__init__(self, label_to_names=None, colormap='default')]. *)
Definition __init__ (label_to_names : option (gmap Z string)) (colormap : string)
  : result t :=
  match Py.dict_get COLORS colormap with
  | None => Raise KeyError
  | Some palette =>
      match label_to_names with
      | None => Ok (fresh palette)
      | Some ltn => init_loop ltn (sorted_keys ltn) (fresh palette)
      end
  end.

(** A call [lut.add_label(name, value, color)] as data, and a sequence of such
    calls made one after the other on the same table. *)
Record call : Type := mkCall {
  c_name : string;
  c_value : Z;
  c_color : option color;
}.

Definition do_call (self : t) (c : call) : t :=
  add_label (c_name c) (c_value c) (c_color c) self.

Definition run_calls (self : t) (cs : list call) : t := foldl do_call self cs.

(** Number of calls in [cs] made without a colour. *)
Definition colorless (cs : list call) : nat :=
  length (filter (fun c => c_color c = None) cs).

(** The colour the source picks for the [i]-th colourless call. *)
Definition palette_color (palette : list color) (i : nat) : color :=
  if decide (i < length palette)%nat then default [] (palette !! i)
  else fallback_color.


(** The calls made by the constructor's loop over [vals], and by the whole
    constructor. *)
Definition init_calls (ltn : gmap Z string) (vals : list Z) : list call :=
  (fun val => mkCall (default "" (ltn !! val)) val None) <$> vals.

Definition ctor_calls (label_to_names : option (gmap Z string)) : list call :=
  match label_to_names with
  | None => []
  | Some ltn => init_calls ltn (sorted_keys ltn)
  end.

(** The invariant kept by [add_label]: distinct keys, every label under its
    own value, and [_next_color] inside the palette or at its end. *)
Record lut_inv (lut : t) : Prop := {
  inv_nodup : NoDup (Py.keys (labels lut));
  inv_value : forall k l, (k, l) ∈ labels lut -> value l = k;
  inv_next : (_next_color lut <= length (colors lut))%nat;
}.

(** Number of [add_label] calls the constructor makes. *)
Definition init_count (label_to_names : option (gmap Z string)) : nat :=
  match label_to_names with
  | None => 0
  | Some ltn => size ltn
  end.

End LabelLUT.

(* ===================================================================== *)
(** ** Paths and the file system *)
(* ===================================================================== *)

Module Os.

Definition starts_with_sep (s : string) : bool :=
  match s with
  | String c _ => bool_decide (c = "/"%char)
  | EmptyString => false
  end.

Fixpoint ends_with_sep (s : string) : bool :=
  match s with
  | EmptyString => false
  | String c EmptyString => bool_decide (c = "/"%char)
  | String _ s' => ends_with_sep s'
  end.

(** [os.path.join(a, b)] (posix). *)
Definition join (a b : string) : string :=
  if starts_with_sep b then b
  else if bool_decide (a = "") || ends_with_sep a then a +:+ b
  else a +:+ "/" +:+ b.

Fixpoint zeros (n : nat) : string :=
  match n with
  | O => ""
  | S n' => String "0"%char (zeros n')
  end.

(** The format specification [05d]: sign first, then zeros up to a total
    width of five. *)
Definition format_05d (n : Z) : string :=
  let digits := pretty (Z.abs_N n) in
  if decide (n < 0) then "-" +:+ zeros (4 - String.length digits) +:+ digits
  else zeros (5 - String.length digits) +:+ digits.

(** What a path names: a directory, a file written by [torch.save] (the
    pickled object), or any other file. *)
Inductive file (Obj : Type) : Type :=
  | Dir
  | Pickle (o : Obj)
  | Other.
Arguments Dir {Obj}.
Arguments Pickle {Obj} o.
Arguments Other {Obj}.

(** [os.path.exists]. *)
Definition exists_ {Obj : Type} (fs : gmap string (file Obj)) (p : string) : bool :=
  bool_decide (is_Some (fs !! p)).

End Os.

(* ===================================================================== *)
(** ** The training framework, as far as the pipeline uses it *)
(* ===================================================================== *)

(** [state_dict()] and [load_state_dict()], shared by modules, optimizers and
    learning-rate schedulers; [SD] is the type of state dictionaries.
    [load_state_dict] is [None] when the object refuses the dictionary (the
    framework then raises its own error). *)
Class Stateful (SD A : Type) : Type := {
  state_dict : A -> SD;
  load_state_dict : SD -> A -> option A;
}.

(** After a successful [load_state_dict(sd)] the object's state is [sd]. *)
Class StatefulLaws (SD A : Type) `{Stateful SD A} : Prop := {
  load_state_dict_state :
    forall sd a a', load_state_dict sd a = Some a' -> state_dict a' = sd;
}.

(** A value stored under a key of a checkpoint dictionary. *)
Inductive pyval (SD : Type) : Type :=
  | PyInt (n : Z)
  | PyState (sd : SD).
Arguments PyInt {SD} n.
Arguments PyState {SD} sd.

(** The object [torch.save] pickles here: a [dict] with string keys. *)
Abbreviation ckpt_dict SD := (gmap string (pyval SD)).
Abbreviation filesystem SD := (gmap string (Os.file (ckpt_dict SD))).

(** [torch.save(obj, path)]. *)
Definition torch_save {SD : Type} (obj : ckpt_dict SD) (path : string)
    (fs : filesystem SD) : filesystem SD :=
  <[path := Os.Pickle obj]> fs.

(** [torch.load(path)]. *)
Definition torch_load {SD : Type} (path : string) (fs : filesystem SD)
  : result (ckpt_dict SD) :=
  match fs !! path with
  | Some (Os.Pickle obj) => Ok obj
  | Some _ => Raise UnpicklingError
  | None => Raise FileNotFoundError
  end.

(** [make_dir] and [latest_torch_ckpt] of the [utils] modules. *)
Class Utils (SD : Type) : Type := {
  make_dir : string -> filesystem SD -> filesystem SD;
  latest_torch_ckpt : string -> filesystem SD -> option string;
}.

(** [make_dir] only creates: what a path names is kept. *)
Class UtilsLaws (SD : Type) `{Utils SD} : Prop := {
  make_dir_keeps :
    forall d (fs : filesystem SD) p f, fs !! p = Some f -> make_dir d fs !! p = Some f;
}.

(** The batchers of [..dataloaders]. *)
Inductive batcher : Type :=
  | DefaultBatcher
  | ConcatBatcher (device : string) (model_name : string).

(** The records written with [log.info] by [load_ckpt] and [save_ckpt], and
    by [run_train] from ["Started training"] on. *)
Inductive log_record : Type :=
  | LogRestoreLatest                       (* ckpt_path not given. Restore from the latest ckpt *)
  | LogInitScratch                         (* Initializing from scratch. *)
  | LogLoading (ckpt_path : string)        (* Loading checkpoint {ckpt_path} *)
  | LogLoadingOptimizer                    (* Loading checkpoint optimizer_state_dict *)
  | LogLoadingScheduler                    (* Loading checkpoint scheduler_state_dict *)
  | LogStartedTraining                     (* Started training *)
  | LogEpoch (epoch max_epoch : Z)         (* === EPOCH {epoch}/{max_epoch} === *)
  | LogSaveCkpt (epoch : Z) (path_ckpt : string). (* Epoch {epoch}: save ckpt to {path_ckpt} *)

#[global] Instance log_record_eq_dec : EqDecision log_record.
Proof. solve_decision. Defined.

(* ===================================================================== *)
(** ** [ml3d/torch/pipelines/semantic_segmentation.py] *)
(* ===================================================================== *)

(** [self.cfg]: the pipeline configuration read by the modelled methods. *)
Record pipeline_cfg : Type := {
  logs_dir : string;
  max_epoch : Z;
  save_ckpt_freq : Z;
}.

(** [self.model.cfg]. *)
Record model_cfg : Type := {
  cfg_batcher : string;
  cfg_name : string;
  cfg_ckpt_path : option string;
  cfg_is_resume : option bool;       (* [None]: the key is absent *)
  num_classes : nat;
}.

(** The rows of a probability buffer and the entries of a label buffer. *)
Abbreviation probs := (list (list Q)).
Abbreviation labels_buf := (list Z).

(** A [tqdm] progress bar. *)
Record tqdm : Type := {
  pbar_total : nat;
  pbar_n : Z;
}.

Section Pipeline.
Context {SD Model Optimizer Scheduler : Type}.
Context `{!Stateful SD Model, !Stateful SD Optimizer, !Stateful SD Scheduler}.
Context `{!Utils SD}.

(** The attributes of [self] the modelled methods read or write.  An
    attribute that is only created by some method is an [option]
    ([hasattr] is [is_Some]). *)
Record pipeline : Type := {
  model : Model;
  mcfg : model_cfg;
  cfg : pipeline_cfg;
  device : string;
  optimizer : option Optimizer;
  scheduler : option Scheduler;
  self_batcher : option (option batcher);
  curr_cloud_id : Z;
  test_probs : list probs;
  test_labels : list labels_buf;
  ori_test_probs : list probs;
  ori_test_labels : list labels_buf;
  complete_infer : option bool;
  pbar : option tqdm;
  pbar_update : option Z;
}.

(** The world outside [self]: files and the log. *)
Record world : Type := {
  fs : filesystem SD;
  log : list log_record;
}.

(** A path that names a file written by [torch.save]. *)
Definition pickled (w : world) (p : string) : Prop :=
  exists d, fs w !! p = Some (Os.Pickle d).

Definition log_info (r : log_record) (w : world) : world :=
  {| fs := fs w; log := log w ++ [r] |}.

Definition with_fs (f : filesystem SD -> filesystem SD) (w : world) : world :=
  {| fs := f (fs w); log := log w |}.

(** [get_batcher(self, device, split='training')]. *)
Definition get_batcher (self : pipeline) (dev : string) : option batcher :=
  let batcher_name := cfg_batcher (mcfg self) in
  if decide (batcher_name = "DefaultBatcher") then Some DefaultBatcher
  else if decide (batcher_name = "ConcatBatcher") then
    Some (ConcatBatcher dev (cfg_name (mcfg self)))
  else None.

(** The path [save_ckpt] writes to. *)
Definition ckpt_file (self : pipeline) (epoch : Z) : string :=
  Os.join (Os.join (logs_dir (cfg self)) "checkpoint")
          ("ckpt_" +:+ Os.format_05d epoch +:+ ".pth").

(** [save_ckpt(self, epoch)].  [self.optimizer] and [self.scheduler] raise
    [AttributeError] when the attribute was never set. *)
Definition save_ckpt (self : pipeline) (epoch : Z) (w : world)
  : result (pipeline * world) :=
  let path_ckpt := Os.join (logs_dir (cfg self)) "checkpoint" in
  let w := with_fs (make_dir path_ckpt) w in
  match optimizer self, scheduler self with
  | Some opt, Some sch =>
      let d : ckpt_dict SD :=
        <["scheduler_state_dict" := PyState (state_dict sch)]>
        (<["optimizer_state_dict" := PyState (state_dict opt)]>
        (<["model_state_dict" := PyState (state_dict (model self))]>
        (<["epoch" := PyInt epoch]> ∅))) in
      let w := with_fs
        (torch_save d (Os.join path_ckpt ("ckpt_" +:+ Os.format_05d epoch +:+ ".pth"))) w in
      Ok (self, log_info (LogSaveCkpt epoch path_ckpt) w)
  | _, _ => Raise AttributeError
  end.

(** [obj.load_state_dict(ckpt[key])]: [KeyError] for a missing key,
    [TypeError] for a value that is no state dictionary, and the framework's
    error when the object refuses the dictionary. *)
Definition load_from {A : Type} `{!Stateful SD A} (ckpt : ckpt_dict SD)
    (key : string) (obj : A) : result A :=
  match ckpt !! key with
  | None => Raise KeyError
  | Some (PyState sd) =>
      match load_state_dict sd obj with
      | Some obj' => Ok obj'
      | None => Raise RuntimeError
      end
  | Some (PyInt _) => Raise TypeError
  end.

(** The block [if ckpt_path is None: ...] of [load_ckpt]: [inl] is the early
    [return], [inr] carries the path the method goes on with. *)
Definition resolve_ckpt_path (train_ckpt_dir : string) (ckpt_path : option string)
    (is_resume : bool) (w : world) : world + string * world :=
  match ckpt_path with
  | Some p => inr (p, w)
  | None =>
      match latest_torch_ckpt train_ckpt_dir (fs w) with
      | Some p =>
          if is_resume then inr (p, log_info LogRestoreLatest w)
          else inl (log_info LogInitScratch w)
      | None => inl (log_info LogInitScratch w)
      end
  end.

(** The statement
    [if key in ckpt and hasattr(self, attr): log.info(...); self.attr.load_state_dict(ckpt[key])],
    written for the optimizer and for the scheduler. *)
Definition load_if_present {A : Type} `{!Stateful SD A} (ckpt : ckpt_dict SD)
    (key : string) (r : log_record) (obj : option A) (w : world)
  : result (option A * world) :=
  match obj with
  | Some a =>
      if bool_decide (is_Some (ckpt !! key)) then
        a' ← load_from ckpt key a;
        Ok (Some a', log_info r w)
      else Ok (Some a, w)
  | None => Ok (None, w)
  end.

(** The rest of [load_ckpt], from [if not exists(ckpt_path)] on. *)
Definition restore (self : pipeline) (ckpt_path : string) (w : world)
  : result (pipeline * world) :=
  if negb (Os.exists_ (fs w) ckpt_path) then Raise FileNotFoundError
  else
    let w := log_info (LogLoading ckpt_path) w in
    ckpt ← torch_load ckpt_path (fs w);
    m ← load_from ckpt "model_state_dict" (model self);
    '(opt, w) ← load_if_present ckpt "optimizer_state_dict" LogLoadingOptimizer
                  (optimizer self) w;
    '(sch, w) ← load_if_present ckpt "scheduler_state_dict" LogLoadingScheduler
                  (scheduler self) w;
    Ok ({| model := m; mcfg := mcfg self; cfg := cfg self;
           device := device self;
           optimizer := opt; scheduler := sch;
           self_batcher := self_batcher self;
           curr_cloud_id := curr_cloud_id self;
           test_probs := test_probs self; test_labels := test_labels self;
           ori_test_probs := ori_test_probs self;
           ori_test_labels := ori_test_labels self;
           complete_infer := complete_infer self;
           pbar := pbar self; pbar_update := pbar_update self |}, w).

(** [load_ckpt(self, ckpt_path=None, is_resume=True)]. *)
Definition load_ckpt (self : pipeline) (ckpt_path : option string)
    (is_resume : bool) (w : world) : result (pipeline * world) :=
  let train_ckpt_dir := Os.join (logs_dir (cfg self)) "checkpoint" in
  let w := with_fs (make_dir train_ckpt_dir) w in
  match resolve_ckpt_path train_ckpt_dir ckpt_path is_resume w with
  | inl w => Ok (self, w)
  | inr (ckpt_path, w) => restore self ckpt_path w
  end.

End Pipeline.

(** What a sampler shows to [update_tests]. *)
Record sampler : Type := {
  split : string;
  cloud_id : Z;
  possibilities : list (list Q);
}.

(** What [run_train] asks of the model and of the framework: the pair
    returned by [model.get_optimizer(cfg)], and the body of one epoch up to
    [save_logs] (the passes over the training and validation loaders with
    [optimizer.step()], and [scheduler.step()]), which acts on the model, the
    optimizer and the scheduler. *)
Class Trainer (Model Optimizer Scheduler : Type) : Type := {
  get_optimizer : Model -> pipeline_cfg -> Optimizer * Scheduler;
  train_epoch : Z -> Model * Optimizer * Scheduler -> Model * Optimizer * Scheduler;
}.

(** What [update_tests] asks of the model and of the dataset split:
    [model.update_probs], [self.dataset_split.get_data] and the [proj_inds]
    entry of [model.preprocess(data, {'split': split})]. *)
Class Tester (Model Inputs Results Data : Type) : Type := {
  update_probs : Model -> Inputs -> Results -> probs -> labels_buf -> probs * labels_buf;
  get_data : Z -> Data;
  preprocess_proj_inds : Model -> Data -> string -> option (list Z);
}.

Section Train.
Context {SD Model Optimizer Scheduler : Type}.
Context `{!Stateful SD Model, !Stateful SD Optimizer, !Stateful SD Scheduler}.
Context `{!Utils SD, !Trainer Model Optimizer Scheduler}.

Abbreviation pipeline_t := (@pipeline Model Optimizer Scheduler).

(** Assignments to [self.model], [self.optimizer], [self.scheduler] and
    [self.batcher]. *)
Definition set_training (self : pipeline_t) (m : Model) (opt : option Optimizer)
    (sch : option Scheduler) (b : option (option batcher)) : pipeline_t :=
  {| model := m; mcfg := mcfg self; cfg := cfg self; device := device self;
     optimizer := opt; scheduler := sch; self_batcher := b;
     curr_cloud_id := curr_cloud_id self;
     test_probs := test_probs self; test_labels := test_labels self;
     ori_test_probs := ori_test_probs self; ori_test_labels := ori_test_labels self;
     complete_infer := complete_infer self;
     pbar := pbar self; pbar_update := pbar_update self |}.

(** The loop [for epoch in ...] of [run_train], over the epochs left. *)
Fixpoint train_loop (epochs : list Z) (self : pipeline_t) (w : world (SD := SD))
  : result (pipeline_t * world (SD := SD)) :=
  match epochs with
  | [] => Ok (self, w)
  | epoch :: rest =>
      let w := log_info (LogEpoch epoch (max_epoch (cfg self))) w in
      match optimizer self, scheduler self with
      | Some opt, Some sch =>
          let '(m, opt, sch) := train_epoch epoch (model self, opt, sch) in
          let self := set_training self m (Some opt) (Some sch) (self_batcher self) in
          r ← Py.mod_ epoch (save_ckpt_freq (cfg self));
          '(self, w) ← (if decide (r = 0) then save_ckpt self epoch w
                        else Ok (self, w));
          train_loop rest self w
      | _, _ => Raise AttributeError
      end
  end.

(** [self.batcher = self.get_batcher(device)]. *)
Definition with_batcher (self : pipeline_t) : pipeline_t :=
  set_training self (model self) (optimizer self) (scheduler self)
    (Some (get_batcher self (device self))).

(** [self.optimizer, self.scheduler = model.get_optimizer(cfg)]. *)
Definition with_optimizer (self : pipeline_t) : pipeline_t :=
  let '(opt, sch) := get_optimizer (model self) (cfg self) in
  set_training self (model self) (Some opt) (Some sch) (self_batcher self).

(** [run_train(self)].  Of the statements before the loop, the ones that
    decide whether and how the loop runs are kept: the batcher (the data
    loaders are built from [self.batcher.collate_fn], which raises
    [AttributeError] on [None]), the optimizer and scheduler, and the initial
    [load_ckpt].  The log file handler, the dataset splits and the summary
    writer belong to other modules and leave the modelled state alone. *)
Definition run_train (self : pipeline_t) (w : world (SD := SD))
  : result (pipeline_t * world (SD := SD)) :=
  let self := with_batcher self in
  match self_batcher self with
  | Some (Some _) =>
      let self := with_optimizer self in
      let is_resume := default true (cfg_is_resume (mcfg self)) in
      '(self, w) ← load_ckpt self (cfg_ckpt_path (mcfg self)) is_resume w;
      let w := log_info LogStartedTraining w in
      train_loop (Py.range 0 (max_epoch (cfg self) + 1)) self w
  | _ => Raise AttributeError
  end.

(** The epochs announced in a log, and the epochs at which [save_ckpt]
    reported a checkpoint, in the order of the records. *)
Definition epochs_logged (l : list log_record) : list Z :=
  omap (fun r => match r with LogEpoch e _ => Some e | _ => None end) l.

Definition ckpts_logged (l : list log_record) : list Z :=
  omap (fun r => match r with LogSaveCkpt e _ => Some e | _ => None end) l.

End Train.

Section Test.
Context {Model Optimizer Scheduler Inputs Results Data : Type}.
Context `{!Tester Model Inputs Results Data}.

Abbreviation pipeline_u := (@pipeline Model Optimizer Scheduler).

(** Assignments to the attributes used at test time. *)
Definition set_tests (self : pipeline_u) (cid : Z) (tp : list probs)
    (tl : list labels_buf) (otp : list probs) (otl : list labels_buf)
    (ci : option bool) (pb : option tqdm) (pu : option Z) : pipeline_u :=
  {| model := model self; mcfg := mcfg self; cfg := cfg self; device := device self;
     optimizer := optimizer self; scheduler := scheduler self;
     self_batcher := self_batcher self;
     curr_cloud_id := cid;
     test_probs := tp; test_labels := tl;
     ori_test_probs := otp; ori_test_labels := otl;
     complete_infer := ci; pbar := pb; pbar_update := pu |}.

(** Reading an attribute that may not exist. *)
Definition attr {A : Type} (a : option A) : result A :=
  match a with
  | Some x => Ok x
  | None => Raise AttributeError
  end.

Definition end_threshold : Q := 0.5.

(** [x > end_threshold]. *)
Definition above (x : Q) : bool := negb (Qle_bool x end_threshold).

(** [a[a > end_threshold].shape[0]]. *)
Definition count_above (a : list Q) : nat := length (filter (fun x => above x = true) a).

(** [np.zeros(shape=[num_points, num_classes])] and [np.zeros(shape=[num_points])]. *)
Definition zeros_2d (num_points ncls : nat) : probs := replicate num_points (replicate ncls 0%Q).
Definition zeros_1d (num_points : nat) : labels_buf := replicate num_points 0.

(** [tqdm.update(k)]. *)
Definition tqdm_update (bar : tqdm) (k : Z) : tqdm :=
  {| pbar_total := pbar_total bar; pbar_n := pbar_n bar + k |}.

(** The block [if self.curr_cloud_id != sampler.cloud_id: ...]. *)
Definition enter_cloud (self : pipeline_u) (smp : sampler) : result pipeline_u :=
  if decide (curr_cloud_id self <> cloud_id smp) then
    poss ← Py.getitem (possibilities smp) (cloud_id smp);
    let num_points := length poss in
    Ok (set_tests self (cloud_id smp)
          (test_probs self ++ [zeros_2d num_points (num_classes (mcfg self))])
          (test_labels self ++ [zeros_1d num_points])
          (ori_test_probs self) (ori_test_labels self)
          (Some false)
          (Some {| pbar_total := num_points; pbar_n := 0 |}) (Some 0))
  else Ok self.

(** The statements up to the assignment of [model.update_probs]'s result. *)
Definition accumulate (self : pipeline_u) (smp : sampler) (inputs : Inputs)
    (results : Results) : result pipeline_u :=
  this_possiblility ← Py.getitem (possibilities smp) (cloud_id smp);
  let cnt := Z.of_nat (count_above this_possiblility) in
  bar ← attr (pbar self);
  upd ← attr (pbar_update self);
  tp ← Py.getitem (test_probs self) (curr_cloud_id self);
  tl ← Py.getitem (test_labels self) (curr_cloud_id self);
  let '(tp', tl') := update_probs (model self) inputs results tp tl in
  tps ← Py.setitem (test_probs self) (curr_cloud_id self) tp';
  tls ← Py.setitem (test_labels self) (curr_cloud_id self) tl';
  Ok (set_tests self (curr_cloud_id self) tps tls
        (ori_test_probs self) (ori_test_labels self) (complete_infer self)
        (Some (tqdm_update bar (cnt - upd))) (Some cnt)).

(** The body of the last [if]: the buffers of the current cloud, taken at
    [proj_inds], are appended to the results. *)
Definition finalize (self : pipeline_u) (smp : sampler) : result pipeline_u :=
  let proj := preprocess_proj_inds (model self) (get_data (curr_cloud_id self))
                (split smp) in
  tp ← Py.getitem (test_probs self) (curr_cloud_id self);
  let proj_inds := match proj with
                   | Some inds => inds
                   | None => Py.range 0 (Z.of_nat (length tp))
                   end in
  otp ← Py.take_inds tp proj_inds;
  tl ← Py.getitem (test_labels self) (curr_cloud_id self);
  otl ← Py.take_inds tl proj_inds;
  Ok (set_tests self (curr_cloud_id self) (test_probs self) (test_labels self)
        (ori_test_probs self ++ [otp]) (ori_test_labels self ++ [otl])
        (Some true) (pbar self) (pbar_update self)).

(** [update_tests(self, sampler, inputs, results)]. *)
Definition update_tests (self : pipeline_u) (smp : sampler) (inputs : Inputs)
    (results : Results) : result pipeline_u :=
  self ← enter_cloud self smp;
  this_possiblility ← Py.getitem (possibilities smp) (cloud_id smp);
  self ← accumulate self smp inputs results;
  if bool_decide (split smp = "test")
     && bool_decide (count_above this_possiblility = length this_possiblility)
  then finalize self smp
  else Ok self.

End Test.

(* ===================================================================== *)
(** ** [run_inference], [run_test], [get_3d_summary], [save_config] *)
(* ===================================================================== *)

(** [l.pop()]: the last element and the list without it; [IndexError] on an
    empty list. *)
Definition pop {A : Type} (l : list A) : result (A * list A) :=
  match last l with
  | Some x => Ok (x, take (length l - 1) l)
  | None => Raise IndexError
  end.

(** The dictionary [{'predict_labels': ..., 'predict_scores': ...}]. *)
Record inference_result : Type := {
  predict_labels : labels_buf;
  predict_scores : probs;
}.

(** The forward pass [model(inputs['data'])], and [get_3d_summary] as far as
    [run_test] is concerned (the summary dictionary it returns; [S3] is the
    type of its values). *)
Class Inference (Model Optimizer Scheduler Inputs Results S3 : Type) : Type := {
  forward : Model -> Inputs -> Results;
  summary_of : @pipeline Model Optimizer Scheduler -> Results -> Inputs -> Z
               -> gmap string S3;
}.

(** [SemSegMetric]: [metric.update(torch.tensor(scores), torch.tensor(labels))]
    with the errors of the framework ([metric.acc()] and [metric.iou()] are
    only logged). *)
Class SemSegMetric (DataLabel : Type) : Type := {
  metric_update : probs -> DataLabel -> result unit;
}.

Section Infer.
Context {SD Model Optimizer Scheduler Inputs Results Data S3 DataLabel : Type}.
Context `{!Stateful SD Model, !Stateful SD Optimizer, !Stateful SD Scheduler}.
Context `{!Utils SD, !Tester Model Inputs Results Data}.
Context `{!Inference Model Optimizer Scheduler Inputs Results S3}.
Context `{!SemSegMetric DataLabel}.

Abbreviation pipeline_i := (@pipeline Model Optimizer Scheduler).

(** The assignments [self.curr_cloud_id = -1; self.test_probs = []; ...] made
    before the loop over the loader. *)
Definition reset_tests (self : pipeline_i) : pipeline_i :=
  set_tests self (-1) [] [] [] [] (complete_infer self) (pbar self) (pbar_update self).

(** A loader is the list of what it yields; each batch comes with the state
    the (shared, mutable) sampler is in when the batch has been drawn, which
    is the state [update_tests] reads. *)
Fixpoint infer_loop (batches : list (sampler * Inputs)) (self : pipeline_i)
  : result pipeline_i :=
  match batches with
  | [] => Ok self
  | (smp, inputs) :: rest =>
      let results := forward (model self) inputs in
      self ← update_tests self smp inputs results;
      infer_loop rest self
  end.

(** [run_inference(self, data)].  Of [data] the function itself reads
    [data['label']], for the metric: [data_label] is that entry, [None] when
    [data] has no such key; [batches] is what the loader made from [data]
    yields. *)
Definition run_inference (self : pipeline_i) (data_label : option DataLabel)
    (batches : list (sampler * Inputs))
  : result (pipeline_i * inference_result) :=
  match get_batcher self (device self) with
  | None => Raise AttributeError
  | Some _ =>
      self ← infer_loop batches (reset_tests self);
      '(lbl, lbls) ← pop (ori_test_labels self);
      '(prb, prbs) ← pop (ori_test_probs self);
      label ← match data_label with
              | Some label => Ok label
              | None => Raise KeyError
              end;
      _ ← metric_update prb label;
      Ok (set_tests self (curr_cloud_id self) (test_probs self) (test_labels self)
            prbs lbls (complete_infer self) (pbar self) (pbar_update self),
          {| predict_labels := lbl; predict_scores := prb |})
  end.

(** The state of [run_test]: [self], the attribute [self.summary], and the
    calls of [dataset.save_test_result] made so far, each with the cloud id
    whose attributes it was given. *)
Record test_run : Type := {
  tr_self : pipeline_i;
  tr_summary : gmap string (gmap string S3);
  tr_saved : list (Z * inference_result);
}.

(** One round of the loop of [run_test]. *)
Definition test_step (record_summary : bool) (tr : test_run)
    (batch : sampler * Inputs) : result test_run :=
  let '(smp, inputs) := batch in
  let results := forward (model (tr_self tr)) inputs in
  self ← update_tests (tr_self tr) smp inputs results;
  done ← attr (complete_infer self);
  if done : bool then
    '(lbl, lbls) ← pop (ori_test_labels self);
    '(prb, prbs) ← pop (ori_test_probs self);
    let self' := set_tests self (curr_cloud_id self) (test_probs self) (test_labels self)
                   prbs lbls (complete_infer self) (pbar self) (pbar_update self) in
    let saved := tr_saved tr
                 ++ [(cloud_id smp, {| predict_labels := lbl; predict_scores := prb |})] in
    if record_summary && negb (bool_decide (is_Some (tr_summary tr !! "test"))) then
      Ok {| tr_self := self';
            tr_summary := <["test" := summary_of self' results inputs 0]> (tr_summary tr);
            tr_saved := saved |}
    else Ok {| tr_self := self'; tr_summary := tr_summary tr; tr_saved := saved |}
  else Ok {| tr_self := self; tr_summary := tr_summary tr; tr_saved := tr_saved tr |}.

Fixpoint test_loop (record_summary : bool) (batches : list (sampler * Inputs))
    (tr : test_run) : result test_run :=
  match batches with
  | [] => Ok tr
  | batch :: rest =>
      tr ← test_step record_summary tr batch;
      test_loop record_summary rest tr
  end.

(** [run_test(self)]; [record_summary] is
    ['test' in cfg.get('summary').get('record_for', [])]. *)
Definition run_test (self : pipeline_i) (record_summary : bool)
    (batches : list (sampler * Inputs)) (w : world (SD := SD))
  : result (test_run * world (SD := SD)) :=
  match get_batcher self (device self) with
  | None => Raise AttributeError
  | Some _ =>
      '(self, w) ← load_ckpt self (cfg_ckpt_path (mcfg self)) true w;
      tr ← test_loop record_summary batches
             {| tr_self := reset_tests self;
                tr_summary := {[ "test" := ∅ ]};
                tr_saved := [] |};
      Ok (tr, w)
  end.

(** The condition under which [update_tests] finalizes, read on the sampler
    alone. *)
Definition finalizes (smp : sampler) : bool :=
  bool_decide (split smp = "test")
  && match Py.getitem (possibilities smp) (cloud_id smp) with
     | Ok poss => bool_decide (count_above poss = length poss)
     | Raise _ => false
     end.

End Infer.

(** The dictionary comprehension
    [{name: label for label, name in label_to_names.items()}] of
    [get_3d_summary]. *)
Definition name_to_labels (label_to_names : list (Z * string)) : list (string * Z) :=
  foldl (fun acc '(label, name) => Py.dict_set name label acc) [] label_to_names.

(** A value of the summary dictionary: an array computed from the batch, the
    number of the step that holds the reference data, or the empty list. *)
Inductive summary_val (Arr : Type) : Type :=
  | SArr (a : Arr)
  | SStep (step : Z)
  | SNil.
Arguments SArr {Arr} a.
Arguments SStep {Arr} step.
Arguments SNil {Arr}.

(** The array computations of [get_3d_summary] on a batch, for given
    [max_pts] and [max_outputs]: the subsampled input points, ground-truth
    labels and predicted labels. *)
Class Summarizer (Inputs Results Arr : Type) : Type := {
  sum_input_pcd : Inputs -> Z -> Z -> Arr;
  sum_gt_labels : Inputs -> Z -> Z -> Arr;
  sum_predict_labels : Inputs -> Results -> Z -> Z -> Arr;
}.

(** [self.cfg.get('summary')], as [get_3d_summary] reads it. *)
Record summary_cfg : Type := {
  max_pts : option Z;
  use_reference : option bool;
  max_outputs : option Z;
}.

(** What [get_3d_summary] reads and writes besides its arguments:
    [self._first_step], [self.dataset.name_to_labels] and
    [self.dataset.get_label_to_names()]. *)
Record summary_state : Type := {
  _first_step : option Z;
  ds_name_to_labels : option (list (string * Z));
  ds_label_to_names : list (Z * string);
}.

(** The entry ['semantic_segmentation'] of the dictionary returned. *)
Record summary_dict (Arr : Type) : Type := {
  vertex_positions : summary_val Arr;
  vertex_gt_labels : summary_val Arr;
  vertex_predict_labels : summary_val Arr;
  sd_label_to_names : list (Z * string);
}.
Arguments vertex_positions {Arr} _.
Arguments vertex_gt_labels {Arr} _.
Arguments vertex_predict_labels {Arr} _.
Arguments sd_label_to_names {Arr} _.

Section Summary.
Context {Inputs Results Arr : Type} `{!Summarizer Inputs Results Arr}.

(** [np.iinfo(np.int32).max]. *)
Definition int32_max : Z := 2147483647.

(** [get_3d_summary(self, results, inputs, epoch)]. *)
Definition get_3d_summary (st : summary_state) (scfg : summary_cfg)
    (results : Results) (inputs : Inputs) (epoch : Z)
  : summary_state * summary_dict Arr :=
  let first_step := default epoch (_first_step st) in
  let label_to_names := ds_label_to_names st in
  let n2l := match ds_name_to_labels st with
             | Some d => d
             | None => name_to_labels (ds_label_to_names st)
             end in
  let max_pts := default int32_max (max_pts scfg) in
  let use_reference := default false (use_reference scfg) in
  let max_outputs := default 1 (max_outputs scfg) in
  let fresh := bool_decide (first_step = epoch) || negb use_reference in
  let '(input_pcd, gt_labels, predict_labels) :=
    if fresh then
      (SArr (sum_input_pcd inputs max_pts max_outputs),
       SArr (sum_gt_labels inputs max_pts max_outputs),
       SArr (sum_predict_labels inputs results max_pts max_outputs))
    else (SNil, SNil, SNil) in
  let get_reference_or (data_tensor : summary_val Arr) :=
    if fresh then data_tensor else SStep first_step in
  ({| _first_step := Some first_step;
      ds_name_to_labels := Some n2l;
      ds_label_to_names := ds_label_to_names st |},
   {| vertex_positions := get_reference_or input_pcd;
      vertex_gt_labels := get_reference_or gt_labels;
      vertex_predict_labels := predict_labels;
      sd_label_to_names := label_to_names |}).

End Summary.

(** [save_config(self, writer)]: the writer is the list of its [add_text]
    calls [(tag, text, step)]; [cfg_tb] is [self.cfg_tb] when it exists;
    [code2md] is the helper of [utils] that wraps text as a code block of the
    given language. *)
Definition save_config (code2md : string -> string -> string)
    (cfg_tb : option (gmap string string)) (writer : list (string * string * Z))
  : result (list (string * string * Z)) :=
  match cfg_tb with
  | None => Ok writer
  | Some tb =>
      readme ← from_option Ok (Raise KeyError) (tb !! "readme");
      let writer := writer ++ [("Description/Open3D-ML", readme, 0)] in
      cmd_line ← from_option Ok (Raise KeyError) (tb !! "cmd_line");
      let writer := writer ++ [("Description/Command line", cmd_line, 0)] in
      dataset ← from_option Ok (Raise KeyError) (tb !! "dataset");
      let writer := writer ++ [("Configuration/Dataset", code2md dataset "json", 0)] in
      mdl ← from_option Ok (Raise KeyError) (tb !! "model");
      let writer := writer ++ [("Configuration/Model", code2md mdl "json", 0)] in
      pipe ← from_option Ok (Raise KeyError) (tb !! "pipeline");
      Ok (writer ++ [("Configuration/Pipeline", code2md pipe "json", 0)])
  end.

(* ===================================================================== *)
(** ** A small instance of the interfaces, for evaluation *)
(* ===================================================================== *)

Module Demo.

(** State dictionaries are lists of integers; an object is its own state and
    refuses a dictionary of another length. *)
#[export] Instance demo_stateful : Stateful (list Z) (list Z) := {|
  state_dict := fun a => a;
  load_state_dict := fun sd a =>
    if decide (length sd = length a) then Some sd else None;
|}.

(** [make_dir] creates the directory when nothing has its name;
    [latest_torch_ckpt] reads the name of the latest checkpoint from the
    pickled file [latest] of the directory. *)
#[export] Instance demo_utils : Utils (list Z) := {|
  make_dir := fun d fs => match fs !! d with Some _ => fs | None => <[d := Os.Dir]> fs end;
  latest_torch_ckpt := fun d fs =>
    match fs !! Os.join d "latest" with
    | Some (Os.Pickle o) =>
        match o !! "epoch" with
        | Some (PyInt e) => Some (Os.join d ("ckpt_" +:+ Os.format_05d e +:+ ".pth"))
        | _ => None
        end
    | _ => None
    end;
|}.

(** One epoch adds the epoch number to every weight and records it in the
    optimizer and in the scheduler. *)
#[export] Instance demo_trainer : Trainer (list Z) (list Z) (list Z) := {|
  get_optimizer := fun m c => ([0], [1]);
  train_epoch := fun e '(m, o, s) => ((fun x => x + e) <$> m, [e], [e + 1]);
|}.

(** [update_probs] adds one to the first class of every point and labels
    every point 1; [preprocess] gives no [proj_inds]. *)
#[export] Instance demo_tester : Tester (list Z) unit unit unit := {|
  update_probs := fun m i r tp tl =>
    ((fun row => match row with x :: row' => (x + 1)%Q :: row' | [] => [] end) <$> tp,
     (fun _ => 1) <$> tl);
  get_data := fun _ => tt;
  preprocess_proj_inds := fun m d s => None;
|}.

Definition demo_cfg (n freq : Z) : pipeline_cfg :=
  {| logs_dir := "./logs/m_d_torch"; max_epoch := n; save_ckpt_freq := freq |}.

Definition demo_mcfg (b : string) (path : option string) : model_cfg :=
  {| cfg_batcher := b; cfg_name := "RandLANet"; cfg_ckpt_path := path;
     cfg_is_resume := None; num_classes := 2 |}.

(** A pipeline as [__init__] leaves it, with the test attributes as
    [run_test] sets them. *)
Definition demo_pipeline (n freq : Z) (b : string) (path : option string)
  : pipeline (Model := list Z) (Optimizer := list Z) (Scheduler := list Z) :=
  {| model := [10; 20]; mcfg := demo_mcfg b path; cfg := demo_cfg n freq;
     device := "cpu"; optimizer := None; scheduler := None; self_batcher := None;
     curr_cloud_id := -1; test_probs := []; test_labels := [];
     ori_test_probs := []; ori_test_labels := [];
     complete_infer := None; pbar := None; pbar_update := None |}.

Definition demo_world : world (SD := list Z) := {| fs := ∅; log := [] |}.

(** The pipeline once [run_train] has set its batcher, optimizer and
    scheduler; the same after one more epoch of training; and the world
    after [save_ckpt(0)]. *)
Definition demo_trained (n freq : Z) : pipeline :=
  with_optimizer (with_batcher (demo_pipeline n freq "DefaultBatcher" None)).

Definition demo_trained_more (n freq : Z) : pipeline :=
  set_training (demo_trained n freq) [11; 21] (Some [5]) (Some [6])
    (self_batcher (demo_trained n freq)).

Definition demo_saved : world (SD := list Z) :=
  match save_ckpt (demo_trained 2 2) 0 demo_world with
  | Ok (_, w) => w
  | Raise _ => demo_world
  end.

(** The world after the initial [load_ckpt] of [run_train]. *)
Definition demo_loaded : world (SD := list Z) :=
  log_info LogInitScratch
    (with_fs (make_dir (Os.join "./logs/m_d_torch" "checkpoint")) demo_world).

(** A sampler on its first cloud, with both points covered, and with one
    point still below the threshold. *)
Definition demo_sampler_done : sampler :=
  {| split := "test"; cloud_id := 0; possibilities := [[0.7; 0.9]%Q] |}.

Definition demo_sampler_open : sampler :=
  {| split := "test"; cloud_id := 0; possibilities := [[0.7; 0.2]%Q] |}.

End Demo.

Module Demo_more.
Import Demo.

(** The forward pass gives nothing ([Results] is [unit]) and summaries are
    empty. *)
#[export] Instance demo_inference
  : Inference (list Z) (list Z) (list Z) unit unit unit := {|
  forward := fun m i => tt;
  summary_of := fun self r i e => ∅;
|}.

(** A metric that takes every pair of scores and labels. *)
#[export] Instance demo_metric : SemSegMetric (list Z) := {|
  metric_update := fun scores label => Ok tt;
|}.

(** Arrays are lists of integers; inputs and results are lists, cut to
    [max_pts] entries. *)
#[export] Instance demo_summarizer : Summarizer (list Z) (list Z) (list Z) := {|
  sum_input_pcd := fun i max_pts max_outputs => take (Z.to_nat max_pts) i;
  sum_gt_labels := fun i max_pts max_outputs => take (Z.to_nat max_pts) i;
  sum_predict_labels := fun i r max_pts max_outputs => take (Z.to_nat max_pts) r;
|}.

(** A file that holds the weights only, and one that holds no weights. *)
Definition demo_weights : world (SD := list Z) :=
  {| fs := {[ "w.pth" := Os.Pickle {[ "model_state_dict" := PyState [7; 8] ]} ]};
     log := [] |}.

Definition demo_no_weights : world (SD := list Z) :=
  {| fs := {[ "e.pth" := Os.Pickle {[ "epoch" := PyInt 3 ]} ]}; log := [] |}.

(** The checkpoint of [demo_saved], and the same world with another number
    under [epoch]. *)
Definition demo_ckpt : ckpt_dict (list Z) :=
  match fs demo_saved !! "./logs/m_d_torch/checkpoint/ckpt_00000.pth" with
  | Some (Os.Pickle d) => d
  | _ => ∅
  end.

Definition demo_saved_later : world (SD := list Z) :=
  {| fs := <["./logs/m_d_torch/checkpoint/ckpt_00000.pth"
             := Os.Pickle (<["epoch" := PyInt 9]> demo_ckpt)]> (fs demo_saved);
     log := log demo_saved |}.

(** Samplers: of the validation split; and on a cloud that was never
    reached in order. *)
Definition demo_sampler_valid : sampler :=
  {| split := "validation"; cloud_id := 0; possibilities := [[0.7; 0.9]%Q] |}.

Definition demo_sampler_far : sampler :=
  {| split := "test"; cloud_id := 3;
     possibilities := [[0.7]%Q; [0.7]%Q; [0.7]%Q; [0.7]%Q] |}.

(** A loader of three batches; the cloud is complete at the second. *)
Definition demo_batches : list (sampler * unit) :=
  [(demo_sampler_open, tt); (demo_sampler_done, tt); (demo_sampler_done, tt)].

Definition demo_label_to_names : list (Z * string) :=
  [(0, "unlabeled"); (1, "car"); (2, "road")].

Definition demo_summary_state : summary_state :=
  {| _first_step := None; ds_name_to_labels := None;
     ds_label_to_names := demo_label_to_names |}.

Definition demo_summary_cfg : summary_cfg :=
  {| max_pts := Some 2; use_reference := Some true; max_outputs := None |}.

End Demo_more.

(* ===================================================================== *)
(** * Properties *)
(* ===================================================================== *)

(** ** The error monad *)

Lemma bind_Raise {A B : Type} (r : result A) (k : A -> result B) e :
  r ≫= k = Raise e -> r = Raise e \/ exists a, r = Ok a /\ k a = Raise e.
Proof.
  destruct r as [a|e']; intros Hr; cbv [mbind result_bind] in Hr.
  - right. by exists a.
  - left. by injection Hr as ->.
Qed.

Lemma bind_Ok {A B : Type} (r : result A) (k : A -> result B) b :
  r ≫= k = Ok b -> exists a, r = Ok a /\ k a = Ok b.
Proof.
  destruct r as [a|e']; intros Hr; cbv [mbind result_bind] in Hr; [|done].
  by exists a.
Qed.

(** ** Python dictionaries *)

Section DictFacts.
Context {K V : Type} `{EqDecision K}.
Implicit Types (d : list (K * V)) (k : K) (v : V).

Lemma dict_get_set_eq d k v : Py.dict_get (Py.dict_set k v d) k = Some v.
Proof.
    induction d as [|[k' v'] d IH]; simpl.
    - by rewrite decide_True.
    - destruct (decide (k' = k)) as [->|Hne]; simpl.
      + by rewrite decide_True.
      + by rewrite decide_False.
Qed.

Lemma dict_get_set_ne d k k' v :
    k <> k' -> Py.dict_get (Py.dict_set k v d) k' = Py.dict_get d k'.
Proof.
    intros Hne. induction d as [|[k0 v0] d IH]; simpl.
    - by rewrite decide_False.
    - destruct (decide (k0 = k)) as [->|Hk0]; simpl.
      + by rewrite !decide_False.
      + by rewrite IH.
Qed.

Lemma dict_get_None d k : Py.dict_get d k = None <-> k ∉ Py.keys d.
Proof.
    unfold Py.keys. induction d as [|[k' v'] d IH]; simpl.
    - split; [intros _; apply not_elem_of_nil | done].
    - rewrite not_elem_of_cons. destruct (decide (k' = k)) as [->|Hne].
      + split; [done | intros [? _]; done].
      + rewrite IH. split; [by intros ?; split; [intros ->|] | by intros [_ ?]].
Qed.

Lemma dict_get_Some_elem d k v : Py.dict_get d k = Some v -> (k, v) ∈ d.
Proof.
    induction d as [|[k' v'] d IH]; simpl; [done|].
    destruct (decide (k' = k)) as [->|Hne].
    - intros [= ->]. apply elem_of_cons; by left.
    - intros Hg. apply elem_of_cons; right; auto.
Qed.

Lemma dict_elem_get d k v :
    NoDup (Py.keys d) -> (k, v) ∈ d -> Py.dict_get d k = Some v.
Proof.
    unfold Py.keys. induction d as [|[k' v'] d IH]; simpl.
    - intros _ Hin. by apply elem_of_nil in Hin.
    - rewrite NoDup_cons. intros [Hk' Hnd] Hin.
      apply elem_of_cons in Hin as [[= -> ->]|Hin].
      + by rewrite decide_True.
      + rewrite decide_False; [by apply IH|].
        intros ->. apply Hk'. apply list_elem_of_fmap. by exists (k, v).
Qed.

Lemma keys_set_in d k v : k ∈ Py.keys d -> Py.keys (Py.dict_set k v d) = Py.keys d.
Proof.
    unfold Py.keys. induction d as [|[k' v'] d IH]; simpl.
    - intros Hin. by apply elem_of_nil in Hin.
    - intros Hin. destruct (decide (k' = k)) as [->|Hne]; simpl; [done|].
      apply elem_of_cons in Hin as [->|Hin]; [done|]. f_equal. by apply IH.
Qed.

Lemma keys_set_notin d k v :
    k ∉ Py.keys d -> Py.keys (Py.dict_set k v d) = Py.keys d ++ [k].
Proof.
    unfold Py.keys. induction d as [|[k' v'] d IH]; simpl; [done|].
    rewrite not_elem_of_cons. intros [Hne Hnin].
    rewrite decide_False by done. simpl. f_equal. by apply IH.
Qed.

Lemma NoDup_keys_set d k v :
    NoDup (Py.keys d) -> NoDup (Py.keys (Py.dict_set k v d)).
Proof.
    intros Hnd. destruct (decide (k ∈ Py.keys d)) as [Hin|Hnin].
    - by rewrite keys_set_in.
    - rewrite keys_set_notin by done. apply NoDup_app. split_and!; [done| |].
      + intros x Hx ->%list_elem_of_singleton. done.
      + apply NoDup_singleton.
Qed.

Lemma elem_of_dict_set d k v k' v' :
    (k', v') ∈ Py.dict_set k v d -> (k', v') = (k, v) \/ (k', v') ∈ d.
Proof.
    induction d as [|[k0 v0] d IH]; simpl.
    - intros ->%list_elem_of_singleton. by left.
    - destruct (decide (k0 = k)) as [->|Hne]; rewrite !elem_of_cons.
      + intros [?|?]; auto.
      + intros [?|?]; [auto|]. destruct IH as [?|?]; auto.
Qed.
End DictFacts.

(** ** The label look-up table *)

Module LabelLUT_facts.
Import LabelLUT.

Lemma colors_add_label nm val col lut :
  colors (add_label nm val col lut) = colors lut.
Proof. unfold add_label. by repeat case_match. Qed.

Lemma next_color_add_label_None nm val lut :
  (_next_color lut <= length (colors lut))%nat ->
  _next_color (add_label nm val None lut)
  = Nat.min (S (_next_color lut)) (length (colors lut)).
Proof.
  intros Hle. unfold add_label. case_decide; cbn [_next_color]; lia.
Qed.

Lemma next_color_add_label_Some nm val c lut :
  _next_color (add_label nm val (Some c) lut) = _next_color lut.
Proof. done. Qed.

Lemma labels_add_label nm val col lut :
  exists c, labels (add_label nm val col lut)
            = Py.dict_set val (mkLabel nm val c) (labels lut)
  /\ c = match col with
         | Some c' => c'
         | None => palette_color (colors lut) (_next_color lut)
         end.
Proof.
  unfold add_label, palette_color. destruct col as [c'|]; simpl.
  - by exists c'.
  - case_decide; simpl.
    + exists fallback_color. split; [done|]. rewrite decide_False; [done|lia].
    + eexists. split; [done|]. rewrite decide_True; [done|lia].
Qed.

Lemma lut_inv_fresh palette : lut_inv (fresh palette).
Proof.
  split; simpl.
  - apply NoDup_nil_2.
  - intros k l Hin. by apply elem_of_nil in Hin.
  - lia.
Qed.

Lemma lut_inv_add_label nm val col lut :
  lut_inv lut -> lut_inv (add_label nm val col lut).
Proof.
  intros [Hnd Hval Hnext].
  destruct (labels_add_label nm val col lut) as (c & Hl & _).
  split.
  - rewrite Hl. by apply NoDup_keys_set.
  - rewrite Hl. intros k l [[= -> ->]|Hin]%elem_of_dict_set; [done | by apply Hval].
  - rewrite colors_add_label. destruct col as [c'|].
    + by rewrite next_color_add_label_Some.
    + rewrite next_color_add_label_None by done. lia.
Qed.

Lemma run_calls_snoc lut cs c :
  run_calls lut (cs ++ [c]) = do_call (run_calls lut cs) c.
Proof. unfold run_calls. by rewrite foldl_app. Qed.

Lemma run_calls_app lut cs1 cs2 :
  run_calls lut (cs1 ++ cs2) = run_calls (run_calls lut cs1) cs2.
Proof. unfold run_calls. by rewrite foldl_app. Qed.

Lemma lut_inv_run_calls lut cs : lut_inv lut -> lut_inv (run_calls lut cs).
Proof.
  revert lut. induction cs as [|c cs IH]; intros lut Hinv; simpl; [done|].
  apply IH. by apply lut_inv_add_label.
Qed.

Lemma colors_run_calls lut cs : colors (run_calls lut cs) = colors lut.
Proof.
  revert lut. induction cs as [|c cs IH]; intros lut; simpl; [done|].
  rewrite IH. apply colors_add_label.
Qed.

Lemma colorless_snoc cs c :
  colorless (cs ++ [c])
  = (colorless cs + match c_color c with None => 1 | Some _ => 0 end)%nat.
Proof.
  unfold colorless. rewrite filter_app, length_app. f_equal.
  destruct (c_color c) eqn:Hc.
  - rewrite filter_cons_False; [done | by rewrite Hc].
  - by rewrite filter_cons_True.
Qed.

(** [_next_color] counts the colourless calls, and stops at the palette's end. *)
Lemma next_color_run_calls lut cs :
  (_next_color lut <= length (colors lut))%nat ->
  _next_color (run_calls lut cs)
  = Nat.min (_next_color lut + colorless cs) (length (colors lut)).
Proof.
  intros Hle. induction cs as [|c cs IH] using rev_ind.
  - simpl. unfold colorless. simpl. lia.
  - rewrite run_calls_snoc, colorless_snoc. unfold do_call.
    destruct (c_color c) as [col|].
    + rewrite next_color_add_label_Some, IH. f_equal; lia.
    + rewrite next_color_add_label_None; rewrite colors_run_calls, IH; lia.
Qed.

Lemma init_loop_run_calls ltn vals lut :
  (forall k, k ∈ vals -> is_Some (ltn !! k)) ->
  init_loop ltn vals lut = Ok (run_calls lut (init_calls ltn vals)).
Proof.
  revert lut. induction vals as [|val vals IH]; intros lut Hdom; simpl; [done|].
  destruct (Hdom val) as [nm Hnm]; [apply elem_of_cons; by left|].
  rewrite Hnm. simpl. rewrite IH; [done|].
  intros k Hk. apply Hdom. apply elem_of_cons; by right.
Qed.

Lemma colorless_init_calls ltn vals : colorless (init_calls ltn vals) = length vals.
Proof.
  unfold colorless, init_calls. induction vals as [|v vals IH]; [done|].
  rewrite fmap_cons, filter_cons_True by done. cbn [length]. by rewrite IH.
Qed.

Lemma elem_of_sorted_keys (ltn : gmap Z string) k :
  k ∈ sorted_keys ltn <-> is_Some (ltn !! k).
Proof.
  unfold sorted_keys. rewrite merge_sort_Permutation.
  rewrite list_elem_of_fmap. split.
  - intros [[k' v] [-> Hin]]. apply elem_of_map_to_list in Hin. by exists v.
  - intros [v Hv]. exists (k, v). split; [done|]. by apply elem_of_map_to_list.
Qed.

Lemma NoDup_sorted_keys (ltn : gmap Z string) : NoDup (sorted_keys ltn).
Proof.
  unfold sorted_keys. rewrite merge_sort_Permutation. apply NoDup_fst_map_to_list.
Qed.

Lemma length_sorted_keys (ltn : gmap Z string) : length (sorted_keys ltn) = size ltn.
Proof.
  unfold sorted_keys. rewrite merge_sort_Permutation, length_fmap.
  apply length_map_to_list.
Qed.

#[local] Instance Z_le_total : Total Z.le.
Proof. intros x y. lia. Qed.

Lemma StronglySorted_lookup_lt {A : Type} (R : relation A) (l : list A) i j a b :
  StronglySorted R l -> l !! i = Some a -> l !! j = Some b -> (i < j)%nat -> R a b.
Proof.
  intros Hs Hi Hj Hij. rewrite <- (take_drop j l) in Hs.
  eapply StronglySorted_app_1_elem_of; [exact Hs| |].
  - apply list_elem_of_lookup. exists i. by rewrite lookup_take_lt.
  - apply list_elem_of_lookup. exists 0%nat. by rewrite lookup_drop, Nat.add_0_r.
Qed.

Lemma sorted_keys_increasing (ltn : gmap Z string) i j a b :
  sorted_keys ltn !! i = Some a -> sorted_keys ltn !! j = Some b ->
  (i < j)%nat -> a < b.
Proof.
  intros Hi Hj Hij.
  assert (Hs : StronglySorted Z.le (sorted_keys ltn)).
  { apply StronglySorted_merge_sort; apply _. }
  assert (a <= b).
  { eapply (StronglySorted_lookup_lt Z.le); eauto. }
  assert (a <> b); [|lia].
  intros ->. pose proof (NoDup_sorted_keys ltn) as Hnd.
  assert (i = j); [|lia]. eapply NoDup_lookup; eauto.
Qed.

Lemma palette_color_min palette n :
  palette_color palette (Nat.min n (length palette)) = palette_color palette n.
Proof.
  unfold palette_color. destruct (decide (n < length palette)%nat).
  - rewrite Nat.min_l by lia. by rewrite decide_True.
  - rewrite Nat.min_r by lia. rewrite decide_False; [done|lia].
Qed.

(** What the last call of a sequence leaves under its value. *)
Lemma run_calls_last lut pre c :
  lut_inv lut ->
  Py.dict_get (labels (run_calls lut (pre ++ [c]))) (c_value c)
  = Some (mkLabel (c_name c) (c_value c)
            match c_color c with
            | Some col => col
            | None => palette_color (colors lut) (_next_color lut + colorless pre)
            end).
Proof.
  intros Hinv. rewrite run_calls_snoc. unfold do_call.
  destruct (labels_add_label (c_name c) (c_value c) (c_color c) (run_calls lut pre))
    as (col & -> & ->).
  rewrite dict_get_set_eq. do 2 f_equal. destruct (c_color c); [done|].
  rewrite colors_run_calls, next_color_run_calls by apply Hinv.
  apply palette_color_min.
Qed.

Lemma dict_get_run_calls_other lut cs k :
  Forall (fun c => c_value c <> k) cs ->
  Py.dict_get (labels (run_calls lut cs)) k = Py.dict_get (labels lut) k.
Proof.
  revert lut. induction cs as [|c cs IH]; intros lut Hne; simpl; [done|].
  apply Forall_cons in Hne as [Hc Hcs]. rewrite IH by done. unfold do_call.
  destruct (labels_add_label (c_name c) (c_value c) (c_color c) lut) as (col & -> & _).
  by apply dict_get_set_ne.
Qed.

Lemma keys_run_calls_fresh lut cs :
  NoDup (c_value <$> cs) ->
  (forall k, k ∈ c_value <$> cs -> k ∉ Py.keys (labels lut)) ->
  Py.keys (labels (run_calls lut cs)) = Py.keys (labels lut) ++ (c_value <$> cs).
Proof.
  revert lut. induction cs as [|c cs IH]; intros lut Hnd Hfresh.
  - simpl. by rewrite app_nil_r.
  - rewrite fmap_cons in Hnd, Hfresh. apply NoDup_cons in Hnd as [Hc Hnd].
    assert (Hk : Py.keys (labels (do_call lut c)) = Py.keys (labels lut) ++ [c_value c]).
    { unfold do_call.
      destruct (labels_add_label (c_name c) (c_value c) (c_color c) lut) as (col & -> & _).
      apply keys_set_notin, Hfresh, elem_of_cons. by left. }
    simpl. rewrite IH; [by rewrite Hk, <- app_assoc | done |].
    intros k Hin. rewrite Hk, not_elem_of_app. split.
    + apply Hfresh, elem_of_cons. by right.
    + intros ->%list_elem_of_singleton. done.
Qed.

Lemma fmap_value_init_calls ltn vals : c_value <$> init_calls ltn vals = vals.
Proof.
  unfold init_calls. rewrite <- list_fmap_compose. apply list_fmap_id.
Qed.

(** The table built by the constructor's loop over distinct keys of
    [label_to_names]. *)
Lemma init_calls_spec ltn vals palette i k :
  NoDup vals -> vals !! i = Some k ->
  Py.dict_get (labels (run_calls (fresh palette) (init_calls ltn vals))) k
  = Some (mkLabel (default "" (ltn !! k)) k (palette_color palette i)).
Proof.
  intros Hnd Hi.
  assert (Hlen : (i < length vals)%nat) by (eapply lookup_lt_Some; eauto).
  assert (Hsplit : init_calls ltn vals
    = (init_calls ltn (take i vals) ++ [mkCall (default "" (ltn !! k)) k None])
      ++ init_calls ltn (drop (S i) vals)).
  { unfold init_calls. rewrite <- (take_drop (S i) vals) at 1.
    rewrite fmap_app. erewrite take_S_r by done. by rewrite fmap_app. }
  rewrite Hsplit, run_calls_app, dict_get_run_calls_other.
  - rewrite run_calls_last by apply lut_inv_fresh. simpl.
    rewrite colorless_init_calls, length_take. do 3 f_equal. lia.
  - apply Forall_fmap, Forall_forall. intros v Hv. simpl. intros ->.
    apply list_elem_of_lookup in Hv as [j Hj]. rewrite lookup_drop in Hj.
    assert (S i + j = i)%nat; [|lia]. eapply NoDup_lookup; eauto.
Qed.

Lemma palette_color_lookup palette i x :
  palette !! i = Some x -> palette_color palette i = x.
Proof.
  intros Hi. unfold palette_color. pose proof (lookup_lt_Some _ _ _ Hi) as Hlt.
  rewrite decide_True by done. by rewrite Hi.
Qed.

Lemma palette_color_ge palette i :
  (length palette <= i)%nat -> palette_color palette i = fallback_color.
Proof. intros Hi. unfold palette_color. rewrite decide_False; [done|lia]. Qed.

Lemma colorless_app cs1 cs2 :
  colorless (cs1 ++ cs2) = (colorless cs1 + colorless cs2)%nat.
Proof. unfold colorless. by rewrite filter_app, length_app. Qed.

(** The constructor is the fresh table followed by its own [add_label] calls. *)
Lemma init_run_calls ltn cmap lut0 :
  __init__ ltn cmap = Ok lut0 ->
  exists palette, Py.dict_get COLORS cmap = Some palette
    /\ lut0 = run_calls (fresh palette) (ctor_calls ltn).
Proof.
  unfold __init__. destruct (Py.dict_get COLORS cmap) as [palette|]; [|done].
  intros Hinit. exists palette. split; [done|]. destruct ltn as [ltn|]; simpl.
  - rewrite init_loop_run_calls in Hinit; [by injection Hinit|].
    intros k. apply elem_of_sorted_keys.
  - by injection Hinit.
Qed.

Lemma colorless_ctor_calls ltn : colorless (ctor_calls ltn) = init_count ltn.
Proof.
  destruct ltn as [ltn|]; simpl; [|done].
  by rewrite colorless_init_calls, length_sorted_keys.
Qed.

Lemma palette_lengths cmap palette :
  Py.dict_get COLORS cmap = Some palette ->
  (cmap = "default" -> length palette = 34%nat)
  /\ (cmap = "spectrum" -> length palette = 12%nat).
Proof.
  intros Hp. split; intros ->; simpl in Hp; by injection Hp as <-.
Qed.

(** The keys after one [add_label]: the value goes to the end when it is new,
    and the keys stay as they are when it is there already. *)
Lemma keys_add_label nm val col lut :
  Py.keys (labels (add_label nm val col lut))
  = if decide (val ∈ Py.keys (labels lut)) then Py.keys (labels lut)
    else Py.keys (labels lut) ++ [val].
Proof.
  destruct (labels_add_label nm val col lut) as (c & -> & _).
  destruct (decide (val ∈ Py.keys (labels lut))).
  - by apply keys_set_in.
  - by apply keys_set_notin.
Qed.

(** The keys of the table are the old keys and the values of the calls. *)
Lemma elem_of_keys_run_calls lut cs k :
  k ∈ Py.keys (labels (run_calls lut cs))
  <-> k ∈ Py.keys (labels lut) \/ k ∈ c_value <$> cs.
Proof.
  revert lut. induction cs as [|c cs IH]; intros lut.
  - simpl. rewrite elem_of_nil. tauto.
  - cbn [run_calls foldl]. change (foldl do_call (do_call lut c) cs)
      with (run_calls (do_call lut c) cs). rewrite IH, fmap_cons, elem_of_cons.
    unfold do_call. rewrite keys_add_label.
    destruct (decide (c_value c ∈ Py.keys (labels lut))) as [Hin|Hnin].
    + split; [tauto|]. intros [?|[->|?]]; tauto.
    + rewrite elem_of_app, list_elem_of_singleton. tauto.
Qed.

(** C6.  Invariant of the label table.  On a [LabelLUT] obtained from the
    constructor and any sequence of [add_label] calls, the keys of [labels]
    are pairwise distinct, so a value is bound to exactly one [Label]; every
    stored [Label] carries in its [value] field the key it is stored under;
    the keys are exactly the values that were added, by the constructor or by
    a call; the entry under a value is the one of the last call that named
    it, with the name of that call and its colour when it passed one, so a
    later [add_label] has replaced what an earlier one stored; and one more
    [add_label] binds its value to the new label, leaves the keys as they
    were when the value is a key already (and appends it otherwise), and
    leaves the other entries untouched. *)
Theorem labels_keys_unique ltn cmap lut0 cs :
  __init__ ltn cmap = Ok lut0 ->
  NoDup (Py.keys (labels (run_calls lut0 cs)))
  /\ (forall k l1 l2,
        (k, l1) ∈ labels (run_calls lut0 cs) ->
        (k, l2) ∈ labels (run_calls lut0 cs) -> l1 = l2)
  /\ (forall k l, (k, l) ∈ labels (run_calls lut0 cs) -> value l = k)
  /\ (forall k, k ∈ Py.keys (labels (run_calls lut0 cs))
                <-> k ∈ c_value <$> (ctor_calls ltn ++ cs))
  /\ (forall pre c post,
        cs = pre ++ c :: post ->
        Forall (fun c' => c_value c' <> c_value c) post ->
        exists col,
          Py.dict_get (labels (run_calls lut0 cs)) (c_value c)
            = Some (mkLabel (c_name c) (c_value c) col)
          /\ (forall x, c_color c = Some x -> col = x))
  /\ (forall nm val col,
        Py.keys (labels (add_label nm val col (run_calls lut0 cs)))
          = (if decide (val ∈ Py.keys (labels (run_calls lut0 cs)))
             then Py.keys (labels (run_calls lut0 cs))
             else Py.keys (labels (run_calls lut0 cs)) ++ [val])
        /\ (exists c, Py.dict_get (labels (add_label nm val col (run_calls lut0 cs))) val
                      = Some (mkLabel nm val c)
                      /\ (forall x, col = Some x -> c = x))
        /\ (forall k, k <> val ->
              Py.dict_get (labels (add_label nm val col (run_calls lut0 cs))) k
              = Py.dict_get (labels (run_calls lut0 cs)) k)).
Proof.
  intros (palette & _ & ->)%init_run_calls. rewrite <- run_calls_app.
  pose proof (lut_inv_run_calls _ (ctor_calls ltn ++ cs) (lut_inv_fresh palette))
    as [Hnd Hval _].
  split_and!; [done | | done | | |].
  - intros k l1 l2 H1 H2. apply (dict_elem_get _ _ _ Hnd) in H1, H2. congruence.
  - intros k. rewrite elem_of_keys_run_calls. simpl. rewrite elem_of_nil. tauto.
  - intros pre c post -> Hpost.
    replace (ctor_calls ltn ++ pre ++ c :: post)
      with (((ctor_calls ltn ++ pre) ++ [c]) ++ post)
      by (by rewrite <- !app_assoc).
    rewrite (run_calls_app _ _ post), dict_get_run_calls_other by done.
    rewrite run_calls_last by apply lut_inv_fresh.
    eexists. split; [reflexivity|]. by intros x ->.
  - intros nm val col. split_and!.
    + apply keys_add_label.
    + destruct (labels_add_label nm val col
                  (run_calls (fresh palette) (ctor_calls ltn ++ cs)))
        as (c & -> & ->).
      eexists. split; [apply dict_get_set_eq|]. by intros x ->.
    + intros k Hk.
      destruct (labels_add_label nm val col
                  (run_calls (fresh palette) (ctor_calls ltn ++ cs)))
        as (c & -> & _).
      by apply dict_get_set_ne.
Qed.

(** C7.  For a dictionary [label_to_names] and a colormap of [COLORS], the
    constructor returns a table whose keys are exactly the keys of
    [label_to_names], in increasing order (the order in which the entries were
    added); the entry under key [k] has name [label_to_names[k]] and value
    [k]; and the entry added [i]-th got the [i]-th colour of the palette, or
    the fallback colour past the palette's end. *)
Theorem init_populates (ltn : gmap Z string) cmap palette :
  Py.dict_get COLORS cmap = Some palette ->
  exists lut,
    __init__ (Some ltn) cmap = Ok lut
    /\ Py.keys (labels lut) = sorted_keys ltn
    /\ NoDup (Py.keys (labels lut))
    /\ (forall k, k ∈ Py.keys (labels lut) <-> is_Some (ltn !! k))
    /\ (forall i j a b,
          Py.keys (labels lut) !! i = Some a -> Py.keys (labels lut) !! j = Some b ->
          (i < j)%nat -> a < b)
    /\ (forall i k,
          Py.keys (labels lut) !! i = Some k ->
          exists nm col,
            ltn !! k = Some nm
            /\ Py.dict_get (labels lut) k = Some (mkLabel nm k col)
            /\ (forall x, palette !! i = Some x -> col = x)
            /\ ((length palette <= i)%nat -> col = fallback_color)).
Proof.
  intros Hp. exists (run_calls (fresh palette) (init_calls ltn (sorted_keys ltn))).
  assert (Hkeys : Py.keys (labels (run_calls (fresh palette)
                    (init_calls ltn (sorted_keys ltn)))) = sorted_keys ltn).
  { rewrite keys_run_calls_fresh; rewrite fmap_value_init_calls.
    - done.
    - apply NoDup_sorted_keys.
    - intros k _. apply not_elem_of_nil. }
  rewrite Hkeys. split_and!.
  - unfold __init__. rewrite Hp. apply init_loop_run_calls.
    intros k. apply elem_of_sorted_keys.
  - done.
  - apply NoDup_sorted_keys.
  - apply elem_of_sorted_keys.
  - apply sorted_keys_increasing.
  - intros i k Hi.
    assert (Hk : is_Some (ltn !! k)).
    { apply elem_of_sorted_keys, list_elem_of_lookup. by exists i. }
    destruct Hk as [nm Hnm]. exists nm, (palette_color palette i). split_and!.
    + done.
    + rewrite (init_calls_spec ltn _ palette i k (NoDup_sorted_keys ltn) Hi).
      by rewrite Hnm.
    + intros x Hx. by apply palette_color_lookup.
    + apply palette_color_ge.
Qed.

(** C8.  On a table obtained from the constructor (which itself makes
    [init_count] colourless calls), consider a call [c] made after the calls
    [pre].  If [c] passes no colour, then with [i] the number of colourless
    calls before it, the label it stores has colour [colors[i]] when [i] is
    inside the palette, and the fallback [[0.85, 1.0, 1.0]] when it is not.
    If [c] passes a colour, that colour is stored and [_next_color] does not
    move.  The palette has 34 colours for ['default'] and 12 for
    ['spectrum']. *)
Theorem add_label_palette_order ltn cmap lut0 pre c :
  __init__ ltn cmap = Ok lut0 ->
  (c_color c = None ->
     exists col,
       Py.dict_get (labels (run_calls lut0 (pre ++ [c]))) (c_value c)
         = Some (mkLabel (c_name c) (c_value c) col)
       /\ (forall x, colors lut0 !! (init_count ltn + colorless pre)%nat = Some x ->
             col = x)
       /\ ((length (colors lut0) <= init_count ltn + colorless pre)%nat ->
             col = [0.85; 1.0; 1.0]%Q))
  /\ (forall col, c_color c = Some col ->
        Py.dict_get (labels (run_calls lut0 (pre ++ [c]))) (c_value c)
          = Some (mkLabel (c_name c) (c_value c) col)
        /\ _next_color (run_calls lut0 (pre ++ [c])) = _next_color (run_calls lut0 pre))
  /\ (cmap = "default" -> length (colors lut0) = 34%nat)
  /\ (cmap = "spectrum" -> length (colors lut0) = 12%nat).
Proof.
  intros (palette & Hp & ->)%init_run_calls.
  rewrite colors_run_calls. simpl.
  pose proof (run_calls_last (fresh palette) (ctor_calls ltn ++ pre) c
                (lut_inv_fresh palette)) as Hlast.
  rewrite <- app_assoc, run_calls_app in Hlast.
  rewrite colorless_app, colorless_ctor_calls in Hlast. simpl in Hlast.
  split_and!.
  - intros Hc. rewrite Hc in Hlast. eexists. split_and!; [exact Hlast | |].
    + intros x Hx. by apply palette_color_lookup.
    + apply palette_color_ge.
  - intros col Hc. rewrite Hc in Hlast. split; [done|].
    rewrite run_calls_snoc. unfold do_call. by rewrite Hc.
  - by apply palette_lengths.
  - by apply palette_lengths.
Qed.

(** Evaluation of C6: a table on which value 1 is added twice.  Both values
    are keys, once each, and the entry under 1 is the one of the second
    call. *)
Lemma labels_keys_unique_witness :
  __init__ None "default" = Ok (fresh COLORS_default)
  /\ NoDup (Py.keys (labels (run_calls (fresh COLORS_default)
        [mkCall "one" 1 None; mkCall "two" 2 None; mkCall "uno" 1 None])))
  /\ 2 ∈ Py.keys (labels (run_calls (fresh COLORS_default)
        [mkCall "one" 1 None; mkCall "two" 2 None; mkCall "uno" 1 None]))
  /\ exists col,
       Py.dict_get (labels (run_calls (fresh COLORS_default)
         [mkCall "one" 1 None; mkCall "two" 2 None; mkCall "uno" 1 None])) 1
       = Some (mkLabel "uno" 1 col).
Proof.
  assert (Hinit : __init__ None "default" = Ok (fresh COLORS_default)) by reflexivity.
  destruct (labels_keys_unique None "default" (fresh COLORS_default)
    [mkCall "one" 1 None; mkCall "two" 2 None; mkCall "uno" 1 None] Hinit)
    as (Hnd & _ & _ & Hkeys & Hlast & _).
  split_and!; [done | done | |].
  - apply Hkeys. simpl. apply elem_of_cons. right. apply elem_of_cons. by left.
  - destruct (Hlast [mkCall "one" 1 None; mkCall "two" 2 None] (mkCall "uno" 1 None) [])
      as (col & Hcol & _); [done | constructor |].
    by exists col.
Defined.

(** Evaluation of C7 on the spectrum palette. *)
Lemma init_populates_witness :
  Py.dict_get COLORS "spectrum" = Some COLORS_spectrum
  /\ exists lut,
       __init__ (Some (<[7 := "road"]> (<[2 := "car"]> ∅))) "spectrum" = Ok lut
       /\ Py.keys (labels lut) = sorted_keys (<[7 := "road"]> (<[2 := "car"]> ∅)).
Proof.
  split; [reflexivity|].
  destruct (init_populates (<[7 := "road"]> (<[2 := "car"]> ∅)) "spectrum"
              COLORS_spectrum eq_refl) as (lut & Hinit & Hkeys & _).
  exists lut. split; [exact Hinit | exact Hkeys].
Defined.

(** Evaluation of C8: the third colourless call, made after a call that
    passed its own colour. *)
Lemma add_label_palette_order_witness :
  __init__ (Some (<[0 := "unlabeled"]> ∅)) "default"
    = Ok (run_calls (fresh COLORS_default) [mkCall "unlabeled" 0 None])
  /\ exists col,
       Py.dict_get (labels (run_calls
           (run_calls (fresh COLORS_default) [mkCall "unlabeled" 0 None])
           ([mkCall "car" 1 None; mkCall "sky" 9 (Some [0.0; 0.0; 1.0]%Q)]
            ++ [mkCall "tree" 3 None]))) 3
         = Some (mkLabel "tree" 3 col)
       /\ col = [0.96078431; 0.90196078; 0.39215686]%Q.
Proof.
  assert (Hinit : __init__ (Some (<[0 := "unlabeled"]> ∅)) "default"
    = Ok (run_calls (fresh COLORS_default) [mkCall "unlabeled" 0 None]))
    by reflexivity.
  split; [exact Hinit|].
  destruct (proj1 (add_label_palette_order
    (Some (<[0 := "unlabeled"]> ∅)) "default"
    (run_calls (fresh COLORS_default) [mkCall "unlabeled" 0 None])
    [mkCall "car" 1 None; mkCall "sky" 9 (Some [0.0; 0.0; 1.0]%Q)]
    (mkCall "tree" 3 None) Hinit) eq_refl) as (col & Hget & Hin & _).
  exists col. split; [exact Hget | apply Hin; reflexivity].
Defined.
End LabelLUT_facts.

(** ** Paths *)

Lemma append_assoc (a b c : string) : (a +:+ b) +:+ c = a +:+ (b +:+ c).
Proof. induction a as [|x a IH]; simpl; [done|]. unfold String.append in *. simpl. by rewrite IH. Qed.

Lemma length_append (a b : string) :
  String.length (a +:+ b) = (String.length a + String.length b)%nat.
Proof. induction a as [|x a IH]; simpl; [done|]. by rewrite <- IH. Qed.

Lemma length_zeros k : String.length (Os.zeros k) = k.
Proof. induction k as [|k IH]; simpl; [done|]. by rewrite IH. Qed.

Lemma ends_with_sep_append (a b : string) :
  b <> "" -> Os.ends_with_sep (a +:+ b) = Os.ends_with_sep b.
Proof.
  intros Hb. induction a as [|x a IH]; [done|].
  change (String x a +:+ b) with (String x (a +:+ b)).
  cbn [Os.ends_with_sep]. destruct (a +:+ b) eqn:Hab; [|done].
  destruct a; [|done]. simpl in Hab. done.
Qed.

Lemma join_plain (a b : string) :
  Os.starts_with_sep b = false -> a <> "" -> Os.ends_with_sep a = false ->
  Os.join a b = a +:+ "/" +:+ b.
Proof.
  intros Hb Ha Hsep. unfold Os.join. rewrite Hb, Hsep.
  by rewrite bool_decide_eq_false_2.
Qed.

(** With leading zeros the number takes at least five characters. *)
Lemma format_05d_nonneg (e : Z) :
  0 <= e ->
  Os.format_05d e
    = Os.zeros (5 - String.length (pretty (Z.to_N e))) +:+ pretty (Z.to_N e)
  /\ (5 <= String.length (Os.format_05d e))%nat.
Proof.
  intros He. unfold Os.format_05d. rewrite decide_False by lia.
  rewrite Zabs2N.abs_N_nonneg by done. split; [done|].
  rewrite length_append, length_zeros. lia.
Qed.

Example format_05d_examples :
  Os.format_05d 0 = "00000" /\ Os.format_05d 20 = "00020"
  /\ Os.format_05d 99999 = "99999" /\ Os.format_05d 123456 = "123456".
Proof. by vm_compute. Qed.

(** ** Checkpoints *)

Section CheckpointFacts.
Context {SD Model Optimizer Scheduler : Type}.
Context `{!Stateful SD Model, !Stateful SD Optimizer, !Stateful SD Scheduler}.
Context `{!Utils SD}.
Implicit Types (self : @pipeline Model Optimizer Scheduler) (w : world (SD := SD)).

(** The dictionary [save_ckpt] pickles. *)
Lemma ckpt_dict_fields (e : Z) (m o s : SD) :
  let d : ckpt_dict SD :=
    <["scheduler_state_dict" := PyState s]>
    (<["optimizer_state_dict" := PyState o]>
    (<["model_state_dict" := PyState m]> (<["epoch" := PyInt e]> ∅))) in
  dom d = {[ "epoch"; "model_state_dict"; "optimizer_state_dict";
             "scheduler_state_dict" ]}
  /\ d !! "epoch" = Some (PyInt e)
  /\ d !! "model_state_dict" = Some (PyState m)
  /\ d !! "optimizer_state_dict" = Some (PyState o)
  /\ d !! "scheduler_state_dict" = Some (PyState s).
Proof.
  simpl. split_and!.
  - rewrite !dom_insert_L, dom_empty_L. set_solver.
  - by simplify_map_eq.
  - by simplify_map_eq.
  - by simplify_map_eq.
  - by simplify_map_eq.
Qed.

Lemma ckpt_file_plain self epoch :
  logs_dir (cfg self) <> "" -> Os.ends_with_sep (logs_dir (cfg self)) = false ->
  ckpt_file self epoch
  = logs_dir (cfg self) +:+ "/checkpoint/ckpt_" +:+ Os.format_05d epoch +:+ ".pth".
Proof.
  intros Hne Hsep. unfold ckpt_file.
  rewrite (join_plain (logs_dir (cfg self))) by done.
  rewrite join_plain.
  - by rewrite !append_assoc.
  - done.
  - destruct (logs_dir (cfg self)); done.
  - rewrite !ends_with_sep_append; done.
Qed.

(** What [save_ckpt] does once an optimizer and a scheduler are set: one
    file is written after [make_dir], one record is logged. *)
Lemma save_ckpt_writes self epoch w opt sch :
  optimizer self = Some opt -> scheduler self = Some sch ->
  exists w' d,
    save_ckpt self epoch w = Ok (self, w')
    /\ fs w' !! ckpt_file self epoch = Some (Os.Pickle d)
    /\ (forall p, p <> ckpt_file self epoch ->
          fs w' !! p = make_dir (Os.join (logs_dir (cfg self)) "checkpoint") (fs w) !! p)
    /\ log w' = log w ++ [LogSaveCkpt epoch (Os.join (logs_dir (cfg self)) "checkpoint")]
    /\ dom d = {[ "epoch"; "model_state_dict"; "optimizer_state_dict";
                  "scheduler_state_dict" ]}
    /\ d !! "epoch" = Some (PyInt epoch)
    /\ d !! "model_state_dict" = Some (PyState (state_dict (model self)))
    /\ d !! "optimizer_state_dict" = Some (PyState (state_dict opt))
    /\ d !! "scheduler_state_dict" = Some (PyState (state_dict sch)).
Proof.
  intros Hopt Hsch. unfold save_ckpt. rewrite Hopt, Hsch.
  eexists _, _. split; [reflexivity|].
  destruct (ckpt_dict_fields epoch (state_dict (model self)) (state_dict opt)
              (state_dict sch)) as (Hdom & He & Hm & Ho & Hs).
  split_and!; try done.
  - simpl. unfold torch_save, ckpt_file. apply lookup_insert_eq.
  - intros p Hp. simpl. unfold torch_save. apply lookup_insert_ne.
    intros <-. by apply Hp.
Qed.

(** C3.  With an optimizer and a scheduler set, [save_ckpt(epoch)] returns,
    leaves [self] as it is, writes one file (every other path names what it
    named after [make_dir]) and logs it.  The file is
    [join(join(logs_dir, 'checkpoint'), 'ckpt_' + format(epoch, '05d') + '.pth')],
    which reads [<logs_dir>/checkpoint/ckpt_<epoch>.pth] for a [logs_dir]
    that is not empty and has no trailing separator, the epoch taking at
    least five characters.  Its content is one pickled dictionary whose keys
    are exactly [epoch], [model_state_dict], [optimizer_state_dict] and
    [scheduler_state_dict], bound to the epoch number and to the three
    [state_dict()]s. *)
Theorem save_ckpt_record self epoch w opt sch :
  optimizer self = Some opt -> scheduler self = Some sch ->
  exists w' d,
    save_ckpt self epoch w = Ok (self, w')
    /\ fs w' !! Os.join (Os.join (logs_dir (cfg self)) "checkpoint")
                 ("ckpt_" +:+ Os.format_05d epoch +:+ ".pth")
       = Some (Os.Pickle d)
    /\ (forall p, p <> ckpt_file self epoch ->
          fs w' !! p = make_dir (Os.join (logs_dir (cfg self)) "checkpoint") (fs w) !! p)
    /\ log w' = log w ++ [LogSaveCkpt epoch (Os.join (logs_dir (cfg self)) "checkpoint")]
    /\ dom d = {[ "epoch"; "model_state_dict"; "optimizer_state_dict";
                  "scheduler_state_dict" ]}
    /\ d !! "epoch" = Some (PyInt epoch)
    /\ d !! "model_state_dict" = Some (PyState (state_dict (model self)))
    /\ d !! "optimizer_state_dict" = Some (PyState (state_dict opt))
    /\ d !! "scheduler_state_dict" = Some (PyState (state_dict sch))
    /\ (logs_dir (cfg self) <> "" -> Os.ends_with_sep (logs_dir (cfg self)) = false ->
          ckpt_file self epoch
          = logs_dir (cfg self) +:+ "/checkpoint/ckpt_" +:+ Os.format_05d epoch +:+ ".pth")
    /\ (0 <= epoch ->
          Os.format_05d epoch
            = Os.zeros (5 - String.length (pretty (Z.to_N epoch)))
              +:+ pretty (Z.to_N epoch)
          /\ (5 <= String.length (Os.format_05d epoch))%nat).
Proof.
  intros Hopt Hsch.
  destruct (save_ckpt_writes self epoch w opt sch Hopt Hsch)
    as (w' & d & Hsave & Hfile & Hother & Hlog & Hdom & He & Hm & Ho & Hs).
  exists w', d. split_and!; try done.
  - apply ckpt_file_plain.
  - intros He0. by apply format_05d_nonneg.
Qed.

(** Without the attributes [save_ckpt] raises. *)
Lemma save_ckpt_no_optimizer self epoch w :
  optimizer self = None \/ scheduler self = None ->
  save_ckpt self epoch w = Raise AttributeError.
Proof.
  unfold save_ckpt. intros [-> | ->]; [done|]. by destruct (optimizer self).
Qed.

End CheckpointFacts.

Section LoadFacts.
Context {SD Model Optimizer Scheduler : Type}.
Context `{!Stateful SD Model, !Stateful SD Optimizer, !Stateful SD Scheduler}.
Context `{!Utils SD}.
Implicit Types (self : @pipeline Model Optimizer Scheduler) (w : world (SD := SD)).

Lemma load_from_not_fnf {A : Type} `{!Stateful SD A} (ckpt : ckpt_dict SD) key (obj : A) :
  load_from ckpt key obj <> Raise FileNotFoundError.
Proof.
  unfold load_from. destruct (ckpt !! key) as [[?|sd]|]; try done.
  by destruct (load_state_dict sd obj).
Qed.

Lemma load_if_present_not_fnf {A : Type} `{!Stateful SD A} (ckpt : ckpt_dict SD)
    key r (obj : option A) w :
  load_if_present ckpt key r obj w <> Raise FileNotFoundError.
Proof.
  unfold load_if_present. destruct obj as [a|]; [case_bool_decide|]; try done.
  intros [Hl|(? & _ & ?)]%bind_Raise; [|done]. by apply load_from_not_fnf in Hl.
Qed.

(** What a successful [load_if_present] leaves: the attribute exists after
    iff it existed before, and the log grew by at most the given record. *)
Lemma load_if_present_Ok {A : Type} `{!Stateful SD A} (ckpt : ckpt_dict SD)
    key r (obj obj' : option A) w w' :
  load_if_present ckpt key r obj w = Ok (obj', w') ->
  (is_Some obj <-> is_Some obj') /\ fs w' = fs w
  /\ (log w' = log w \/ log w' = log w ++ [r]).
Proof.
  unfold load_if_present. destruct obj as [a|]; [case_bool_decide|].
  - intros (a' & _ & [= <- <-])%bind_Ok. split_and!; [|done|by right].
    split; eauto.
  - intros [= <- <-]. auto.
  - intros [= <- <-]. auto.
Qed.

Lemma exists_true (fs0 : filesystem SD) p :
  Os.exists_ fs0 p = true <-> is_Some (fs0 !! p).
Proof. unfold Os.exists_. apply bool_decide_eq_true. Qed.

Lemma exists_false (fs0 : filesystem SD) p :
  Os.exists_ fs0 p = false <-> fs0 !! p = None.
Proof.
  unfold Os.exists_. rewrite bool_decide_eq_false, <- eq_None_not_Some. done.
Qed.

Lemma torch_load_not_fnf (fs0 : filesystem SD) p :
  is_Some (fs0 !! p) -> torch_load p fs0 <> Raise FileNotFoundError.
Proof. intros [f Hf]. unfold torch_load. rewrite Hf. by destruct f. Qed.

(** The path [load_ckpt] goes on with, when it does. *)
Lemma resolve_ckpt_path_inr dir ckpt_path is_resume w p w' :
  resolve_ckpt_path dir ckpt_path is_resume w = inr (p, w') <->
  (ckpt_path = Some p /\ w' = w)
  \/ (ckpt_path = None /\ latest_torch_ckpt dir (fs w) = Some p /\ is_resume = true
      /\ w' = log_info LogRestoreLatest w).
Proof.
  unfold resolve_ckpt_path. destruct ckpt_path as [q|].
  - split; [intros [= -> ->]; by left | intros [[[= ->] ->]|[? _]]; done].
  - destruct (latest_torch_ckpt dir (fs w)) as [q|]; [destruct is_resume|].
    + split; [intros [= -> <-]; right; done | intros [[? _]|(_ & [= ->] & _ & ->)]; done].
    + split; [done | intros [[? _]|(_ & _ & ? & _)]; done].
    + split; [done | intros [[? _]|(_ & ? & _)]; done].
Qed.

Lemma resolve_ckpt_path_inl dir ckpt_path is_resume w w' :
  resolve_ckpt_path dir ckpt_path is_resume w = inl w' <->
  ckpt_path = None
  /\ (latest_torch_ckpt dir (fs w) = None \/ is_resume = false)
  /\ w' = log_info LogInitScratch w.
Proof.
  unfold resolve_ckpt_path. destruct ckpt_path as [q|].
  - split; [done | intros [? _]; done].
  - destruct (latest_torch_ckpt dir (fs w)) as [q|]; [destruct is_resume|].
    + split; [done | intros (_ & [?|?] & _); done].
    + split; [intros [= <-]; split_and!; auto | intros (_ & _ & ->); done].
    + split; [intros [= <-]; split_and!; auto | intros (_ & _ & ->); done].
Qed.

(** [restore] raises [FileNotFoundError] for a missing path and for nothing
    else. *)
Lemma restore_not_found self p w :
  restore self p w = Raise FileNotFoundError <-> fs w !! p = None.
Proof.
  unfold restore. destruct (Os.exists_ (fs w) p) eqn:Hex; cbn [negb].
  - apply exists_true in Hex. split; [|intros Hn; rewrite Hn in Hex; by destruct Hex].
    intros Hraise. exfalso.
    apply bind_Raise in Hraise as [Hl|(ckpt & _ & Hraise)];
      [by apply torch_load_not_fnf in Hl|].
    apply bind_Raise in Hraise as [Hl|(m & _ & Hraise)];
      [by apply load_from_not_fnf in Hl|].
    apply bind_Raise in Hraise as [Hl|([opt w1] & _ & Hraise)];
      [by apply load_if_present_not_fnf in Hl|].
    apply bind_Raise in Hraise as [Hl|([sch w2] & _ & Hraise)]; [|done].
    by apply load_if_present_not_fnf in Hl.
  - apply exists_false in Hex. done.
Qed.

(** [restore] on a file that holds the three state dictionaries, into objects
    that accept them. *)
Lemma restore_saved self p w (d : ckpt_dict SD) sdm sdo sds o s m' o' s' :
  fs w !! p = Some (Os.Pickle d) ->
  d !! "model_state_dict" = Some (PyState sdm) ->
  d !! "optimizer_state_dict" = Some (PyState sdo) ->
  d !! "scheduler_state_dict" = Some (PyState sds) ->
  optimizer self = Some o -> scheduler self = Some s ->
  load_state_dict sdm (model self) = Some m' ->
  load_state_dict sdo o = Some o' ->
  load_state_dict sds s = Some s' ->
  exists self' w',
    restore self p w = Ok (self', w')
    /\ model self' = m' /\ optimizer self' = Some o' /\ scheduler self' = Some s'
    /\ fs w' = fs w.
Proof.
  intros Hp Hdm Hdo Hds Ho Hs Hm' Ho' Hs'. unfold restore.
  assert (Hex : Os.exists_ (fs w) p = true) by (apply exists_true; eauto).
  rewrite Hex. cbn [negb fs log_info]. unfold torch_load. rewrite Hp.
  cbn [mbind result_bind]. unfold load_if_present, load_from.
  rewrite Hdm, Hm', Ho, Hs, Hdo, Hds.
  rewrite !bool_decide_eq_true_2 by eauto.
  rewrite Ho', Hs'. cbn [mbind result_bind]. eexists _, _. split; [reflexivity|].
  done.
Qed.

(** C2.  [load_ckpt] raises [FileNotFoundError] exactly when the path it goes
    on with (the argument, or for a missing argument the latest checkpoint
    when there is one and [is_resume] holds) names nothing on the file system
    as [make_dir] left it.  Called without a path, with no latest checkpoint
    or with [is_resume] false, it returns with [self] unchanged, having
    logged that it initializes from scratch. *)
Theorem load_ckpt_not_found self (ckpt_path : option string) (is_resume : bool) w :
  (load_ckpt self ckpt_path is_resume w = Raise FileNotFoundError <->
   exists p,
     (ckpt_path = Some p
      \/ (ckpt_path = None
          /\ latest_torch_ckpt (Os.join (logs_dir (cfg self)) "checkpoint")
               (make_dir (Os.join (logs_dir (cfg self)) "checkpoint") (fs w)) = Some p
          /\ is_resume = true))
     /\ make_dir (Os.join (logs_dir (cfg self)) "checkpoint") (fs w) !! p = None)
  /\ (ckpt_path = None ->
      latest_torch_ckpt (Os.join (logs_dir (cfg self)) "checkpoint")
        (make_dir (Os.join (logs_dir (cfg self)) "checkpoint") (fs w)) = None
      \/ is_resume = false ->
      load_ckpt self ckpt_path is_resume w
      = Ok (self, {| fs := make_dir (Os.join (logs_dir (cfg self)) "checkpoint") (fs w);
                     log := log w ++ [LogInitScratch] |})).
Proof.
  unfold load_ckpt.
  set (dir := Os.join (logs_dir (cfg self)) "checkpoint").
  set (w0 := with_fs (make_dir dir) w).
  change (make_dir dir (fs w)) with (fs w0).
  split.
  - destruct (resolve_ckpt_path dir ckpt_path is_resume w0) as [w1|[p w1]] eqn:Hres.
    + apply resolve_ckpt_path_inl in Hres as (-> & Hlatest & ->).
      split; [done|]. intros (p & [?|(_ & Hl & ->)] & _); [done|].
      destruct Hlatest as [Hn|?]; [|done]. by rewrite Hn in Hl.
    + rewrite restore_not_found.
      apply resolve_ckpt_path_inr in Hres as [[-> ->]|(-> & Hlatest & -> & ->)].
      * split; [intros Hn; exists p; auto|].
        intros (q & [[= ->]|(? & _)] & Hq); done.
      * cbn [fs log_info]. split; [intros Hn; exists p; auto|].
        intros (q & [?|(_ & Hl & _)] & Hq); [done|]. rewrite Hlatest in Hl.
        by injection Hl as ->.
  - intros -> Hlatest.
    destruct (resolve_ckpt_path dir None is_resume w0) as [w1|[p w1]] eqn:Hres.
    + by apply resolve_ckpt_path_inl in Hres as (_ & _ & ->).
    + apply resolve_ckpt_path_inr in Hres as [[? _]|(_ & Hl & -> & _)]; [done|].
      destruct Hlatest as [Hn|?]; [|done]. by rewrite Hn in Hl.
Qed.

(** C4.  Checkpoint round trip.  Let [save_ckpt(epoch)] be called on a
    pipeline with an optimizer and a scheduler, and let [load_ckpt] be called
    later with the path of the written file, in a world where that file is
    still what was written, on a pipeline whose model, optimizer and scheduler
    accept the saved dictionaries.  Then [load_ckpt] returns, and the three
    [state_dict()]s are exactly the ones that were saved. *)
Theorem ckpt_round_trip
    `{!StatefulLaws SD Model, !StatefulLaws SD Optimizer, !StatefulLaws SD Scheduler}
    `{!UtilsLaws SD}
    self epoch w self1 w1 opt sch self2 w2 opt2 sch2 (is_resume : bool) :
  optimizer self = Some opt -> scheduler self = Some sch ->
  save_ckpt self epoch w = Ok (self1, w1) ->
  fs w2 !! ckpt_file self epoch = fs w1 !! ckpt_file self epoch ->
  optimizer self2 = Some opt2 -> scheduler self2 = Some sch2 ->
  is_Some (load_state_dict (state_dict (model self)) (model self2)) ->
  is_Some (load_state_dict (state_dict opt) opt2) ->
  is_Some (load_state_dict (state_dict sch) sch2) ->
  exists self3 w3 opt3 sch3,
    load_ckpt self2 (Some (ckpt_file self epoch)) is_resume w2 = Ok (self3, w3)
    /\ state_dict (model self3) = state_dict (model self)
    /\ optimizer self3 = Some opt3 /\ state_dict opt3 = state_dict opt
    /\ scheduler self3 = Some sch3 /\ state_dict sch3 = state_dict sch.
Proof.
  intros Hopt Hsch Hsave Hfile Hopt2 Hsch2 [m3 Hm3] [o3 Ho3] [s3 Hs3].
  destruct (save_ckpt_writes self epoch w opt sch Hopt Hsch)
    as (w' & d & Hsave' & Hd & _ & _ & _ & _ & Hdm & Hdo & Hds).
  rewrite Hsave in Hsave'. injection Hsave' as -> ->.
  rewrite Hd in Hfile.
  unfold load_ckpt. cbn [resolve_ckpt_path].
  edestruct (restore_saved self2 (ckpt_file self epoch)
              (with_fs (make_dir (Os.join (logs_dir (cfg self2)) "checkpoint")) w2) d)
    as (self3 & w3 & Hres & Hm & Ho & Hs & _);
    [ | exact Hdm | exact Hdo | exact Hds | exact Hopt2 | exact Hsch2
      | exact Hm3 | exact Ho3 | exact Hs3 | ].
  { cbn [fs with_fs]. by apply make_dir_keeps. }
  exists self3, w3, o3, s3. rewrite Hm. split_and!; try done.
  - by apply load_state_dict_state in Hm3.
  - by apply load_state_dict_state in Ho3.
  - by apply load_state_dict_state in Hs3.
Qed.

End LoadFacts.

(** ** The training loop *)

Lemma epochs_logged_snoc l r :
  epochs_logged (l ++ [r])
  = epochs_logged l ++ match r with LogEpoch e _ => [e] | _ => [] end.
Proof.
  unfold epochs_logged. rewrite omap_app. f_equal. by destruct r.
Qed.

Lemma ckpts_logged_snoc l r :
  ckpts_logged (l ++ [r])
  = ckpts_logged l ++ match r with LogSaveCkpt e _ => [e] | _ => [] end.
Proof.
  unfold ckpts_logged. rewrite omap_app. f_equal. by destruct r.
Qed.

Lemma length_range lo hi : length (Py.range lo hi) = Z.to_nat (hi - lo).
Proof. unfold Py.range. by rewrite length_fmap, length_seq. Qed.

Lemma lookup_range lo hi (i : nat) :
  (i < Z.to_nat (hi - lo))%nat -> Py.range lo hi !! i = Some (lo + Z.of_nat i).
Proof.
  intros Hi. unfold Py.range. rewrite list_lookup_fmap, lookup_seq_lt by done.
  done.
Qed.

Lemma elem_of_range lo hi e : e ∈ Py.range lo hi <-> lo <= e < hi.
Proof.
  unfold Py.range. rewrite list_elem_of_fmap. split.
  - intros (i & -> & Hi%elem_of_seq). lia.
  - intros He. exists (Z.to_nat (e - lo)). split; [lia|]. apply elem_of_seq. lia.
Qed.

Section TrainFacts.
Context {SD Model Optimizer Scheduler : Type}.
Context `{!Stateful SD Model, !Stateful SD Optimizer, !Stateful SD Scheduler}.
Context `{!Utils SD, !Trainer Model Optimizer Scheduler}.
Implicit Types (self : @pipeline Model Optimizer Scheduler) (w : world (SD := SD)).

Lemma restore_Ok self p w self' w' :
  restore self p w = Ok (self', w') ->
  cfg self' = cfg self /\ mcfg self' = mcfg self
  /\ (is_Some (optimizer self) -> is_Some (optimizer self'))
  /\ (is_Some (scheduler self) -> is_Some (scheduler self'))
  /\ fs w' = fs w
  /\ epochs_logged (log w') = epochs_logged (log w)
  /\ ckpts_logged (log w') = ckpts_logged (log w).
Proof.
  unfold restore. destruct (negb _); [done|].
  intros (ckpt & _ & Hr)%bind_Ok.
  apply bind_Ok in Hr as (m & _ & Hr).
  apply bind_Ok in Hr as ([opt w1] & Ho & Hr).
  apply bind_Ok in Hr as ([sch w2] & Hs & Hr).
  injection Hr as <- <-. cbn [cfg mcfg optimizer scheduler].
  apply load_if_present_Ok in Ho as (Ho & Hfs1 & Hlog1).
  apply load_if_present_Ok in Hs as (Hs & Hfs2 & Hlog2).
  split_and!; try done.
  - apply Ho.
  - apply Hs.
  - by rewrite Hfs2, Hfs1.
  - destruct Hlog2 as [-> | ->], Hlog1 as [-> | ->]; cbn [log log_info];
      by rewrite !epochs_logged_snoc, !app_nil_r.
  - destruct Hlog2 as [-> | ->], Hlog1 as [-> | ->]; cbn [log log_info];
      by rewrite !ckpts_logged_snoc, !app_nil_r.
Qed.

Lemma load_ckpt_Ok self ckpt_path is_resume w self' w' :
  load_ckpt self ckpt_path is_resume w = Ok (self', w') ->
  cfg self' = cfg self /\ mcfg self' = mcfg self
  /\ (is_Some (optimizer self) -> is_Some (optimizer self'))
  /\ (is_Some (scheduler self) -> is_Some (scheduler self'))
  /\ fs w' = make_dir (Os.join (logs_dir (cfg self)) "checkpoint") (fs w)
  /\ epochs_logged (log w') = epochs_logged (log w)
  /\ ckpts_logged (log w') = ckpts_logged (log w).
Proof.
  unfold load_ckpt.
  destruct (resolve_ckpt_path _ ckpt_path is_resume _) as [w1|[p w1]] eqn:Hres.
  - apply resolve_ckpt_path_inl in Hres as (_ & _ & ->). intros [= <- <-].
    cbn [log log_info with_fs fs].
    by rewrite epochs_logged_snoc, ckpts_logged_snoc, !app_nil_r.
  - intros (Hc & Hm & Ho & Hs & Hfs & He & Hk)%restore_Ok.
    rewrite Hfs, He, Hk.
    apply resolve_ckpt_path_inr in Hres as [[_ ->]|(_ & _ & _ & ->)];
      cbn [log log_info with_fs fs];
      rewrite ?epochs_logged_snoc, ?ckpts_logged_snoc, ?app_nil_r; done.
Qed.

(** The loop over [epochs]: it returns when an optimizer and a scheduler are
    set and [save_ckpt_freq] is not zero, announces every epoch, and saves at
    the epochs that [save_ckpt_freq] divides. *)
Lemma train_loop_spec epochs self w :
  is_Some (optimizer self) -> is_Some (scheduler self) ->
  save_ckpt_freq (cfg self) <> 0 ->
  exists self' w',
    train_loop epochs self w = Ok (self', w')
    /\ cfg self' = cfg self
    /\ epochs_logged (log w') = epochs_logged (log w) ++ epochs
    /\ ckpts_logged (log w')
       = ckpts_logged (log w)
         ++ filter (fun e => e mod save_ckpt_freq (cfg self) = 0) epochs.
Proof.
  revert self w. induction epochs as [|epoch rest IH]; intros self w Ho Hs Hfreq.
  - exists self, w. by rewrite !app_nil_r.
  - destruct Ho as [opt Ho], Hs as [sch Hs]. cbn [train_loop]. rewrite Ho, Hs.
    destruct (train_epoch epoch (model self, opt, sch)) as [[m opt'] sch'].
    set (self1 := set_training self m (Some opt') (Some sch') (self_batcher self)).
    assert (Hcfg1 : cfg self1 = cfg self) by done. rewrite Hcfg1.
    unfold Py.mod_. rewrite decide_False by done. cbn [mbind result_bind].
    set (w1 := log_info (LogEpoch epoch (max_epoch (cfg self))) w).
    destruct (decide (epoch mod save_ckpt_freq (cfg self) = 0)) as [Hdiv|Hdiv].
    + destruct (save_ckpt_writes self1 epoch w1 opt' sch' eq_refl eq_refl)
        as (w2 & d & -> & _ & _ & Hlog & _).
      cbn [mbind result_bind].
      destruct (IH self1 w2) as (self' & w' & -> & Hcfg & He & Hk); [by eexists..|done|].
      exists self', w'. split_and!; [done|done| |].
      * rewrite He, Hlog. subst w1. cbn [log log_info].
        by rewrite !epochs_logged_snoc, app_nil_r, <- app_assoc.
      * rewrite Hk, Hlog. subst w1. cbn [log log_info].
        rewrite !ckpts_logged_snoc, app_nil_r, <- app_assoc.
        by rewrite filter_cons_True.
    + cbn [mbind result_bind].
      destruct (IH self1 w1) as (self' & w' & -> & Hcfg & He & Hk); [by eexists..|done|].
      exists self', w'. split_and!; [done|done| |].
      * rewrite He. subst w1. cbn [log log_info].
        by rewrite !epochs_logged_snoc, <- app_assoc.
      * rewrite Hk. subst w1. cbn [log log_info].
        rewrite !ckpts_logged_snoc, app_nil_r.
        by rewrite filter_cons_False.
Qed.

Lemma with_optimizer_props self :
  cfg (with_optimizer self) = cfg self /\ mcfg (with_optimizer self) = mcfg self
  /\ self_batcher (with_optimizer self) = self_batcher self
  /\ is_Some (optimizer (with_optimizer self))
  /\ is_Some (scheduler (with_optimizer self)).
Proof.
  unfold with_optimizer. destruct (get_optimizer _ _) as [opt sch].
  split_and!; by eauto.
Qed.

(** [run_train] as a whole, once the batcher is known and the initial
    [load_ckpt] has returned. *)
Lemma run_train_spec self w b self1 w1 :
  get_batcher self (device self) = Some b ->
  load_ckpt (with_optimizer (with_batcher self)) (cfg_ckpt_path (mcfg self))
    (default true (cfg_is_resume (mcfg self))) w = Ok (self1, w1) ->
  save_ckpt_freq (cfg self) <> 0 ->
  exists self' w',
    run_train self w = Ok (self', w')
    /\ train_loop (Py.range 0 (max_epoch (cfg self) + 1)) self1
         (log_info LogStartedTraining w1) = Ok (self', w')
    /\ cfg self1 = cfg self
    /\ epochs_logged (log w')
       = epochs_logged (log w) ++ Py.range 0 (max_epoch (cfg self) + 1)
    /\ ckpts_logged (log w')
       = ckpts_logged (log w)
         ++ filter (fun e => e mod save_ckpt_freq (cfg self) = 0)
              (Py.range 0 (max_epoch (cfg self) + 1)).
Proof.
  intros Hb Hload Hfreq.
  destruct (with_optimizer_props (with_batcher self)) as (Hc & Hm & Hsb & Ho & Hs).
  pose proof Hload as (Hc1 & Hm1 & Ho1 & Hs1 & _ & He1 & Hk1)%load_ckpt_Ok.
  rewrite Hc in Hc1. cbn [with_batcher set_training cfg] in Hc1.
  destruct (train_loop_spec (Py.range 0 (max_epoch (cfg self) + 1)) self1
              (log_info LogStartedTraining w1)) as (self' & w' & Hloop & _ & He & Hk);
    [by auto|by auto|by rewrite Hc1|].
  exists self', w'. split_and!; [|done|done| |].
  - unfold run_train. cbn [with_batcher set_training self_batcher]. rewrite Hb.
    rewrite Hm. cbn [with_batcher set_training mcfg]. rewrite Hload.
    cbn [mbind result_bind]. by rewrite Hc1.
  - rewrite He. cbn [log log_info]. by rewrite epochs_logged_snoc, app_nil_r, He1.
  - rewrite Hk, Hc1. cbn [log log_info]. by rewrite ckpts_logged_snoc, app_nil_r, Hk1.
Qed.

End TrainFacts.

Section TrainFiles.
Context {SD Model Optimizer Scheduler : Type}.
Context `{!Stateful SD Model, !Stateful SD Optimizer, !Stateful SD Scheduler}.
Context `{!Utils SD, !Trainer Model Optimizer Scheduler, !UtilsLaws SD}.
Implicit Types (self : @pipeline Model Optimizer Scheduler) (w : world (SD := SD)).

Lemma ckpt_file_cfg self self' e :
  cfg self = cfg self' -> ckpt_file self e = ckpt_file self' e.
Proof. unfold ckpt_file. by intros ->. Qed.

Lemma save_ckpt_Ok self e w self' w' :
  save_ckpt self e w = Ok (self', w') ->
  self' = self /\ pickled w' (ckpt_file self e)
  /\ (forall p, pickled w p -> pickled w' p).
Proof.
  intros Hsave.
  destruct (optimizer self) as [opt|] eqn:Ho;
    [|by rewrite save_ckpt_no_optimizer in Hsave by auto].
  destruct (scheduler self) as [sch|] eqn:Hs;
    [|by rewrite save_ckpt_no_optimizer in Hsave by auto].
  destruct (save_ckpt_writes self e w opt sch Ho Hs)
    as (w2 & d & Hsave' & Hd & Hother & _).
  rewrite Hsave in Hsave'. injection Hsave' as -> ->.
  split_and!; [done | by exists d |].
  intros p [d' Hp]. destruct (decide (p = ckpt_file self e)) as [->|Hne].
  - by exists d.
  - exists d'. rewrite Hother by done. by apply make_dir_keeps.
Qed.

(** The loop never removes a pickled file. *)
Lemma train_loop_pickled epochs self w self' w' p :
  train_loop epochs self w = Ok (self', w') -> pickled w p -> pickled w' p.
Proof.
  revert self w. induction epochs as [|epoch rest IH]; intros self w.
  - by intros [= <- <-].
  - cbn [train_loop].
    destruct (optimizer self) as [opt|]; [|done].
    destruct (scheduler self) as [sch|]; [|done].
    destruct (train_epoch epoch (model self, opt, sch)) as [[m opt'] sch'].
    intros (r & _ & ([self1 w1] & Hstep & Hrest)%bind_Ok)%bind_Ok Hp.
    apply (IH _ _ Hrest). destruct (decide (r = 0)).
    + apply save_ckpt_Ok in Hstep as (_ & _ & Hkeep). by apply Hkeep.
    + by injection Hstep as <- <-.
Qed.

(** At the end of the loop every epoch that [save_ckpt_freq] divides has its
    file. *)
Lemma train_loop_files epochs self w self' w' e :
  train_loop epochs self w = Ok (self', w') ->
  e ∈ epochs -> e mod save_ckpt_freq (cfg self) = 0 ->
  pickled w' (ckpt_file self e).
Proof.
  revert self w. induction epochs as [|epoch rest IH]; intros self w Hloop He Hdiv.
  - by apply elem_of_nil in He.
  - cbn [train_loop] in Hloop.
    destruct (optimizer self) as [opt|]; [|done].
    destruct (scheduler self) as [sch|]; [|done].
    destruct (train_epoch epoch (model self, opt, sch)) as [[m opt'] sch'].
    set (self1 := set_training self m (Some opt') (Some sch') (self_batcher self)) in *.
    assert (Hcfg1 : cfg self1 = cfg self) by done.
    apply bind_Ok in Hloop as (r & Hr & ([self2 w2] & Hstep & Hrest)%bind_Ok).
    rewrite Hcfg1 in Hr. unfold Py.mod_ in Hr.
    destruct (decide (save_ckpt_freq (cfg self) = 0)); [done|].
    injection Hr as <-.
    assert (Hcfg2 : cfg self2 = cfg self).
    { destruct (decide _); [by apply save_ckpt_Ok in Hstep as (-> & _)|].
      by injection Hstep as <- <-. }
    apply elem_of_cons in He as [->|He].
    + rewrite decide_True in Hstep by done.
      apply save_ckpt_Ok in Hstep as (_ & Hfile & _).
      rewrite (ckpt_file_cfg self1 self) in Hfile by done.
      by eapply train_loop_pickled.
    + rewrite (ckpt_file_cfg self self2) by done.
      eapply IH; [exact Hrest | done | by rewrite Hcfg2].
Qed.

End TrainFiles.

(** ** [run_train] and [get_batcher] *)

Section RunTrain.
Context {SD Model Optimizer Scheduler : Type}.
Context `{!Stateful SD Model, !Stateful SD Optimizer, !Stateful SD Scheduler}.
Context `{!Utils SD, !Trainer Model Optimizer Scheduler}.
Implicit Types (self : @pipeline Model Optimizer Scheduler) (w : world (SD := SD)).

(** C5, as the code has it.  With a batcher the model names, an initial
    [load_ckpt] that returns and a [save_ckpt_freq] other than zero,
    [run_train] returns after announcing the epochs [range(0, max_epoch + 1)]
    in order: the loop body runs once for each of 0, 1, ..., [max_epoch],
    that is [max_epoch + 1] times (and not at all for a negative
    [max_epoch + 1]). *)
Theorem run_train_epoch_count self w b self1 w1 :
  get_batcher self (device self) = Some b ->
  load_ckpt (with_optimizer (with_batcher self)) (cfg_ckpt_path (mcfg self))
    (default true (cfg_is_resume (mcfg self))) w = Ok (self1, w1) ->
  save_ckpt_freq (cfg self) <> 0 ->
  exists self' w',
    run_train self w = Ok (self', w')
    /\ epochs_logged (log w')
       = epochs_logged (log w) ++ Py.range 0 (max_epoch (cfg self) + 1)
    /\ length (Py.range 0 (max_epoch (cfg self) + 1))
       = Z.to_nat (max_epoch (cfg self) + 1)
    /\ (forall i : nat, (i < Z.to_nat (max_epoch (cfg self) + 1))%nat ->
          Py.range 0 (max_epoch (cfg self) + 1) !! i = Some (Z.of_nat i)).
Proof.
  intros Hb Hload Hfreq.
  destruct (run_train_spec self w b self1 w1 Hb Hload Hfreq)
    as (self' & w' & Hrun & _ & _ & He & _).
  exists self', w'. split_and!; [done|done| |].
  - rewrite length_range. f_equal. lia.
  - intros i Hi. rewrite lookup_range by (by rewrite Z.sub_0_r). by rewrite Z.add_0_l.
Qed.

(** C9.  Under the same conditions and a [make_dir] that only creates,
    [run_train] returns and [save_ckpt] has reported exactly the epochs of
    [range(0, max_epoch + 1)] that [save_ckpt_freq] divides, in order; epoch 0
    is one of them whenever the loop runs at all; and at the end each of
    these epochs has its checkpoint file. *)
Theorem run_train_checkpoints `{!UtilsLaws SD} self w b self1 w1 :
  get_batcher self (device self) = Some b ->
  load_ckpt (with_optimizer (with_batcher self)) (cfg_ckpt_path (mcfg self))
    (default true (cfg_is_resume (mcfg self))) w = Ok (self1, w1) ->
  save_ckpt_freq (cfg self) <> 0 ->
  exists self' w',
    run_train self w = Ok (self', w')
    /\ ckpts_logged (log w')
       = ckpts_logged (log w)
         ++ filter (fun e => e mod save_ckpt_freq (cfg self) = 0)
              (Py.range 0 (max_epoch (cfg self) + 1))
    /\ (forall e,
          e ∈ filter (fun e => e mod save_ckpt_freq (cfg self) = 0)
                (Py.range 0 (max_epoch (cfg self) + 1))
          <-> 0 <= e <= max_epoch (cfg self) /\ e mod save_ckpt_freq (cfg self) = 0)
    /\ (0 <= max_epoch (cfg self) ->
          0 ∈ filter (fun e => e mod save_ckpt_freq (cfg self) = 0)
                (Py.range 0 (max_epoch (cfg self) + 1)))
    /\ (forall e,
          0 <= e <= max_epoch (cfg self) -> e mod save_ckpt_freq (cfg self) = 0 ->
          pickled w' (ckpt_file self e)).
Proof.
  intros Hb Hload Hfreq.
  destruct (run_train_spec self w b self1 w1 Hb Hload Hfreq)
    as (self' & w' & Hrun & Hloop & Hcfg & _ & Hk).
  assert (Hin : forall e,
    e ∈ filter (fun e => e mod save_ckpt_freq (cfg self) = 0)
          (Py.range 0 (max_epoch (cfg self) + 1))
    <-> 0 <= e <= max_epoch (cfg self) /\ e mod save_ckpt_freq (cfg self) = 0).
  { intros e. rewrite list_elem_of_filter, elem_of_range. split.
    - intros [? ?]. split; [lia|done].
    - intros [? ?]. split; [done|lia]. }
  exists self', w'. split_and!; [done|done|done| |].
  - intros HN. apply Hin. split; [lia|]. apply Z.mod_0_l. done.
  - intros e He Hdiv. rewrite (ckpt_file_cfg self self1) by done.
    eapply train_loop_files; [exact Hloop | | by rewrite Hcfg].
    apply elem_of_range. lia.
Qed.

(** C10.  [get_batcher] returns a [DefaultBatcher] for the batcher name
    ['DefaultBatcher'], a [ConcatBatcher] built from the device and the
    model's name for ['ConcatBatcher'], and [None] for every other name; in
    the last case [run_train], which reads the batcher's [collate_fn], raises
    [AttributeError]. *)
Theorem get_batcher_cases self (dev : string) w :
  (cfg_batcher (mcfg self) = "DefaultBatcher" ->
     get_batcher self dev = Some DefaultBatcher)
  /\ (cfg_batcher (mcfg self) = "ConcatBatcher" ->
       get_batcher self dev = Some (ConcatBatcher dev (cfg_name (mcfg self))))
  /\ (cfg_batcher (mcfg self) <> "DefaultBatcher" ->
      cfg_batcher (mcfg self) <> "ConcatBatcher" ->
      get_batcher self dev = None /\ run_train self w = Raise AttributeError).
Proof.
  unfold get_batcher. split_and!.
  - intros ->. done.
  - intros ->. done.
  - intros Hd Hc. rewrite !decide_False by done. split; [done|].
    unfold run_train, with_batcher, get_batcher. cbn [self_batcher set_training mcfg].
    by rewrite !decide_False by done.
Qed.

End RunTrain.

(** ** Test-time accumulation *)

Lemma norm_index_lt len i k : Py.norm_index len i = Some k -> (k < len)%nat.
Proof.
  unfold Py.norm_index. repeat case_decide; intros [= <-]; lia.
Qed.

Lemma getitem_setitem {A : Type} (l l' : list A) i x :
  Py.setitem l i x = Ok l' -> Py.getitem l' i = Ok x.
Proof.
  unfold Py.setitem, Py.getitem.
  destruct (Py.norm_index (length l) i) as [k|] eqn:Hk; [|done].
  intros [= <-]. rewrite length_insert, Hk.
  by rewrite list_lookup_insert_eq by (by eapply norm_index_lt).
Qed.

Lemma norm_index_last len : Py.norm_index (S len) (Z.of_nat len) = Some len.
Proof.
  unfold Py.norm_index. rewrite decide_True by lia. f_equal. lia.
Qed.

Lemma getitem_last {A : Type} (l : list A) x i :
  i = Z.of_nat (length l) -> Py.getitem (l ++ [x]) i = Ok x.
Proof.
  intros ->. unfold Py.getitem. rewrite length_app, Nat.add_1_r, norm_index_last.
  by rewrite lookup_app_r, Nat.sub_diag by lia.
Qed.

Lemma setitem_last {A : Type} (l : list A) x y i :
  i = Z.of_nat (length l) -> Py.setitem (l ++ [x]) i y = Ok (l ++ [y]).
Proof.
  intros ->. unfold Py.setitem. rewrite length_app, Nat.add_1_r, norm_index_last. f_equal.
  by rewrite insert_app_r_alt, Nat.sub_diag by lia.
Qed.

(** Taking the whole of [range(len(a))] out of [a] (and out of a buffer of
    the same length) never fails. *)
Lemma take_inds_range {A : Type} (a : list A) (k : nat) :
  (k <= length a)%nat -> is_Ok (Py.take_inds a (Py.range 0 (Z.of_nat k))).
Proof.
  intros Hk. unfold Py.range. rewrite Z.sub_0_r, Nat2Z.id.
  assert (Hgen : forall idx : list nat,
            Forall (fun i => (i < length a)%nat) idx ->
            is_Ok (Py.take_inds a ((fun i : nat => 0 + Z.of_nat i) <$> idx))).
  { induction idx as [|i idx IH]; intros Hall.
    - by eexists.
    - apply Forall_cons in Hall as [Hi Hall]. destruct (IH Hall) as [xs Hxs].
      destruct (lookup_lt_is_Some_2 a i Hi) as [x Hx].
      exists (x :: xs). rewrite fmap_cons. cbn [Py.take_inds]. rewrite Hxs.
      unfold Py.getitem, Py.norm_index. rewrite decide_True by lia.
      rewrite Z.add_0_l, Nat2Z.id, Hx. done. }
  apply Hgen, Forall_forall. intros i Hi%elem_of_seq. lia.
Qed.

Lemma above_spec x : above x = true <-> (end_threshold < x)%Q.
Proof.
  unfold above. rewrite negb_true_iff, <- not_true_iff_false, Qle_bool_iff.
  split; [apply Qnot_le_lt | apply Qlt_not_le].
Qed.

(** The comparison of [update_tests]: as many entries above the threshold as
    there are entries. *)
Lemma count_above_all (a : list Q) :
  count_above a = length a <-> Forall (fun x => (end_threshold < x)%Q) a.
Proof.
  unfold count_above. induction a as [|x a IH].
  - split; [constructor | done].
  - destruct (above x) eqn:Hx.
    + rewrite filter_cons_True by done. cbn [length]. rewrite Forall_cons, <- IH.
      apply above_spec in Hx. split; [intros [= ?]; done | intros [_ ->]; done].
    + rewrite filter_cons_False by (by rewrite Hx). cbn [length]. split.
      * intros Hlen. pose proof (length_filter (fun x => above x = true) a). lia.
      * intros [Hgt%above_spec _]%Forall_cons. congruence.
Qed.

Section TestFacts.
Context {Model Optimizer Scheduler Inputs Results Data : Type}.
Context `{!Tester Model Inputs Results Data}.
Implicit Types (self : @pipeline Model Optimizer Scheduler) (smp : sampler).

Lemma enter_cloud_Ok self smp s1 :
  enter_cloud self smp = Ok s1 ->
  curr_cloud_id s1 = cloud_id smp /\ model s1 = model self
  /\ ori_test_probs s1 = ori_test_probs self
  /\ ori_test_labels s1 = ori_test_labels self
  /\ complete_infer s1
     = (if decide (curr_cloud_id self <> cloud_id smp) then Some false
        else complete_infer self).
Proof.
  unfold enter_cloud. case_decide as Hne.
  - intros (poss & _ & [= <-])%bind_Ok. done.
  - by intros [= <-].
Qed.

Lemma accumulate_Ok self smp inputs results s2 :
  accumulate self smp inputs results = Ok s2 ->
  exists tp0 tl0,
    Py.getitem (test_probs self) (curr_cloud_id self) = Ok tp0
    /\ Py.getitem (test_labels self) (curr_cloud_id self) = Ok tl0
    /\ Py.setitem (test_probs self) (curr_cloud_id self)
         (update_probs (model self) inputs results tp0 tl0).1 = Ok (test_probs s2)
    /\ Py.setitem (test_labels self) (curr_cloud_id self)
         (update_probs (model self) inputs results tp0 tl0).2 = Ok (test_labels s2)
    /\ curr_cloud_id s2 = curr_cloud_id self /\ model s2 = model self
    /\ ori_test_probs s2 = ori_test_probs self
    /\ ori_test_labels s2 = ori_test_labels self
    /\ complete_infer s2 = complete_infer self.
Proof.
  unfold accumulate.
  intros (poss & _ & (bar & _ & (upd & _ & (tp0 & Htp & (tl0 & Htl & Hr)%bind_Ok)
    %bind_Ok)%bind_Ok)%bind_Ok)%bind_Ok.
  exists tp0, tl0.
  destruct (update_probs (model self) inputs results tp0 tl0) as [tp' tl'].
  apply bind_Ok in Hr as (tps & Htps & (tls & Htls & [= <-])%bind_Ok).
  done.
Qed.

Lemma finalize_Ok self smp s3 :
  finalize self smp = Ok s3 ->
  exists tp tl otp otl,
    Py.getitem (test_probs self) (curr_cloud_id self) = Ok tp
    /\ Py.getitem (test_labels self) (curr_cloud_id self) = Ok tl
    /\ Py.take_inds tp
         (default (Py.range 0 (Z.of_nat (length tp)))
            (preprocess_proj_inds (model self) (get_data (curr_cloud_id self))
               (split smp))) = Ok otp
    /\ Py.take_inds tl
         (default (Py.range 0 (Z.of_nat (length tp)))
            (preprocess_proj_inds (model self) (get_data (curr_cloud_id self))
               (split smp))) = Ok otl
    /\ test_probs s3 = test_probs self /\ test_labels s3 = test_labels self
    /\ ori_test_probs s3 = ori_test_probs self ++ [otp]
    /\ ori_test_labels s3 = ori_test_labels self ++ [otl]
    /\ complete_infer s3 = Some true.
Proof.
  unfold finalize.
  intros (tp & Htp & (otp & Hotp & (tl & Htl & (otl & Hotl & [= <-])%bind_Ok)
    %bind_Ok)%bind_Ok)%bind_Ok.
  by exists tp, tl, otp, otl.
Qed.

End TestFacts.

Section UpdateTests.
Context {Model Optimizer Scheduler Inputs Results Data : Type}.
Context `{!Tester Model Inputs Results Data}.
Implicit Types (self : @pipeline Model Optimizer Scheduler) (smp : sampler).

(** C1.  Consider a call of [update_tests] with a sampler whose split is
    ['test'] that returns, and let [poss] be the sampler's possibilities for
    its cloud.  The buffers of the current cloud (fresh zero buffers if the
    cloud is new) are replaced by what [model.update_probs] makes of them.
    The call appends one entry to [ori_test_probs] and to [ori_test_labels]
    and sets [complete_infer] to true if and only if every entry of [poss] is
    above 0.5; the entries appended are the updated buffers taken at
    [proj_inds] (or at all indices when the model gives none).  Otherwise
    [ori_test_probs] and [ori_test_labels] stay as they were and
    [complete_infer] is as entering the cloud left it. *)
Theorem update_tests_finalizes self smp (inputs : Inputs) (results : Results) self' :
  split smp = "test" ->
  update_tests self smp inputs results = Ok self' ->
  exists poss s1 tp0 tl0,
    Py.getitem (possibilities smp) (cloud_id smp) = Ok poss
    /\ enter_cloud self smp = Ok s1
    /\ Py.getitem (test_probs s1) (cloud_id smp) = Ok tp0
    /\ Py.getitem (test_labels s1) (cloud_id smp) = Ok tl0
    /\ Py.setitem (test_probs s1) (cloud_id smp)
         (update_probs (model self) inputs results tp0 tl0).1 = Ok (test_probs self')
    /\ Py.setitem (test_labels s1) (cloud_id smp)
         (update_probs (model self) inputs results tp0 tl0).2 = Ok (test_labels self')
    /\ ((exists otp otl,
           ori_test_probs self' = ori_test_probs self ++ [otp]
           /\ ori_test_labels self' = ori_test_labels self ++ [otl]
           /\ complete_infer self' = Some true)
        <-> Forall (fun x => (end_threshold < x)%Q) poss)
    /\ (Forall (fun x => (end_threshold < x)%Q) poss ->
        exists otp otl,
          ori_test_probs self' = ori_test_probs self ++ [otp]
          /\ ori_test_labels self' = ori_test_labels self ++ [otl]
          /\ complete_infer self' = Some true
          /\ Py.take_inds (update_probs (model self) inputs results tp0 tl0).1
               (default
                  (Py.range 0 (Z.of_nat
                     (length (update_probs (model self) inputs results tp0 tl0).1)))
                  (preprocess_proj_inds (model self) (get_data (cloud_id smp)) "test"))
             = Ok otp
          /\ Py.take_inds (update_probs (model self) inputs results tp0 tl0).2
               (default
                  (Py.range 0 (Z.of_nat
                     (length (update_probs (model self) inputs results tp0 tl0).1)))
                  (preprocess_proj_inds (model self) (get_data (cloud_id smp)) "test"))
             = Ok otl)
    /\ (~ Forall (fun x => (end_threshold < x)%Q) poss ->
        ori_test_probs self' = ori_test_probs self
        /\ ori_test_labels self' = ori_test_labels self
        /\ complete_infer self' = complete_infer s1).
Proof.
  intros Hsplit. unfold update_tests.
  intros (s1 & Henter & (poss & Hposs & (s2 & Hacc & Hfin)%bind_Ok)%bind_Ok)%bind_Ok.
  pose proof Henter as (Hcid & Hmodel & Hotp1 & Hotl1 & _)%enter_cloud_Ok.
  apply accumulate_Ok in Hacc
    as (tp0 & tl0 & Htp0 & Htl0 & Htps & Htls & Hcid2 & Hmodel2 & Hotp2 & Hotl2 & Hci2).
  rewrite Hcid, Hmodel in *. rewrite Hsplit in Hfin. cbn [andb bool_decide] in Hfin.
  rewrite bool_decide_eq_true_2 in Hfin by done. cbn [andb] in Hfin.
  exists poss, s1, tp0, tl0.
  destruct (bool_decide (count_above poss = length poss)) eqn:Hall.
  - apply bool_decide_eq_true, count_above_all in Hall.
    apply finalize_Ok in Hfin
      as (tp & tl & otp & otl & Htp & Htl & Hto & Htlo & Hp3 & Hl3 & Hop3 & Hol3 & Hci3).
    rewrite Hcid2, Hmodel2, Hsplit in *.
    rewrite (getitem_setitem _ _ _ _ Htps) in Htp. injection Htp as <-.
    rewrite (getitem_setitem _ _ _ _ Htls) in Htl. injection Htl as <-.
    rewrite Hp3, Hl3, Hop3, Hol3, Hotp2, Hotl2, Hotp1, Hotl1.
    split_and!; try done.
    + split; [done|]. intros _. by exists otp, otl.
    + intros _. by exists otp, otl.
  - apply bool_decide_eq_false in Hall. rewrite count_above_all in Hall.
    injection Hfin as <-. rewrite Hotp2, Hotl2, Hotp1, Hotl1.
    split_and!; try done.
    split; [|done]. intros (otp & otl & Happ & _).
    apply (f_equal length) in Happ. rewrite length_app in Happ. simpl in Happ. lia.
Qed.

(** A call that opens the next cloud (its id is the number of clouds seen so
    far, as on the first call after [run_test] has reset the attributes)
    returns when the sampler knows the cloud, the model gives no [proj_inds]
    and [update_probs] keeps the number of points. *)
Lemma update_tests_returns self smp (inputs : Inputs) (results : Results) poss :
  Py.getitem (possibilities smp) (cloud_id smp) = Ok poss ->
  curr_cloud_id self <> cloud_id smp ->
  cloud_id smp = Z.of_nat (length (test_probs self)) ->
  length (test_labels self) = length (test_probs self) ->
  preprocess_proj_inds (model self) (get_data (cloud_id smp)) (split smp) = None ->
  length (update_probs (model self) inputs results
            (zeros_2d (length poss) (num_classes (mcfg self)))
            (zeros_1d (length poss))).2
  = length (update_probs (model self) inputs results
              (zeros_2d (length poss) (num_classes (mcfg self)))
              (zeros_1d (length poss))).1 ->
  exists self', update_tests self smp inputs results = Ok self'.
Proof.
  intros Hposs Hne Hcid Hlen Hproj Hkeep.
  unfold update_tests, enter_cloud. rewrite decide_True by done.
  rewrite Hposs. cbn [mbind result_bind].
  unfold accumulate. rewrite Hposs. cbn [mbind result_bind].
  cbn [set_tests pbar pbar_update attr test_probs test_labels curr_cloud_id model].
  assert (Hcid' : cloud_id smp = Z.of_nat (length (test_labels self)))
    by (by rewrite Hlen).
  rewrite !getitem_last by done. cbn [mbind result_bind].
  destruct (update_probs _ _ _ _ _) as [tp' tl'] eqn:Hup.
  rewrite !setitem_last by done. cbn [mbind result_bind].
  cbn [fst snd] in Hkeep.
  destruct (_ && _); [|by eexists].
  unfold finalize.
  cbn [set_tests test_probs test_labels curr_cloud_id model ori_test_probs
       ori_test_labels pbar pbar_update].
  rewrite Hproj. rewrite !getitem_last by done. cbn [mbind result_bind].
  destruct (take_inds_range tp' (length tp')) as [otp ->]; [done|].
  destruct (take_inds_range tl' (length tp')) as [otl ->]; [lia|].
  cbn [mbind result_bind]. by eexists.
Qed.

End UpdateTests.

(** ** Evaluation on the small instance *)

Module Demo_facts.
Import Demo.

Lemma demo_stateful_laws : StatefulLaws (list Z) (list Z).
Proof.
  split. intros sd a a'. simpl. case_decide; [|done]. by intros [= <-].
Qed.

Lemma demo_utils_laws : UtilsLaws (list Z).
Proof.
  split. intros d fs0 p f Hp. simpl.
  destruct (fs0 !! d) eqn:Hd; [done|].
  rewrite lookup_insert_ne; [done|]. intros <-. by rewrite Hd in Hp.
Qed.

#[export] Existing Instances demo_stateful_laws demo_utils_laws.

(** Evaluation of C3. *)
Lemma save_ckpt_record_witness :
  optimizer (demo_trained 2 2) = Some [0]
  /\ scheduler (demo_trained 2 2) = Some [1]
  /\ exists w' d,
       save_ckpt (demo_trained 2 2) 7 demo_world = Ok (demo_trained 2 2, w')
       /\ fs w' !! "./logs/m_d_torch/checkpoint/ckpt_00007.pth" = Some (Os.Pickle d)
       /\ d !! "epoch" = Some (PyInt 7).
Proof.
  split; [reflexivity|]. split; [reflexivity|].
  destruct (save_ckpt_record (demo_trained 2 2) 7 demo_world [0] [1] eq_refl eq_refl)
    as (w' & d & Hsave & Hfile & _ & _ & _ & Hepoch & _).
  exists w', d. split; [exact Hsave|]. split; [exact Hfile | exact Hepoch].
Defined.

(** Evaluation of C4: the checkpoint of epoch 0 is loaded after one more
    epoch of training. *)
Lemma ckpt_round_trip_witness :
  save_ckpt (demo_trained 2 2) 0 demo_world = Ok (demo_trained 2 2, demo_saved)
  /\ exists self3 w3,
       load_ckpt (demo_trained_more 2 2)
         (Some "./logs/m_d_torch/checkpoint/ckpt_00000.pth") true demo_saved
       = Ok (self3, w3)
       /\ state_dict (model self3) = [10; 20].
Proof.
  assert (Hsave : save_ckpt (demo_trained 2 2) 0 demo_world
                  = Ok (demo_trained 2 2, demo_saved)) by reflexivity.
  split; [exact Hsave|].
  destruct (ckpt_round_trip (demo_trained 2 2) 0 demo_world (demo_trained 2 2)
              demo_saved [0] [1] (demo_trained_more 2 2) demo_saved [5] [6] true
              eq_refl eq_refl Hsave eq_refl eq_refl eq_refl
              (ex_intro _ [10; 20] eq_refl) (ex_intro _ [0] eq_refl)
              (ex_intro _ [1] eq_refl))
    as (self3 & w3 & _ & _ & Hload & Hmodel & _).
  exists self3, w3. split; [exact Hload | exact Hmodel].
Defined.

(** C5 read as "the loop runs [max_epoch] times" fails on the code: with
    [max_epoch = 2] the loop announces the three epochs 0, 1 and 2. *)
Lemma run_train_epoch_count_counterexample :
  exists self' w',
    run_train (demo_pipeline 2 1 "DefaultBatcher" None) demo_world = Ok (self', w')
    /\ max_epoch (cfg (demo_pipeline 2 1 "DefaultBatcher" None)) = 2
    /\ epochs_logged (log w') = [0; 1; 2]
    /\ length (epochs_logged (log w'))
       <> Z.to_nat (max_epoch (cfg (demo_pipeline 2 1 "DefaultBatcher" None))).
Proof.
  destruct (run_train (demo_pipeline 2 1 "DefaultBatcher" None) demo_world)
    as [[self' w']|e] eqn:Hrun; [|by vm_compute in Hrun].
  exists self', w'. split; [done|].
  assert (Hlog : epochs_logged (log w') = [0; 1; 2]).
  { vm_compute in Hrun. injection Hrun as _ <-. reflexivity. }
  rewrite Hlog. split_and!; [done|done|]. simpl. lia.
Qed.

(** Evaluation of C5 as amended. *)
Lemma run_train_epoch_count_witness :
  get_batcher (demo_pipeline 2 2 "DefaultBatcher" None) "cpu" = Some DefaultBatcher
  /\ load_ckpt (demo_trained 2 2) None true demo_world = Ok (demo_trained 2 2, demo_loaded)
  /\ exists self' w',
       run_train (demo_pipeline 2 2 "DefaultBatcher" None) demo_world = Ok (self', w')
       /\ epochs_logged (log w') = [] ++ Py.range 0 (2 + 1).
Proof.
  assert (Hload : load_ckpt (demo_trained 2 2) None true demo_world
                  = Ok (demo_trained 2 2, demo_loaded)) by reflexivity.
  split; [reflexivity|]. split; [exact Hload|].
  destruct (run_train_epoch_count (demo_pipeline 2 2 "DefaultBatcher" None) demo_world
              DefaultBatcher (demo_trained 2 2) demo_loaded eq_refl Hload)
    as (self' & w' & Hrun & He & _).
  { simpl. lia. }
  exists self', w'. split; [exact Hrun | exact He].
Defined.

(** Evaluation of C9: with [max_epoch = 2] and [save_ckpt_freq = 2] the
    epochs 0 and 2 are saved. *)
Lemma run_train_checkpoints_witness :
  load_ckpt (demo_trained 2 2) None true demo_world = Ok (demo_trained 2 2, demo_loaded)
  /\ exists self' w',
       run_train (demo_pipeline 2 2 "DefaultBatcher" None) demo_world = Ok (self', w')
       /\ ckpts_logged (log w') = [0; 2]
       /\ pickled w' "./logs/m_d_torch/checkpoint/ckpt_00002.pth".
Proof.
  assert (Hload : load_ckpt (demo_trained 2 2) None true demo_world
                  = Ok (demo_trained 2 2, demo_loaded)) by reflexivity.
  split; [exact Hload|].
  destruct (run_train_checkpoints (demo_pipeline 2 2 "DefaultBatcher" None) demo_world
              DefaultBatcher (demo_trained 2 2) demo_loaded eq_refl Hload)
    as (self' & w' & Hrun & Hk & _ & _ & Hfiles).
  { simpl. lia. }
  exists self', w'. split; [exact Hrun|]. split; [exact Hk|].
  apply (Hfiles 2); [simpl; lia | reflexivity].
Defined.

(** Evaluation of C1 on a cloud whose two points are covered. *)
Lemma update_tests_finalizes_witness :
  split demo_sampler_done = "test"
  /\ exists self',
       update_tests (demo_pipeline 2 2 "DefaultBatcher" None) demo_sampler_done tt tt
       = Ok self'
       /\ ori_test_labels self' = [] ++ [[1; 1]]
       /\ complete_infer self' = Some true.
Proof.
  split; [reflexivity|].
  destruct (update_tests (demo_pipeline 2 2 "DefaultBatcher" None) demo_sampler_done tt tt)
    as [self'|e] eqn:Hrun; [|discriminate Hrun].
  exists self'. split; [reflexivity|].
  destruct (update_tests_finalizes (demo_pipeline 2 2 "DefaultBatcher" None)
              demo_sampler_done tt tt self' eq_refl Hrun)
    as (poss & s1 & tp0 & tl0 & Hposs & Henter & Htp0 & Htl0 & _ & _ & _ & Hdone & _).
  injection Hposs as <-. injection Henter as <-.
  injection Htp0 as <-. injection Htl0 as <-.
  destruct Hdone as (otp & otl & _ & Hotl & Hci & _ & Htake).
  { repeat constructor. }
  injection Htake as <-. split; [exact Hotl | exact Hci].
Defined.

(** The same call while one point is below the threshold only accumulates. *)
Example update_tests_open :
  exists self',
    update_tests (demo_pipeline 2 2 "DefaultBatcher" None) demo_sampler_open tt tt
    = Ok self'
    /\ ori_test_probs self' = [] /\ ori_test_labels self' = []
    /\ complete_infer self' = Some false
    /\ test_labels self' = [[1; 1]].
Proof. eexists. split; [reflexivity|]. done. Qed.

(** [load_ckpt] on a path that names nothing, and without a path. *)
Example load_ckpt_examples :
  load_ckpt (demo_trained 2 2) (Some "nofile.pth") true demo_world
    = Raise FileNotFoundError
  /\ load_ckpt (demo_trained 2 2) None false demo_saved
     = Ok (demo_trained 2 2, log_info LogInitScratch demo_saved).
Proof. split; reflexivity. Qed.

(** [get_batcher] on a name it does not know, and [run_train] after it. *)
Example get_batcher_unknown :
  get_batcher (demo_pipeline 2 2 "KPConvBatcher" None) "cpu" = None
  /\ run_train (demo_pipeline 2 2 "KPConvBatcher" None) demo_world
     = Raise AttributeError.
Proof. split; reflexivity. Qed.

(** With [save_ckpt_freq = 0] the modulo of the first epoch raises. *)
Example run_train_zero_freq :
  run_train (demo_pipeline 2 0 "DefaultBatcher" None) demo_world
  = Raise ZeroDivisionError.
Proof. reflexivity. Qed.

End Demo_facts.

(* ===================================================================== *)
(** * Further properties *)
(* ===================================================================== *)

(** ** The label look-up table: errors, order, last write, colours *)

Module LabelLUT_more.
Import LabelLUT LabelLUT_facts.

(** X1.  The constructor raises exactly for a colormap that is no key of
    [COLORS], that is for anything but ['default'] and ['spectrum']; the
    error is then a [KeyError], and no [label_to_names] makes it raise. *)
Theorem init_KeyError (ltn : option (gmap Z string)) (cmap : string) :
  (__init__ ltn cmap = Raise KeyError <-> cmap <> "default" /\ cmap <> "spectrum")
  /\ (forall e, __init__ ltn cmap = Raise e -> e = KeyError)
  /\ (cmap = "default" \/ cmap = "spectrum" ->
      __init__ ltn cmap = Ok (run_calls (fresh (default [] (Py.dict_get COLORS cmap)))
                                (ctor_calls ltn))).
Proof.
  assert (Hok : forall palette, Py.dict_get COLORS cmap = Some palette ->
            __init__ ltn cmap = Ok (run_calls (fresh palette) (ctor_calls ltn))).
  { intros palette Hp. unfold __init__. rewrite Hp. destruct ltn as [ltn|]; [|done].
    apply init_loop_run_calls. intros k. apply elem_of_sorted_keys. }
  assert (Hcases : (cmap = "default" /\ Py.dict_get COLORS cmap = Some COLORS_default)
                   \/ (cmap = "spectrum" /\ Py.dict_get COLORS cmap = Some COLORS_spectrum)
                   \/ (cmap <> "default" /\ cmap <> "spectrum"
                       /\ Py.dict_get COLORS cmap = None)).
  { unfold COLORS. cbn [Py.dict_get].
    destruct (decide ("default" = cmap)) as [<-|Hd]; [by left|].
    destruct (decide ("spectrum" = cmap)) as [<-|Hs]; [by right; left|].
    right; right. by split_and!. }
  destruct Hcases as [[-> Hp]|[[-> Hp]|(Hd & Hs & Hp)]].
  - rewrite (Hok _ Hp), Hp. split_and!; [|done|done]. split; [done|]. by intros [? _].
  - rewrite (Hok _ Hp), Hp. split_and!; [|done|done]. split; [done|]. by intros [_ ?].
  - unfold __init__. rewrite Hp. split_and!.
    + done.
    + by intros e [= <-].
    + intros [?|?]; done.
Qed.

Lemma first_occurrence_snoc (l : list Z) (v : Z) :
  reverse (remove_dups (reverse (l ++ [v])))
  = if decide (v ∈ l) then reverse (remove_dups (reverse l))
    else reverse (remove_dups (reverse l)) ++ [v].
Proof.
  rewrite reverse_app. cbn [reverse rev_append app]. change (rev_append l []) with (reverse l).
  cbn [remove_dups]. destruct (decide_rel elem_of v (reverse l)) as [Hin|Hnin].
  - rewrite decide_True; [done|]. by apply elem_of_reverse.
  - rewrite decide_False; [by rewrite reverse_cons|]. by rewrite <- elem_of_reverse.
Qed.

Lemma elem_of_first_occurrence (l : list Z) (v : Z) :
  v ∈ reverse (remove_dups (reverse l)) <-> v ∈ l.
Proof. by rewrite elem_of_reverse, elem_of_remove_dups, elem_of_reverse. Qed.

Lemma keys_do_call lut c :
  Py.keys (labels (do_call lut c))
  = if decide (c_value c ∈ Py.keys (labels lut)) then Py.keys (labels lut)
    else Py.keys (labels lut) ++ [c_value c].
Proof.
  unfold do_call.
  destruct (labels_add_label (c_name c) (c_value c) (c_color c) lut) as (col & -> & _).
  case_decide; [by apply keys_set_in | by apply keys_set_notin].
Qed.

Lemma keys_run_calls_order lut cs :
  Py.keys (labels lut) = reverse (remove_dups (reverse (Py.keys (labels lut)))) ->
  Py.keys (labels (run_calls lut cs))
  = reverse (remove_dups (reverse (Py.keys (labels lut) ++ (c_value <$> cs)))).
Proof.
  intros Hlut. induction cs as [|c cs IH] using rev_ind.
  - simpl. by rewrite app_nil_r.
  - rewrite run_calls_snoc, keys_do_call, IH, fmap_app, app_assoc. simpl.
    rewrite first_occurrence_snoc.
    destruct (decide (c_value c ∈ Py.keys (labels lut) ++ (c_value <$> cs))) as [Hin|Hnin].
    + rewrite decide_True; [done|]. by apply elem_of_first_occurrence.
    + rewrite decide_False; [done|]. by rewrite elem_of_first_occurrence.
Qed.

(** X2.  The table keeps the order of first insertion.  After the
    constructor and any calls of [add_label], the keys of [labels] are the
    values in the order in which they were first added: the sorted keys of
    [label_to_names], then the values of the calls, every value at its first
    occurrence. *)
Theorem labels_insertion_order ltn cmap lut0 cs :
  __init__ ltn cmap = Ok lut0 ->
  Py.keys (labels (run_calls lut0 cs))
  = reverse (remove_dups (reverse
      ((c_value <$> ctor_calls ltn) ++ (c_value <$> cs))))
  /\ c_value <$> ctor_calls ltn
     = match ltn with Some m => sorted_keys m | None => [] end.
Proof.
  intros (palette & _ & ->)%init_run_calls. split.
  - rewrite <- run_calls_app, <- fmap_app.
    by rewrite (keys_run_calls_order (fresh palette)).
  - destruct ltn as [m|]; [apply fmap_value_init_calls | done].
Qed.

(** X3.  The last call for a value decides its entry: when no later call
    names the value of [c], the entry under that value has the name given by
    [c], and the colour of [c] when [c] passed one. *)
Theorem add_label_last_wins ltn cmap lut0 pre c post :
  __init__ ltn cmap = Ok lut0 ->
  Forall (fun c' => c_value c' <> c_value c) post ->
  exists col,
    Py.dict_get (labels (run_calls lut0 (pre ++ c :: post))) (c_value c)
      = Some (mkLabel (c_name c) (c_value c) col)
    /\ (forall x, c_color c = Some x -> col = x).
Proof.
  intros (palette & _ & ->)%init_run_calls Hpost.
  replace (pre ++ c :: post) with ((pre ++ [c]) ++ post) by by rewrite <- app_assoc.
  rewrite (run_calls_app _ (pre ++ [c]) post), dict_get_run_calls_other by done.
  rewrite <- run_calls_app, app_assoc.
  rewrite run_calls_last by apply lut_inv_fresh.
  eexists. split; [reflexivity|]. by intros x ->.
Qed.

(** X4.  [_next_color] counts the calls made without a colour, the
    constructor's included, and stops at the palette's length; it never
    passes it, and the palette itself is never changed. *)
Theorem next_color_bounded ltn cmap lut0 cs :
  __init__ ltn cmap = Ok lut0 ->
  _next_color (run_calls lut0 cs)
    = Nat.min (init_count ltn + colorless cs) (length (colors lut0))
  /\ (_next_color (run_calls lut0 cs) <= length (colors (run_calls lut0 cs)))%nat
  /\ colors (run_calls lut0 cs) = colors lut0.
Proof.
  intros (palette & _ & ->)%init_run_calls.
  rewrite <- run_calls_app, !colors_run_calls.
  rewrite next_color_run_calls by (simpl; lia).
  rewrite colorless_app, colorless_ctor_calls. simpl. split_and!; [done|lia|done].
Qed.


#[local] Instance Q_eq_dec : EqDecision Q.
Proof. solve_decision. Defined.

Lemma palettes_NoDup cmap palette :
  Py.dict_get COLORS cmap = Some palette -> NoDup palette.
Proof.
  unfold COLORS. cbn [Py.dict_get]. repeat case_decide; intros [= <-].
  - apply (bool_decide_unpack _). by vm_compute.
  - apply (bool_decide_unpack _). by vm_compute.
Qed.

(** X5.  Labels added without a colour get different colours as long as the
    palette lasts, and all the same colour once it is used up: for two such
    calls [c1] and, later, [c2], the stored colours differ when [c2] is still
    inside the palette, and are equal when [c1] is already past it. *)
Theorem palette_colors_distinct ltn cmap lut0 pre c1 mid c2 l1 l2 :
  __init__ ltn cmap = Ok lut0 ->
  c_color c1 = None -> c_color c2 = None ->
  Py.dict_get (labels (run_calls lut0 (pre ++ [c1]))) (c_value c1) = Some l1 ->
  Py.dict_get (labels (run_calls lut0 ((pre ++ c1 :: mid) ++ [c2]))) (c_value c2)
    = Some l2 ->
  ((init_count ltn + colorless pre + 1 + colorless mid < length (colors lut0))%nat ->
     label_color l1 <> label_color l2)
  /\ ((length (colors lut0) <= init_count ltn + colorless pre)%nat ->
       label_color l1 = label_color l2).
Proof.
  intros (palette & Hp & ->)%init_run_calls Hc1 Hc2.
  rewrite <- !run_calls_app, !app_assoc.
  rewrite !run_calls_last by apply lut_inv_fresh. rewrite Hc1, Hc2.
  intros [= <-] [= <-]. cbn [label_color colors fresh _next_color].
  rewrite colors_run_calls. cbn [colors fresh].
  replace (ctor_calls ltn ++ pre ++ c1 :: mid)
    with ((ctor_calls ltn ++ pre) ++ [c1] ++ mid) by by rewrite <- !app_assoc.
  rewrite !colorless_app, colorless_ctor_calls.
  assert (Hone : colorless (c1 :: mid) = (1 + colorless mid)%nat).
  { unfold colorless. by rewrite filter_cons_True. }
  rewrite Hone. split.
  - intros Hlt.
    destruct (lookup_lt_is_Some_2 palette (init_count ltn + colorless pre)) as [x Hx];
      [lia|].
    destruct (lookup_lt_is_Some_2 palette
                (init_count ltn + colorless pre + (1 + colorless mid))) as [y Hy]; [lia|].
    rewrite (palette_color_lookup _ _ _ Hx), (palette_color_lookup _ _ _ Hy).
    intros ->. pose proof (palettes_NoDup _ _ Hp) as Hnd.
    pose proof (NoDup_lookup _ _ _ _ Hnd Hx Hy). lia.
  - intros Hge. by rewrite !palette_color_ge by lia.
Qed.

(** Evaluation of X2: value 1 is added again after value 2. *)
Lemma labels_insertion_order_witness :
  __init__ (Some (<[7 := "road"]> (<[2 := "car"]> ∅))) "default"
    = Ok (run_calls (fresh COLORS_default)
            (ctor_calls (Some (<[7 := "road"]> (<[2 := "car"]> ∅)))))
  /\ Py.keys (labels (run_calls
        (run_calls (fresh COLORS_default)
           (ctor_calls (Some (<[7 := "road"]> (<[2 := "car"]> ∅)))))
        [mkCall "one" 1 None; mkCall "two" 9 None; mkCall "uno" 1 None]))
     = [2; 7; 1; 9].
Proof.
  assert (Hinit : __init__ (Some (<[7 := "road"]> (<[2 := "car"]> ∅))) "default"
    = Ok (run_calls (fresh COLORS_default)
            (ctor_calls (Some (<[7 := "road"]> (<[2 := "car"]> ∅))))))
    by reflexivity.
  split; [exact Hinit|].
  exact (proj1 (labels_insertion_order _ _ _
    [mkCall "one" 1 None; mkCall "two" 9 None; mkCall "uno" 1 None] Hinit)).
Defined.

(** Evaluation of X3. *)
Lemma add_label_last_wins_witness :
  exists col,
    Py.dict_get (labels (run_calls (fresh COLORS_default)
        ([mkCall "one" 1 None] ++ mkCall "uno" 1 (Some [0.0; 0.0; 1.0]%Q)
           :: [mkCall "two" 2 None]))) 1
    = Some (mkLabel "uno" 1 col).
Proof.
  assert (Hinit : __init__ None "default" = Ok (fresh COLORS_default)) by reflexivity.
  destruct (add_label_last_wins None "default" (fresh COLORS_default)
              [mkCall "one" 1 None] (mkCall "uno" 1 (Some [0.0; 0.0; 1.0]%Q))
              [mkCall "two" 2 None] Hinit) as (col & Hget & _).
  { repeat constructor. simpl. lia. }
  exists col. exact Hget.
Defined.

(** Evaluation of X4 on the twelve colours of the spectrum palette. *)
Lemma next_color_bounded_witness :
  _next_color (run_calls (fresh COLORS_spectrum)
     ((fun v => mkCall "x" v None) <$> Py.range 0 20)) = 12%nat.
Proof.
  assert (Hinit : __init__ None "spectrum" = Ok (fresh COLORS_spectrum)) by reflexivity.
  exact (proj1 (next_color_bounded None "spectrum" (fresh COLORS_spectrum)
    ((fun v => mkCall "x" v None) <$> Py.range 0 20) Hinit)).
Defined.

(** Evaluation of X5: the first two labels of a table differ in colour. *)
Lemma palette_colors_distinct_witness :
  [0.0; 0.0; 0.0]%Q <> [0.96078431; 0.58823529; 0.39215686]%Q.
Proof.
  assert (Hinit : __init__ None "default" = Ok (fresh COLORS_default)) by reflexivity.
  refine (proj1 (palette_colors_distinct None "default" (fresh COLORS_default)
    [] (mkCall "one" 1 None) [] (mkCall "two" 2 None)
    (mkLabel "one" 1 [0.0; 0.0; 0.0]%Q)
    (mkLabel "two" 2 [0.96078431; 0.58823529; 0.39215686]%Q)
    Hinit eq_refl eq_refl eq_refl eq_refl) _).
  vm_compute. lia.
Defined.

End LabelLUT_more.

(** ** Checkpoints: errors, partial loads, what is left alone *)

Section CheckpointMore.
Context {SD Model Optimizer Scheduler : Type}.
Context `{!Stateful SD Model, !Stateful SD Optimizer, !Stateful SD Scheduler}.
Context `{!Utils SD}.
Implicit Types (self : @pipeline Model Optimizer Scheduler) (w : world (SD := SD)).

(** X6.  [save_ckpt] needs the optimizer and the scheduler: when [self] has
    no optimizer or no scheduler (it is called before [run_train] has set
    them) it raises [AttributeError], whatever the epoch and the files are;
    so a call that returns had both, and it returns [self] as it was. *)
Theorem save_ckpt_AttributeError self epoch w :
  (optimizer self = None \/ scheduler self = None ->
     save_ckpt self epoch w = Raise AttributeError)
  /\ (forall self' w', save_ckpt self epoch w = Ok (self', w') ->
        self' = self /\ is_Some (optimizer self) /\ is_Some (scheduler self)).
Proof.
  unfold save_ckpt.
  destruct (optimizer self) as [opt|], (scheduler self) as [sch|]; split;
    try (by intros [?|?]); try done.
  intros self' w' [= <- _]. by eauto.
Qed.

Lemma restore_model_only self p w (d : ckpt_dict SD) sd m' :
  fs w !! p = Some (Os.Pickle d) ->
  d !! "model_state_dict" = Some (PyState sd) ->
  load_state_dict sd (model self) = Some m' ->
  optimizer self = None \/ d !! "optimizer_state_dict" = None ->
  scheduler self = None \/ d !! "scheduler_state_dict" = None ->
  exists self',
    restore self p w = Ok (self', log_info (LogLoading p) w)
    /\ model self' = m'
    /\ optimizer self' = optimizer self /\ scheduler self' = scheduler self.
Proof.
  intros Hp Hd Hm Ho Hs. unfold restore.
  assert (Hex : Os.exists_ (fs w) p = true) by (apply exists_true; eauto).
  rewrite Hex. cbn [negb fs log_info]. unfold torch_load. rewrite Hp.
  cbn [mbind result_bind]. unfold load_from at 1. rewrite Hd, Hm.
  cbn [mbind result_bind].
  assert (Hopt : load_if_present d "optimizer_state_dict" LogLoadingOptimizer
                   (optimizer self) (log_info (LogLoading p) w)
                 = Ok (optimizer self, log_info (LogLoading p) w)).
  { unfold load_if_present. destruct Ho as [-> | Ho]; [done|].
    destruct (optimizer self); [|done].
    rewrite bool_decide_eq_false_2; [done|]. rewrite Ho. by intros [? ?]. }
  rewrite Hopt. cbn [mbind result_bind].
  assert (Hsch : load_if_present d "scheduler_state_dict" LogLoadingScheduler
                   (scheduler self) (log_info (LogLoading p) w)
                 = Ok (scheduler self, log_info (LogLoading p) w)).
  { unfold load_if_present. destruct Hs as [-> | Hs]; [done|].
    destruct (scheduler self); [|done].
    rewrite bool_decide_eq_false_2; [done|]. rewrite Hs. by intros [? ?]. }
  rewrite Hsch. cbn [mbind result_bind]. by eexists.
Qed.

(** X7.  Loading the weights only.  When the file holds a dictionary with a
    [model_state_dict] the model accepts, [load_ckpt] with that path returns
    with the model loaded; the optimizer is left exactly as it is when the
    dictionary has no [optimizer_state_dict] or [self] has no optimizer (as
    in [run_test]), and likewise the scheduler. *)
Theorem load_ckpt_model_only self p (is_resume : bool) w (d : ckpt_dict SD) sd m' :
  make_dir (Os.join (logs_dir (cfg self)) "checkpoint") (fs w) !! p
    = Some (Os.Pickle d) ->
  d !! "model_state_dict" = Some (PyState sd) ->
  load_state_dict sd (model self) = Some m' ->
  optimizer self = None \/ d !! "optimizer_state_dict" = None ->
  scheduler self = None \/ d !! "scheduler_state_dict" = None ->
  exists self' w',
    load_ckpt self (Some p) is_resume w = Ok (self', w')
    /\ model self' = m'
    /\ optimizer self' = optimizer self /\ scheduler self' = scheduler self
    /\ log w' = log w ++ [LogLoading p].
Proof.
  intros Hp Hd Hm Ho Hs. unfold load_ckpt. cbn [resolve_ckpt_path].
  destruct (restore_model_only self p
              (with_fs (make_dir (Os.join (logs_dir (cfg self)) "checkpoint")) w)
              d sd m' Hp Hd Hm Ho Hs) as (self' & Hres & Hm' & Ho' & Hs').
  exists self', (log_info (LogLoading p)
                  (with_fs (make_dir (Os.join (logs_dir (cfg self)) "checkpoint")) w)).
  by split_and!.
Qed.

(** X8.  A pickled dictionary without [model_state_dict] makes [load_ckpt]
    raise [KeyError], whatever else the dictionary holds. *)
Theorem load_ckpt_KeyError self p (is_resume : bool) w (d : ckpt_dict SD) :
  make_dir (Os.join (logs_dir (cfg self)) "checkpoint") (fs w) !! p
    = Some (Os.Pickle d) ->
  d !! "model_state_dict" = None ->
  load_ckpt self (Some p) is_resume w = Raise KeyError.
Proof.
  intros Hp Hd. unfold load_ckpt. cbn [resolve_ckpt_path]. unfold restore.
  rewrite (proj2 (exists_true _ p)) by (cbn [fs with_fs]; eauto).
  cbn [negb fs log_info with_fs]. unfold torch_load. rewrite Hp.
  cbn [mbind result_bind]. unfold load_from at 1. by rewrite Hd.
Qed.

(** X9.  What [load_ckpt] leaves alone.  A returning call changes at most
    the model, the optimizer and the scheduler of [self]; on the file system
    it does nothing beyond the [make_dir] of the checkpoint directory; and it
    only adds records to the log. *)
Theorem load_ckpt_frame self ckpt_path (is_resume : bool) w self' w' :
  load_ckpt self ckpt_path is_resume w = Ok (self', w') ->
  cfg self' = cfg self /\ mcfg self' = mcfg self /\ device self' = device self
  /\ self_batcher self' = self_batcher self
  /\ curr_cloud_id self' = curr_cloud_id self
  /\ test_probs self' = test_probs self /\ test_labels self' = test_labels self
  /\ ori_test_probs self' = ori_test_probs self
  /\ ori_test_labels self' = ori_test_labels self
  /\ complete_infer self' = complete_infer self
  /\ pbar self' = pbar self /\ pbar_update self' = pbar_update self
  /\ (is_Some (optimizer self') <-> is_Some (optimizer self))
  /\ (is_Some (scheduler self') <-> is_Some (scheduler self))
  /\ fs w' = make_dir (Os.join (logs_dir (cfg self)) "checkpoint") (fs w)
  /\ exists records, log w' = log w ++ records.
Proof.
  unfold load_ckpt.
  destruct (resolve_ckpt_path _ ckpt_path is_resume _) as [w1|[p w1]] eqn:Hres.
  - apply resolve_ckpt_path_inl in Hres as (_ & _ & ->). intros [= <- <-].
    split_and!; try done. by eexists.
  - assert (Hw1 : fs w1 = make_dir (Os.join (logs_dir (cfg self)) "checkpoint") (fs w)
                  /\ exists r1, log w1 = log w ++ r1).
    { apply resolve_ckpt_path_inr in Hres as [[_ ->]|(_ & _ & _ & ->)].
      - split; [done|]. exists []. by rewrite app_nil_r.
      - split; [done|]. by eexists. }
    destruct Hw1 as [Hfs1 [r1 Hlog1]].
    unfold restore. destruct (negb _); [done|].
    intros (ckpt & _ & Hr)%bind_Ok.
    apply bind_Ok in Hr as (m & _ & Hr).
    apply bind_Ok in Hr as ([opt w2] & Ho & Hr).
    apply bind_Ok in Hr as ([sch w3] & Hs & Hr).
    injection Hr as <- <-.
    apply load_if_present_Ok in Ho as (Ho & Hfs2 & Hlog2).
    apply load_if_present_Ok in Hs as (Hs & Hfs3 & Hlog3).
    cbn [cfg mcfg device self_batcher curr_cloud_id test_probs test_labels
         ori_test_probs ori_test_labels complete_infer pbar pbar_update
         optimizer scheduler].
    split_and!; try done.
    + by rewrite Hfs3, Hfs2.
    + cbn [log log_info] in Hlog2.
      destruct Hlog3 as [-> | ->], Hlog2 as [-> | ->]; rewrite Hlog1;
        rewrite <- ?app_assoc; by eexists.
Qed.

End CheckpointMore.

Section EpochIgnored.
Context {SD Model Optimizer Scheduler : Type}.
Context `{!Stateful SD Model, !Stateful SD Optimizer, !Stateful SD Scheduler}.
Context `{!Utils SD}.
Implicit Types (self : @pipeline Model Optimizer Scheduler) (w : world (SD := SD)).

Lemma load_from_agree {A : Type} `{!Stateful SD A} (d1 d2 : ckpt_dict SD) key (obj : A) :
  d1 !! key = d2 !! key -> load_from d1 key obj = load_from d2 key obj.
Proof. unfold load_from. by intros ->. Qed.

Lemma load_if_present_agree {A : Type} `{!Stateful SD A} (d1 d2 : ckpt_dict SD)
    key r (obj : option A) w1 w2 :
  d1 !! key = d2 !! key ->
  match load_if_present d1 key r obj w1, load_if_present d2 key r obj w2 with
  | Ok (o1, _), Ok (o2, _) => o1 = o2
  | Raise e1, Raise e2 => e1 = e2
  | _, _ => False
  end.
Proof.
  intros Hk. unfold load_if_present. destruct obj as [a|]; [|done].
  rewrite Hk, (load_from_agree d1 d2 key a Hk).
  case_bool_decide; [|done]. by destruct (load_from d2 key a).
Qed.

(** Two files that agree on every key but [epoch] load alike. *)
Lemma restore_agree self p w1 w2 (d1 d2 : ckpt_dict SD) :
  fs w1 !! p = Some (Os.Pickle d1) -> fs w2 !! p = Some (Os.Pickle d2) ->
  (forall k, k <> "epoch" -> d1 !! k = d2 !! k) ->
  match restore self p w1, restore self p w2 with
  | Ok (s1, _), Ok (s2, _) => s1 = s2
  | Raise e1, Raise e2 => e1 = e2
  | _, _ => False
  end.
Proof.
  intros H1 H2 Hd. unfold restore.
  rewrite !(proj2 (exists_true _ p)) by eauto.
  cbn [negb fs log_info]. unfold torch_load. rewrite H1, H2.
  cbn [mbind result_bind].
  rewrite (load_from_agree d1 d2 "model_state_dict") by by apply Hd.
  destruct (load_from d2 "model_state_dict" (model self)) as [m|e]; [|done].
  cbn [mbind result_bind].
  pose proof (load_if_present_agree d1 d2 "optimizer_state_dict" LogLoadingOptimizer
    (optimizer self) (log_info (LogLoading p) w1) (log_info (LogLoading p) w2)
    (Hd "optimizer_state_dict" ltac:(done))) as Ho.
  destruct (load_if_present d1 "optimizer_state_dict" _ _ _) as [[o1 u1]|e1],
           (load_if_present d2 "optimizer_state_dict" _ _ _) as [[o2 u2]|e2];
    try done.
  subst o2. cbn [mbind result_bind].
  pose proof (load_if_present_agree d1 d2 "scheduler_state_dict" LogLoadingScheduler
    (scheduler self) u1 u2 (Hd "scheduler_state_dict" ltac:(done))) as Hs.
  destruct (load_if_present d1 "scheduler_state_dict" _ _ _) as [[s1 v1]|e1],
           (load_if_present d2 "scheduler_state_dict" _ _ _) as [[s2 v2]|e2];
    try done.
  subst s2. done.
Qed.

(** X10.  [load_ckpt] never reads the [epoch] of a checkpoint: two files
    that differ only in what is stored under [epoch] make it return the same
    pipeline, or raise the same error.  (So a resumed [run_train] starts at
    epoch 0 again.) *)
Theorem load_ckpt_ignores_epoch self p (is_resume : bool) w1 w2
    (d : ckpt_dict SD) (v : pyval SD) :
  make_dir (Os.join (logs_dir (cfg self)) "checkpoint") (fs w1) !! p
    = Some (Os.Pickle d) ->
  make_dir (Os.join (logs_dir (cfg self)) "checkpoint") (fs w2) !! p
    = Some (Os.Pickle (<["epoch" := v]> d)) ->
  (forall self',
     (exists w', load_ckpt self (Some p) is_resume w1 = Ok (self', w'))
     <-> (exists w', load_ckpt self (Some p) is_resume w2 = Ok (self', w')))
  /\ (forall e,
        load_ckpt self (Some p) is_resume w1 = Raise e
        <-> load_ckpt self (Some p) is_resume w2 = Raise e).
Proof.
  intros H1 H2. unfold load_ckpt. cbn [resolve_ckpt_path].
  pose proof (restore_agree self p
    (with_fs (make_dir (Os.join (logs_dir (cfg self)) "checkpoint")) w1)
    (with_fs (make_dir (Os.join (logs_dir (cfg self)) "checkpoint")) w2)
    d (<["epoch" := v]> d) H1 H2) as Hagree.
  destruct (restore self p (with_fs _ w1)) as [[s1 u1]|e1],
           (restore self p (with_fs _ w2)) as [[s2 u2]|e2].
  - rewrite Hagree by (intros k Hk; by rewrite lookup_insert_ne).
    split; [|done]. intros self'. split; intros [w' [= <- _]]; by eexists.
  - exfalso. apply Hagree. intros k Hk. by rewrite lookup_insert_ne.
  - exfalso. apply Hagree. intros k Hk. by rewrite lookup_insert_ne.
  - rewrite Hagree by (intros k Hk; by rewrite lookup_insert_ne).
    split; [|done]. intros self'. split; intros [w' ?]; done.
Qed.

End EpochIgnored.

(** ** Checkpoint files of different epochs *)

Lemma pretty_N_go_head (x : N) (s : string) :
  (0 < x)%N -> exists c r, pretty_N_go x s = String c r /\ c <> "0"%char.
Proof.
  revert s. induction (N.lt_wf_0 x) as [x _ IH]; intros s Hx.
  rewrite pretty_N_go_step by done.
  assert (x < 10 \/ 10 <= x)%N as [Hlt|Hge] by lia.
  - rewrite N.div_small, pretty_N_go_0, N.mod_small by done.
    eexists _, _. split; [done|].
    assert (x = 1 \/ x = 2 \/ x = 3 \/ x = 4 \/ x = 5 \/ x = 6
            \/ x = 7 \/ x = 8 \/ x = 9)%N as Hcases by lia.
    destruct Hcases as [->|[->|[->|[->|[->|[->|[->|[->| ->]]]]]]]]; done.
  - apply IH.
    + apply N.div_lt; lia.
    + apply N.div_str_pos. lia.
Qed.

(** A printed number is ["0"] or starts with a digit other than zero. *)
Lemma pretty_N_shape (x : N) :
  pretty x = "0" \/ exists c r, pretty x = String c r /\ c <> "0"%char.
Proof.
  unfold pretty, pretty_N. case_decide; [by left|].
  right. apply pretty_N_go_head. lia.
Qed.

Lemma zeros_add a b : Os.zeros (a + b) = Os.zeros a +:+ Os.zeros b.
Proof.
  induction a as [|a IH]; [done|].
  change (Os.zeros (S a + b)) with (String "0"%char (Os.zeros (a + b))).
  rewrite IH. done.
Qed.

Lemma zeros_pad_inj_le k1 k2 (p1 p2 : string) :
  (k1 <= k2)%nat ->
  (p1 = "0" \/ exists c r, p1 = String c r /\ c <> "0"%char) ->
  p2 <> "" ->
  Os.zeros k1 +:+ p1 = Os.zeros k2 +:+ p2 -> p1 = p2.
Proof.
  intros Hle Hp1 Hp2 Heq.
  replace k2 with (k1 + (k2 - k1))%nat in Heq by lia.
  rewrite zeros_add, append_assoc in Heq.
  apply (inj (String.append (Os.zeros k1))) in Heq.
  destruct (k2 - k1)%nat as [|k] eqn:Hk; [done|].
  exfalso. change (Os.zeros (S k) +:+ p2) with (String "0"%char (Os.zeros k +:+ p2)) in Heq.
  destruct Hp1 as [-> | (c & r & -> & Hc)].
  - injection Heq as Heq. destruct k; [|done].
    change (Os.zeros 0 +:+ p2) with p2 in Heq. by apply Hp2.
  - injection Heq as -> _. done.
Qed.

Lemma pretty_N_nonempty (x : N) : pretty x <> "".
Proof. destruct (pretty_N_shape x) as [-> | (c & r & -> & _)]; done. Qed.

(** The format [05d] maps different epochs to different strings. *)
Lemma format_05d_inj (a b : Z) :
  0 <= a -> 0 <= b -> Os.format_05d a = Os.format_05d b -> a = b.
Proof.
  intros Ha Hb.
  rewrite (proj1 (format_05d_nonneg a Ha)), (proj1 (format_05d_nonneg b Hb)).
  intros Heq.
  assert (pretty (Z.to_N a) = pretty (Z.to_N b)) as Hp.
  { destruct (decide (5 - String.length (pretty (Z.to_N a))
                      <= 5 - String.length (pretty (Z.to_N b)))%nat).
    - eapply zeros_pad_inj_le; [done | apply pretty_N_shape | apply pretty_N_nonempty
                               | exact Heq].
    - symmetry. eapply zeros_pad_inj_le; [| apply pretty_N_shape
                                          | apply pretty_N_nonempty | symmetry; exact Heq].
      lia. }
  apply (inj pretty) in Hp. lia.
Qed.

Lemma append_inj_r (a b c : string) : a +:+ c = b +:+ c -> a = b.
Proof.
  revert b. induction a as [|x a IH]; intros [|y b] Heq.
  - done.
  - apply (f_equal String.length) in Heq.
    rewrite !length_append in Heq. simpl in Heq. lia.
  - apply (f_equal String.length) in Heq.
    rewrite !length_append in Heq. simpl in Heq. lia.
  - change (String x (a +:+ c) = String y (b +:+ c)) in Heq.
    injection Heq as -> Heq. f_equal. by apply IH.
Qed.

Lemma join_inj_r (a b1 b2 : string) :
  Os.starts_with_sep b1 = false -> Os.starts_with_sep b2 = false ->
  Os.join a b1 = Os.join a b2 -> b1 = b2.
Proof.
  intros H1 H2. unfold Os.join. rewrite H1, H2.
  destruct (_ || _).
  - apply (inj (String.append a)).
  - intros Heq. apply (inj (String.append a)) in Heq.
    by apply (inj (String.append "/")) in Heq.
Qed.

Section EpochFiles.
Context {SD Model Optimizer Scheduler : Type}.
Context `{!Stateful SD Model, !Stateful SD Optimizer, !Stateful SD Scheduler}.
Context `{!Utils SD, !Trainer Model Optimizer Scheduler, !UtilsLaws SD}.
Implicit Types (self : @pipeline Model Optimizer Scheduler) (w : world (SD := SD)).

Lemma ckpt_file_inj self (a b : Z) :
  0 <= a -> 0 <= b -> ckpt_file self a = ckpt_file self b -> a = b.
Proof.
  intros Ha Hb. unfold ckpt_file. intros Heq.
  apply join_inj_r in Heq; [|done..].
  apply (inj (String.append "ckpt_")) in Heq.
  apply append_inj_r in Heq. by apply format_05d_inj.
Qed.

(** X11.  The checkpoints of two different epochs (from 0 on) never share a
    file: [save_ckpt] computes different paths for them. *)
Theorem ckpt_files_distinct self (a b : Z) :
  0 <= a -> 0 <= b -> a <> b -> ckpt_file self a <> ckpt_file self b.
Proof. intros Ha Hb Hne Heq. apply Hne. by eapply ckpt_file_inj. Qed.

Lemma NoDup_range lo hi : NoDup (Py.range lo hi).
Proof.
  unfold Py.range. apply NoDup_fmap_2; [|apply NoDup_seq].
  intros i j Hij. lia.
Qed.

(** One round of the loop, taken apart. *)
Lemma train_loop_cons epoch rest self w self' w' :
  train_loop (epoch :: rest) self w = Ok (self', w') ->
  exists self1 w1,
    cfg self1 = cfg self
    /\ is_Some (optimizer self1) /\ is_Some (scheduler self1)
    /\ save_ckpt_freq (cfg self) <> 0
    /\ (if decide (epoch mod save_ckpt_freq (cfg self) = 0)
        then save_ckpt self1 epoch (log_info (LogEpoch epoch (max_epoch (cfg self))) w)
             = Ok (self1, w1)
        else w1 = log_info (LogEpoch epoch (max_epoch (cfg self))) w)
    /\ train_loop rest self1 w1 = Ok (self', w').
Proof.
  cbn [train_loop].
  destruct (optimizer self) as [opt|]; [|done].
  destruct (scheduler self) as [sch|]; [|done].
  destruct (train_epoch epoch (model self, opt, sch)) as [[m opt'] sch'].
  set (self1 := set_training self m (Some opt') (Some sch') (self_batcher self)).
  assert (Hcfg1 : cfg self1 = cfg self) by done. rewrite Hcfg1.
  intros (r & Hr & ([self2 w2] & Hstep & Hrest)%bind_Ok)%bind_Ok.
  unfold Py.mod_ in Hr.
  destruct (decide (save_ckpt_freq (cfg self) = 0)) as [|Hfreq]; [done|].
  injection Hr as <-.
  destruct (decide (epoch mod save_ckpt_freq (cfg self) = 0)).
  - pose proof Hstep as (-> & _)%save_ckpt_Ok.
    exists self1, w2. split_and!; try done; by eexists.
  - injection Hstep as <- <-. eexists self1, _. split_and!; try done; by eexists.
Qed.

(** The loop leaves the checkpoint file of an epoch it does not run as it is. *)
Lemma train_loop_keeps_file epochs self w self' w' e0 f :
  train_loop epochs self w = Ok (self', w') ->
  0 <= e0 -> Forall (fun e => 0 <= e) epochs -> e0 ∉ epochs ->
  fs w !! ckpt_file self e0 = Some f ->
  fs w' !! ckpt_file self e0 = Some f.
Proof.
  revert self w. induction epochs as [|epoch rest IH]; intros self w Hloop He0 Hpos Hnin Hf.
  - by injection Hloop as <- <-.
  - apply train_loop_cons in Hloop
      as (self1 & w1 & Hcfg & [opt Ho] & [sch Hs] & _ & Hstep & Hrest).
    apply Forall_cons in Hpos as [Hepoch Hpos].
    apply not_elem_of_cons in Hnin as [Hne Hnin].
    rewrite (ckpt_file_cfg self self1) in Hf |- * by done.
    apply (IH _ _ Hrest); [done..|].
    destruct (decide _); [|by subst w1].
    destruct (save_ckpt_writes self1 epoch
                (log_info (LogEpoch epoch (max_epoch (cfg self))) w) opt sch Ho Hs)
      as (w2 & d & Hsave & _ & Hother & _).
    rewrite Hstep in Hsave. injection Hsave as <-.
    rewrite Hother.
    + by apply make_dir_keeps.
    + intros Heq. apply Hne. by eapply ckpt_file_inj.
Qed.

Lemma train_loop_epoch_files epochs self w self' w' e :
  train_loop epochs self w = Ok (self', w') ->
  NoDup epochs -> Forall (fun e => 0 <= e) epochs ->
  e ∈ epochs -> e mod save_ckpt_freq (cfg self) = 0 ->
  exists d, fs w' !! ckpt_file self e = Some (Os.Pickle d)
            /\ d !! "epoch" = Some (PyInt e).
Proof.
  revert self w. induction epochs as [|epoch rest IH];
    intros self w Hloop Hnd Hpos He Hdiv.
  - by apply elem_of_nil in He.
  - apply train_loop_cons in Hloop
      as (self1 & w1 & Hcfg & [opt Ho] & [sch Hs] & _ & Hstep & Hrest).
    apply Forall_cons in Hpos as [Hepoch Hpos].
    apply NoDup_cons in Hnd as [Hnin Hnd].
    rewrite (ckpt_file_cfg self self1) by done.
    apply elem_of_cons in He as [->|He].
    + rewrite decide_True in Hstep by done.
      destruct (save_ckpt_writes self1 epoch
                  (log_info (LogEpoch epoch (max_epoch (cfg self))) w) opt sch Ho Hs)
        as (w2 & d & Hsave & Hfile & _ & _ & _ & Hd & _).
      rewrite Hstep in Hsave. injection Hsave as <-.
      exists d. split; [|done].
      by eapply train_loop_keeps_file.
    + eapply IH; [exact Hrest | done | done | done | by rewrite Hcfg].
Qed.

(** X12.  After [run_train], every epoch that [save_ckpt_freq] divides has
    its own file, and the dictionary in it carries that epoch's number: no
    later checkpoint has overwritten it. *)
Theorem run_train_checkpoint_epochs self w b self1 w1 :
  get_batcher self (device self) = Some b ->
  load_ckpt (with_optimizer (with_batcher self)) (cfg_ckpt_path (mcfg self))
    (default true (cfg_is_resume (mcfg self))) w = Ok (self1, w1) ->
  save_ckpt_freq (cfg self) <> 0 ->
  exists self' w',
    run_train self w = Ok (self', w')
    /\ forall e,
         0 <= e <= max_epoch (cfg self) -> e mod save_ckpt_freq (cfg self) = 0 ->
         exists d, fs w' !! ckpt_file self e = Some (Os.Pickle d)
                   /\ d !! "epoch" = Some (PyInt e).
Proof.
  intros Hb Hload Hfreq.
  destruct (run_train_spec self w b self1 w1 Hb Hload Hfreq)
    as (self' & w' & Hrun & Hloop & Hcfg & _).
  exists self', w'. split; [done|]. intros e He Hdiv.
  rewrite (ckpt_file_cfg self self1) by done.
  eapply train_loop_epoch_files; [exact Hloop | apply NoDup_range | |
                                  | by rewrite Hcfg].
  - apply Forall_forall. intros x Hx%elem_of_range. lia.
  - apply elem_of_range. lia.
Qed.

End EpochFiles.

(** ** [run_train]: the runs that stop early *)

Section RunTrainEdges.
Context {SD Model Optimizer Scheduler : Type}.
Context `{!Stateful SD Model, !Stateful SD Optimizer, !Stateful SD Scheduler}.
Context `{!Utils SD, !Trainer Model Optimizer Scheduler}.
Implicit Types (self : @pipeline Model Optimizer Scheduler) (w : world (SD := SD)).

Lemma run_train_loop self w b self1 w1 :
  get_batcher self (device self) = Some b ->
  load_ckpt (with_optimizer (with_batcher self)) (cfg_ckpt_path (mcfg self))
    (default true (cfg_is_resume (mcfg self))) w = Ok (self1, w1) ->
  run_train self w
  = train_loop (Py.range 0 (max_epoch (cfg self) + 1)) self1
      (log_info LogStartedTraining w1)
  /\ cfg self1 = cfg self
  /\ is_Some (optimizer self1) /\ is_Some (scheduler self1).
Proof.
  intros Hb Hload.
  destruct (with_optimizer_props (with_batcher self)) as (Hc & Hm & Hsb & Ho & Hs).
  pose proof Hload as (Hc1 & Hm1 & Ho1 & Hs1 & _)%load_ckpt_Ok.
  rewrite Hc in Hc1. cbn [with_batcher set_training cfg] in Hc1.
  split_and!; [|done|by auto|by auto].
  unfold run_train. cbn [with_batcher set_training self_batcher]. rewrite Hb.
  rewrite Hm. cbn [with_batcher set_training mcfg]. rewrite Hload.
  cbn [mbind result_bind]. by rewrite Hc1.
Qed.


(** X14.  With a negative [max_epoch] the loop does not run: a [run_train]
    that returns has trained nothing and saved nothing, whatever
    [save_ckpt_freq] is.  The model, the optimizer and the scheduler are as
    the initial [load_ckpt] left them, and the log has got no epoch record
    and no checkpoint record since then. *)
Theorem run_train_no_epochs self w b self1 w1 self' w' :
  get_batcher self (device self) = Some b ->
  load_ckpt (with_optimizer (with_batcher self)) (cfg_ckpt_path (mcfg self))
    (default true (cfg_is_resume (mcfg self))) w = Ok (self1, w1) ->
  max_epoch (cfg self) < 0 ->
  run_train self w = Ok (self', w') ->
  model self' = model self1
  /\ optimizer self' = optimizer self1 /\ scheduler self' = scheduler self1
  /\ epochs_logged (log w') = epochs_logged (log w1)
  /\ ckpts_logged (log w') = ckpts_logged (log w1).
Proof.
  intros Hb Hload HN.
  destruct (run_train_loop self w b self1 w1 Hb Hload) as (-> & _).
  unfold Py.range. replace (Z.to_nat _) with 0%nat by lia.
  cbn [seq fmap list_fmap train_loop]. intros [= <- <-].
  cbn [log log_info]. rewrite epochs_logged_snoc, ckpts_logged_snoc.
  by rewrite !app_nil_r.
Qed.

(** X15.  A configured [ckpt_path] that names nothing stops [run_train]
    before the first epoch, with the [FileNotFoundError] of [load_ckpt]. *)
Theorem run_train_FileNotFoundError self w b p :
  get_batcher self (device self) = Some b ->
  cfg_ckpt_path (mcfg self) = Some p ->
  make_dir (Os.join (logs_dir (cfg self)) "checkpoint") (fs w) !! p = None ->
  run_train self w = Raise FileNotFoundError.
Proof.
  intros Hb Hpath Hp.
  destruct (with_optimizer_props (with_batcher self)) as (Hc & Hm & _).
  unfold run_train. cbn [with_batcher set_training self_batcher]. rewrite Hb.
  rewrite Hm. cbn [with_batcher set_training mcfg]. rewrite Hpath.
  unfold load_ckpt. cbn [resolve_ckpt_path]. rewrite Hc.
  cbn [with_batcher set_training cfg].
  rewrite (proj2 (restore_not_found _ p _)); [done|]. done.
Qed.

End RunTrainEdges.

(** ** [update_tests]: other splits, cloud order, progress, other clouds *)

Section UpdateTestsMore.
Context {Model Optimizer Scheduler Inputs Results Data : Type}.
Context `{!Tester Model Inputs Results Data}.
Implicit Types (self : @pipeline Model Optimizer Scheduler) (smp : sampler).

Lemma enter_cloud_inv self smp s1 :
  enter_cloud self smp = Ok s1 ->
  (curr_cloud_id self = cloud_id smp /\ s1 = self)
  \/ (curr_cloud_id self <> cloud_id smp
      /\ exists poss,
           Py.getitem (possibilities smp) (cloud_id smp) = Ok poss
           /\ s1 = set_tests self (cloud_id smp)
                     (test_probs self ++ [zeros_2d (length poss) (num_classes (mcfg self))])
                     (test_labels self ++ [zeros_1d (length poss)])
                     (ori_test_probs self) (ori_test_labels self) (Some false)
                     (Some {| pbar_total := length poss; pbar_n := 0 |}) (Some 0)).
Proof.
  unfold enter_cloud. case_decide as Hne.
  - intros (poss & Hposs & [= <-])%bind_Ok. right. split; [done|]. by exists poss.
  - intros [= <-]. by left.
Qed.

Lemma accumulate_inv self smp (inputs : Inputs) (results : Results) s2 :
  accumulate self smp inputs results = Ok s2 ->
  exists poss bar upd tps tls,
    Py.getitem (possibilities smp) (cloud_id smp) = Ok poss
    /\ pbar self = Some bar /\ pbar_update self = Some upd
    /\ s2 = set_tests self (curr_cloud_id self) tps tls
              (ori_test_probs self) (ori_test_labels self) (complete_infer self)
              (Some (tqdm_update bar (Z.of_nat (count_above poss) - upd)))
              (Some (Z.of_nat (count_above poss))).
Proof.
  unfold accumulate.
  intros (poss & Hposs & (bar & Hbar & (upd & Hupd & (tp0 & _ & (tl0 & _ & Hr)%bind_Ok)
    %bind_Ok)%bind_Ok)%bind_Ok)%bind_Ok.
  destruct (update_probs (model self) inputs results tp0 tl0) as [tp' tl'].
  apply bind_Ok in Hr as (tps & _ & (tls & _ & [= <-])%bind_Ok).
  exists poss, bar, upd, tps, tls. split_and!; try done.
  - destruct (pbar self); [by injection Hbar as ->|done].
  - destruct (pbar_update self); [by injection Hupd as ->|done].
Qed.

(** X16.  For a sampler of any split but ['test'], [update_tests] never
    finalizes: whatever the possibilities are, a returning call leaves
    [ori_test_probs] and [ori_test_labels] as they were and does not set
    [complete_infer] to true. *)
Theorem update_tests_other_split self smp (inputs : Inputs) (results : Results) self' :
  split smp <> "test" ->
  update_tests self smp inputs results = Ok self' ->
  ori_test_probs self' = ori_test_probs self
  /\ ori_test_labels self' = ori_test_labels self
  /\ complete_infer self'
     = (if decide (curr_cloud_id self <> cloud_id smp) then Some false
        else complete_infer self).
Proof.
  intros Hsplit. unfold update_tests.
  intros (s1 & Henter & (poss & Hposs & (s2 & Hacc & Hfin)%bind_Ok)%bind_Ok)%bind_Ok.
  rewrite bool_decide_eq_false_2 in Hfin by done. cbn [andb] in Hfin.
  injection Hfin as <-.
  apply enter_cloud_Ok in Henter as (_ & _ & Hotp1 & Hotl1 & Hci1).
  apply accumulate_Ok in Hacc as (tp0 & tl0 & _ & _ & _ & _ & _ & _ & Hotp2 & Hotl2 & Hci2).
  by rewrite Hotp2, Hotl2, Hci2, Hotp1, Hotl1, Hci1.
Qed.

(** X17.  The buffers are appended in the order the clouds are entered but
    read at the cloud's id: entering a cloud whose id is larger than the
    number of clouds entered so far raises [IndexError]. *)
Theorem update_tests_IndexError self smp (inputs : Inputs) (results : Results) poss :
  curr_cloud_id self <> cloud_id smp ->
  Py.getitem (possibilities smp) (cloud_id smp) = Ok poss ->
  Z.of_nat (length (test_probs self)) < cloud_id smp ->
  update_tests self smp inputs results = Raise IndexError.
Proof.
  intros Hne Hposs Hlt. unfold update_tests, enter_cloud.
  rewrite decide_True by done. rewrite Hposs. cbn [mbind result_bind].
  unfold accumulate. rewrite Hposs. cbn [mbind result_bind].
  cbn [set_tests pbar pbar_update attr test_probs test_labels curr_cloud_id].
  cbn [mbind result_bind].
  assert (Hidx : Py.norm_index
            (length (test_probs self ++ [zeros_2d (length poss) (num_classes (mcfg self))]))
            (cloud_id smp) = None).
  { unfold Py.norm_index. rewrite length_app. cbn [length].
    repeat case_decide; [lia..|done]. }
  assert (Hget : Py.getitem
            (test_probs self ++ [zeros_2d (length poss) (num_classes (mcfg self))])
            (cloud_id smp) = Raise IndexError).
  { unfold Py.getitem. by rewrite Hidx. }
  by rewrite Hget.
Qed.

(** X18.  The progress bar follows the coverage.  After a returning call
    [pbar_update] is the number of possibilities above the threshold, and so
    is the position of the bar, provided the two agreed before the call or
    the call entered a new cloud (which starts both at 0). *)
Theorem update_tests_progress self smp (inputs : Inputs) (results : Results) self' :
  update_tests self smp inputs results = Ok self' ->
  exists poss bar',
    Py.getitem (possibilities smp) (cloud_id smp) = Ok poss
    /\ pbar self' = Some bar'
    /\ pbar_update self' = Some (Z.of_nat (count_above poss))
    /\ (curr_cloud_id self <> cloud_id smp
        \/ (exists bar, pbar self = Some bar /\ pbar_update self = Some (pbar_n bar)) ->
        pbar_n bar' = Z.of_nat (count_above poss))
    /\ (curr_cloud_id self <> cloud_id smp -> pbar_total bar' = length poss).
Proof.
  unfold update_tests.
  intros (s1 & Henter & (poss & Hposs & (s2 & Hacc & Hfin)%bind_Ok)%bind_Ok)%bind_Ok.
  apply accumulate_inv in Hacc
    as (poss' & bar & upd & tps & tls & Hposs' & Hbar & Hupd & ->).
  rewrite Hposs in Hposs'. injection Hposs' as <-.
  assert (Hpb : pbar self'
                = Some (tqdm_update bar (Z.of_nat (count_above poss) - upd))
                /\ pbar_update self' = Some (Z.of_nat (count_above poss))).
  { destruct (_ && _); [|by injection Hfin as <-].
    unfold finalize in Hfin.
    apply bind_Ok in Hfin as (? & _ & (? & _ & (? & _ & (? & _ & [= <-])%bind_Ok)
      %bind_Ok)%bind_Ok). done. }
  destruct Hpb as [Hpb Hpu].
  exists poss, (tqdm_update bar (Z.of_nat (count_above poss) - upd)).
  split_and!; try done.
  - intros Hagree. cbn [tqdm_update pbar_n].
    apply enter_cloud_inv in Henter as [[Heq ->]|(Hne & poss0 & _ & ->)].
    + destruct Hagree as [?|(bar0 & Hb0 & Hu0)]; [done|].
      rewrite Hb0 in Hbar. rewrite Hu0 in Hupd. injection Hbar as <-.
      injection Hupd as <-. lia.
    + cbn [set_tests pbar pbar_update] in Hbar, Hupd.
      injection Hbar as <-. injection Hupd as <-. cbn [pbar_n]. lia.
  - intros Hne. cbn [tqdm_update pbar_total].
    apply enter_cloud_inv in Henter as [[Heq ->]|(_ & poss0 & Hposs0 & ->)]; [done|].
    cbn [set_tests pbar] in Hbar. injection Hbar as <-.
    rewrite Hposs in Hposs0. by injection Hposs0 as <-.
Qed.

(** X19.  Only the buffers of the current cloud are written.  A returning
    call keeps the number of buffers (one more when it enters a new cloud),
    and every earlier buffer but the one at the cloud's index is what it
    was. *)
Theorem update_tests_other_clouds self smp (inputs : Inputs) (results : Results) self' :
  update_tests self smp inputs results = Ok self' ->
  exists k k',
    Py.norm_index (length (test_probs self')) (cloud_id smp) = Some k
    /\ Py.norm_index (length (test_labels self')) (cloud_id smp) = Some k'
    /\ length (test_probs self')
       = (length (test_probs self)
          + if decide (curr_cloud_id self <> cloud_id smp) then 1 else 0)%nat
    /\ length (test_labels self')
       = (length (test_labels self)
          + if decide (curr_cloud_id self <> cloud_id smp) then 1 else 0)%nat
    /\ (forall j, j <> k -> (j < length (test_probs self))%nat ->
          test_probs self' !! j = test_probs self !! j)
    /\ (forall j, j <> k' -> (j < length (test_labels self))%nat ->
          test_labels self' !! j = test_labels self !! j).
Proof.
  intros Hrun.
  assert (exists s1 x y,
            enter_cloud self smp = Ok s1
            /\ Py.setitem (test_probs s1) (cloud_id smp) x = Ok (test_probs self')
            /\ Py.setitem (test_labels s1) (cloud_id smp) y = Ok (test_labels self'))
    as (s1 & x & y & Henter & Hsp & Hsl).
  { unfold update_tests in Hrun.
    apply bind_Ok in Hrun as (s1 & Henter & (poss & _ & (s2 & Hacc & Hfin)%bind_Ok)%bind_Ok).
    pose proof Henter as (Hcid & _)%enter_cloud_Ok.
    apply accumulate_Ok in Hacc as (tp0 & tl0 & _ & _ & Hsp & Hsl & Hcid2 & _).
    rewrite Hcid in *.
    assert (test_probs self' = test_probs s2 /\ test_labels self' = test_labels s2)
      as [-> ->].
    { destruct (_ && _); [|by injection Hfin as <-].
      by apply finalize_Ok in Hfin as (? & ? & ? & ? & _ & _ & _ & _ & -> & -> & _). }
    by eexists _, _, _. }
  unfold Py.setitem in Hsp, Hsl.
  destruct (Py.norm_index (length (test_probs s1)) (cloud_id smp)) as [k|] eqn:Hk;
    [|done].
  destruct (Py.norm_index (length (test_labels s1)) (cloud_id smp)) as [k'|] eqn:Hk';
    [|done].
  injection Hsp as <-. injection Hsl as <-. rewrite !length_insert.
  exists k, k'. rewrite Hk, Hk'.
  apply enter_cloud_inv in Henter as [[Heq ->]|(Hne & poss0 & _ & ->)].
  - rewrite !decide_False by (by intros ?). rewrite !Nat.add_0_r.
    split_and!; try done.
    + intros j Hj _. by rewrite list_lookup_insert_ne.
    + intros j Hj _. by rewrite list_lookup_insert_ne.
  - rewrite !decide_True by done. cbn [set_tests test_probs test_labels] in *.
    rewrite !length_app. cbn [length]. split_and!; try done.
    + intros j Hj Hlt. rewrite list_lookup_insert_ne by done.
      by rewrite lookup_app_l.
    + intros j Hj Hlt. rewrite list_lookup_insert_ne by done.
      by rewrite lookup_app_l.
Qed.

End UpdateTestsMore.

(** ** [run_inference] and [run_test] *)

Lemma pop_snoc {A : Type} (l : list A) (x : A) : pop (l ++ [x]) = Ok (x, l).
Proof.
  unfold pop. rewrite last_snoc, length_app. cbn [length].
  replace (length l + 1 - 1)%nat with (length l) by lia.
  by rewrite take_app_length.
Qed.

Lemma pop_nil {A : Type} : pop (@nil A) = Raise IndexError.
Proof. done. Qed.

Lemma pop_Ok {A : Type} (l l' : list A) (x : A) :
  pop l = Ok (x, l') -> l = l' ++ [x].
Proof.
  destruct l as [|y l] using rev_ind; [done|].
  rewrite pop_snoc. by intros [= -> ->].
Qed.

Section InferFacts.
Context {SD Model Optimizer Scheduler Inputs Results Data S3 DataLabel : Type}.
Context `{!Stateful SD Model, !Stateful SD Optimizer, !Stateful SD Scheduler}.
Context `{!Utils SD, !Tester Model Inputs Results Data}.
Context `{!Inference Model Optimizer Scheduler Inputs Results S3}.
Context `{!SemSegMetric DataLabel}.
Implicit Types (self : @pipeline Model Optimizer Scheduler) (smp : sampler).

(** What a returning [update_tests] does to the results, by [finalizes]. *)
Lemma update_tests_ori self smp (inputs : Inputs) (results : Results) self' :
  update_tests self smp inputs results = Ok self' ->
  if finalizes smp then
    exists otp otl,
      ori_test_probs self' = ori_test_probs self ++ [otp]
      /\ ori_test_labels self' = ori_test_labels self ++ [otl]
      /\ complete_infer self' = Some true
  else
    ori_test_probs self' = ori_test_probs self
    /\ ori_test_labels self' = ori_test_labels self
    /\ complete_infer self'
       = (if decide (curr_cloud_id self <> cloud_id smp) then Some false
          else complete_infer self).
Proof.
  unfold update_tests, finalizes.
  intros (s1 & Henter & (poss & Hposs & (s2 & Hacc & Hfin)%bind_Ok)%bind_Ok)%bind_Ok.
  rewrite Hposs.
  apply enter_cloud_Ok in Henter as (_ & _ & Hotp1 & Hotl1 & Hci1).
  apply accumulate_Ok in Hacc as (tp0 & tl0 & _ & _ & _ & _ & _ & _ & Hotp2 & Hotl2 & Hci2).
  destruct (_ && _).
  - apply finalize_Ok in Hfin
      as (tp & tl & otp & otl & _ & _ & _ & _ & _ & _ & Hop3 & Hol3 & Hci3).
    exists otp, otl. by rewrite Hop3, Hol3, Hotp2, Hotl2, Hotp1, Hotl1.
  - injection Hfin as <-. by rewrite Hotp2, Hotl2, Hci2, Hotp1, Hotl1, Hci1.
Qed.

Lemma infer_loop_count (batches : list (sampler * Inputs)) self self' :
  infer_loop batches self = Ok self' ->
  length (ori_test_labels self')
    = (length (ori_test_labels self)
       + length (filter (fun b => finalizes b.1 = true) batches))%nat
  /\ length (ori_test_probs self')
     = (length (ori_test_probs self)
        + length (filter (fun b => finalizes b.1 = true) batches))%nat.
Proof.
  revert self. induction batches as [|[smp inputs] rest IH]; intros self.
  - intros [= <-]. simpl. lia.
  - cbn [infer_loop]. intros (s1 & Hstep & Hrest)%bind_Ok.
    apply IH in Hrest as [Hl Hp]. rewrite Hl, Hp.
    apply update_tests_ori in Hstep.
    destruct (finalizes smp) eqn:Hfin.
    + destruct Hstep as (otp & otl & -> & -> & _).
      rewrite filter_cons_True by done. rewrite !length_app. simpl. lia.
    + destruct Hstep as (-> & -> & _).
      rewrite filter_cons_False by (simpl; by rewrite Hfin). lia.
Qed.

(** X20.  [run_inference] needs a batcher it knows and a loader on which
    the cloud gets complete: it raises [AttributeError] for an unknown
    batcher name, and [IndexError] (from [pop] on an empty list) when its
    loop returns without any batch finalizing, as on an empty loader. *)
Theorem run_inference_errors self (data_label : option DataLabel)
    (batches : list (sampler * Inputs)) :
  (get_batcher self (device self) = None ->
     run_inference self data_label batches = Raise AttributeError)
  /\ (forall s, is_Some (get_batcher self (device self)) ->
        infer_loop batches (reset_tests self) = Ok s ->
        filter (fun b => finalizes b.1 = true) batches = [] ->
        run_inference self data_label batches = Raise IndexError)
  /\ (is_Some (get_batcher self (device self)) ->
      run_inference self data_label [] = Raise IndexError).
Proof.
  unfold run_inference. split_and!.
  - by intros ->.
  - intros s [b ->] Hloop Hnone. rewrite Hloop. cbn [mbind result_bind].
    apply infer_loop_count in Hloop as [Hl _]. rewrite Hnone in Hl.
    cbn [reset_tests set_tests ori_test_labels length] in Hl.
    destruct (ori_test_labels s); [done|]. simpl in Hl. lia.
  - by intros [b ->].
Qed.

(** X21.  When its loop returns and [m >= 1] batches finalized,
    [run_inference] takes the results appended last and leaves the other
    [m - 1] in [ori_test_labels] and [ori_test_probs]: every batch drawn
    after the cloud is complete appends its results again.  It then raises
    [KeyError] when [data] has no ['label'], raises what [metric.update]
    raises on the scores taken and that label, and otherwise returns the
    labels and scores taken. *)
Theorem run_inference_returns self (data_label : option DataLabel)
    (batches : list (sampler * Inputs)) s b :
  get_batcher self (device self) = Some b ->
  infer_loop batches (reset_tests self) = Ok s ->
  filter (fun b => finalizes b.1 = true) batches <> [] ->
  exists lbl lbls prb prbs,
    ori_test_labels s = lbls ++ [lbl]
    /\ ori_test_probs s = prbs ++ [prb]
    /\ length lbls = (length (filter (fun b => finalizes b.1 = true) batches) - 1)%nat
    /\ length prbs = (length (filter (fun b => finalizes b.1 = true) batches) - 1)%nat
    /\ (data_label = None ->
        run_inference self data_label batches = Raise KeyError)
    /\ (forall label e,
          data_label = Some label -> metric_update prb label = Raise e ->
          run_inference self data_label batches = Raise e)
    /\ (forall label,
          data_label = Some label -> is_Ok (metric_update prb label) ->
          exists self',
            run_inference self data_label batches
            = Ok (self', {| predict_labels := lbl; predict_scores := prb |})
            /\ ori_test_labels self' = lbls /\ ori_test_probs self' = prbs).
Proof.
  intros Hb Hloop Hsome. unfold run_inference. rewrite Hb, Hloop.
  cbn [mbind result_bind].
  apply infer_loop_count in Hloop as [Hl Hp].
  cbn [reset_tests set_tests ori_test_labels ori_test_probs length] in Hl, Hp.
  destruct (filter _ batches) as [|b0 fl] eqn:Hf; [done|]. cbn [length] in Hl, Hp.
  destruct (ori_test_labels s) as [|x ls _] using rev_ind; [done|].
  destruct (ori_test_probs s) as [|y ps _] using rev_ind; [done|].
  rewrite !pop_snoc. cbn [mbind result_bind].
  rewrite !length_app in Hl, Hp. cbn [length] in *.
  exists x, ls, y, ps. split_and!; [done | done | lia | lia | | |].
  - by intros ->.
  - intros label e -> Hm. cbn [mbind result_bind]. by rewrite Hm.
  - intros label -> Hm. cbn [mbind result_bind].
    destruct (metric_update y label) as [[]|e]; [|by destruct Hm].
    cbn [mbind result_bind]. by eexists.
Qed.

End InferFacts.

Section TestRunFacts.
Context {SD Model Optimizer Scheduler Inputs Results Data S3 : Type}.
Context `{!Stateful SD Model, !Stateful SD Optimizer, !Stateful SD Scheduler}.
Context `{!Utils SD, !Tester Model Inputs Results Data}.
Context `{!Inference Model Optimizer Scheduler Inputs Results S3}.
Implicit Types (self : @pipeline Model Optimizer Scheduler) (smp : sampler).
Implicit Types (tr : @test_run Model Optimizer Scheduler S3).

(** One round of [run_test] that starts with empty result lists and a
    summary that has the key ['test']. *)
Lemma test_step_inv (record_summary : bool) tr smp (inputs : Inputs) tr' :
  test_step record_summary tr (smp, inputs) = Ok tr' ->
  ori_test_probs (tr_self tr) = [] -> ori_test_labels (tr_self tr) = [] ->
  is_Some (tr_summary tr !! "test") ->
  ori_test_probs (tr_self tr') = [] /\ ori_test_labels (tr_self tr') = []
  /\ tr_summary tr' = tr_summary tr
  /\ (tr_saved tr').*1
     = (tr_saved tr).*1 ++ (if finalizes smp then [cloud_id smp] else []).
Proof.
  unfold test_step.
  intros (s1 & Hstep & (done & Hdone & Hrest)%bind_Ok)%bind_Ok Hp0 Hl0 Hsum.
  apply update_tests_ori in Hstep. rewrite Hp0, Hl0 in Hstep.
  destruct (finalizes smp).
  - destruct Hstep as (otp & otl & Hp1 & Hl1 & Hci).
    rewrite Hci in Hdone. injection Hdone as <-.
    rewrite Hp1, Hl1 in Hrest. rewrite !pop_snoc in Hrest.
    cbn [mbind result_bind] in Hrest.
    rewrite (bool_decide_eq_true_2 _ Hsum), andb_false_r in Hrest.
    injection Hrest as <-. cbn [tr_self tr_summary tr_saved set_tests
      ori_test_probs ori_test_labels].
    by rewrite fmap_app.
  - destruct Hstep as (Hp1 & Hl1 & _). destruct done.
    + rewrite Hl1 in Hrest. by rewrite pop_nil in Hrest.
    + injection Hrest as <-. cbn [tr_self tr_summary tr_saved].
      by rewrite app_nil_r.
Qed.

Lemma test_loop_inv (record_summary : bool) (batches : list (sampler * Inputs)) tr tr' :
  test_loop record_summary batches tr = Ok tr' ->
  ori_test_probs (tr_self tr) = [] -> ori_test_labels (tr_self tr) = [] ->
  is_Some (tr_summary tr !! "test") ->
  ori_test_probs (tr_self tr') = [] /\ ori_test_labels (tr_self tr') = []
  /\ tr_summary tr' = tr_summary tr
  /\ (tr_saved tr').*1
     = (tr_saved tr).*1
       ++ ((fun b => cloud_id b.1) <$> filter (fun b => finalizes b.1 = true) batches).
Proof.
  revert tr. induction batches as [|[smp inputs] rest IH]; intros tr.
  - intros [= <-] Hp Hl _. by rewrite app_nil_r.
  - cbn [test_loop]. intros (tr1 & Hstep & Hrest)%bind_Ok Hp Hl Hsum.
    apply test_step_inv in Hstep as (Hp1 & Hl1 & Hs1 & Hsaved1); [|done..].
    apply IH in Hrest as (Hp2 & Hl2 & Hs2 & Hsaved2); [|done|done|by rewrite Hs1].
    split_and!; [done|done|by rewrite Hs2|].
    rewrite Hsaved2, Hsaved1. destruct (finalizes smp) eqn:Hfin.
    + rewrite filter_cons_True by done. by rewrite fmap_cons, <- app_assoc.
    + rewrite filter_cons_False by (simpl; by rewrite Hfin). by rewrite app_nil_r.
Qed.

(** X22.  [run_test] never records a 3D summary: [self.summary] is set to
    [{'test': {}}] before the loop, so ['test' not in self.summary] is false
    on every round, and the summary is still [{'test': {}}] at the end,
    whatever [record_for] says. *)
Theorem run_test_no_summary self (record_summary : bool)
    (batches : list (sampler * Inputs)) (w : world (SD := SD)) tr w' :
  run_test self record_summary batches w = Ok (tr, w') ->
  tr_summary tr = {[ "test" := ∅ ]}.
Proof.
  unfold run_test. destruct (get_batcher self (device self)); [|done].
  intros ([self1 w1] & _ & (tr1 & Hloop & [= <- _])%bind_Ok)%bind_Ok.
  apply test_loop_inv in Hloop as (_ & _ & -> & _); [done|done|done|].
  cbn [tr_summary]. rewrite lookup_singleton_eq. by eexists.
Qed.

(** X23.  [run_test] hands every result over and keeps none.  When it
    returns, [dataset.save_test_result] has been called once for every batch
    on which [update_tests] finalized, in order and with the attributes of
    the sampler's cloud at that batch, and [ori_test_probs] and
    [ori_test_labels] are empty again. *)
Theorem run_test_saves self (record_summary : bool)
    (batches : list (sampler * Inputs)) (w : world (SD := SD)) tr w' :
  run_test self record_summary batches w = Ok (tr, w') ->
  (tr_saved tr).*1
    = (fun b => cloud_id b.1) <$> filter (fun b => finalizes b.1 = true) batches
  /\ ori_test_probs (tr_self tr) = [] /\ ori_test_labels (tr_self tr) = [].
Proof.
  unfold run_test. destruct (get_batcher self (device self)); [|done].
  intros ([self1 w1] & _ & (tr1 & Hloop & [= <- _])%bind_Ok)%bind_Ok.
  apply test_loop_inv in Hloop as (Hp & Hl & _ & Hsaved); [done|done|done|].
  cbn [tr_summary]. rewrite lookup_singleton_eq. by eexists.
Qed.

End TestRunFacts.

(** ** [get_3d_summary] and [save_config] *)

Lemma name_to_labels_snoc (ltn : list (Z * string)) l nm :
  name_to_labels (ltn ++ [(l, nm)]) = Py.dict_set nm l (name_to_labels ltn).
Proof. unfold name_to_labels. by rewrite foldl_app. Qed.

Lemma name_to_labels_get (ltn : list (Z * string)) l nm :
  NoDup ltn.*2 ->
  Py.dict_get (name_to_labels ltn) nm = Some l <-> (l, nm) ∈ ltn.
Proof.
  induction ltn as [|[l' nm'] ltn IH] using rev_ind; intros Hnd.
  - split; [done|]. intros Hin. by apply elem_of_nil in Hin.
  - rewrite fmap_app in Hnd. apply NoDup_app in Hnd as (Hnd & Hfresh & _).
    rewrite name_to_labels_snoc, elem_of_app, list_elem_of_singleton.
    destruct (decide (nm' = nm)) as [->|Hne].
    + rewrite dict_get_set_eq. split.
      * intros [= ->]. by right.
      * intros [Hin|[= ->]]; [|done]. exfalso.
        apply (Hfresh nm); [|by apply list_elem_of_singleton].
        apply list_elem_of_fmap. by exists (l, nm).
    + rewrite dict_get_set_ne by done. rewrite IH by done.
      split; [by left|]. intros [?|[= _ ?]]; done.
Qed.

(** X24.  The inverse dictionary built by [get_3d_summary] is a true
    inverse when no two labels share a name: [name_to_labels[name]] is
    [label] exactly when [label_to_names[label]] is [name]. *)
Theorem name_to_labels_round_trip (ltn : list (Z * string)) l nm :
  NoDup (Py.keys ltn) -> NoDup ltn.*2 ->
  Py.dict_get (name_to_labels ltn) nm = Some l <-> Py.dict_get ltn l = Some nm.
Proof.
  intros Hkeys Hnames. rewrite name_to_labels_get by done. split.
  - by apply dict_elem_get.
  - apply dict_get_Some_elem.
Qed.

(** X25.  When two labels share a name, the one that comes later in
    [label_to_names] is the one [name_to_labels] keeps. *)
Theorem name_to_labels_last_wins (pre post : list (Z * string)) l nm :
  nm ∉ post.*2 ->
  Py.dict_get (name_to_labels (pre ++ (l, nm) :: post)) nm = Some l.
Proof.
  induction post as [|[l' nm'] post IH] using rev_ind; intros Hnin.
  - by rewrite name_to_labels_snoc, dict_get_set_eq.
  - rewrite fmap_app, not_elem_of_app in Hnin. destruct Hnin as [Hnin Hne].
    rewrite app_comm_cons, app_assoc, name_to_labels_snoc.
    rewrite dict_get_set_ne; [by apply IH|].
    intros ->. apply Hne. by apply list_elem_of_singleton.
Qed.

Section SummaryFacts.
Context {Inputs Results Arr : Type} `{!Summarizer Inputs Results Arr}.

(** X26.  [_first_step] is set by the first call and kept by the next.  With
    [use_reference], a second call at another epoch puts the first call's
    epoch in place of the positions and of the ground-truth labels, and the
    empty list in place of the predicted labels; without it the second call
    computes all three from its own batch.  The inverse dictionary made by
    the first call is kept as it is. *)
Theorem get_3d_summary_twice (st : summary_state) (scfg : summary_cfg)
    (r1 r2 : Results) (i1 i2 : Inputs) (e1 e2 : Z) :
  _first_step st = None ->
  let st1 := (get_3d_summary st scfg r1 i1 e1).1 in
  let sd1 := (get_3d_summary st scfg r1 i1 e1).2 in
  let st2 := (get_3d_summary st1 scfg r2 i2 e2).1 in
  let sd2 := (get_3d_summary st1 scfg r2 i2 e2).2 in
  _first_step st1 = Some e1 /\ _first_step st2 = Some e1
  /\ ds_name_to_labels st2 = ds_name_to_labels st1
  /\ vertex_positions sd1
     = SArr (sum_input_pcd i1 (default int32_max (max_pts scfg))
               (default 1 (max_outputs scfg)))
  /\ vertex_predict_labels sd1
     = SArr (sum_predict_labels i1 r1 (default int32_max (max_pts scfg))
               (default 1 (max_outputs scfg)))
  /\ (use_reference scfg = Some true -> e2 <> e1 ->
      vertex_positions sd2 = SStep e1 /\ vertex_gt_labels sd2 = SStep e1
      /\ vertex_predict_labels sd2 = SNil)
  /\ (use_reference scfg <> Some true \/ e2 = e1 ->
      vertex_positions sd2
        = SArr (sum_input_pcd i2 (default int32_max (max_pts scfg))
                  (default 1 (max_outputs scfg)))
      /\ vertex_gt_labels sd2
         = SArr (sum_gt_labels i2 (default int32_max (max_pts scfg))
                   (default 1 (max_outputs scfg)))
      /\ vertex_predict_labels sd2
         = SArr (sum_predict_labels i2 r2 (default int32_max (max_pts scfg))
                   (default 1 (max_outputs scfg)))).
Proof.
  intros Hfirst. unfold get_3d_summary. rewrite Hfirst. cbn [default from_option id].
  rewrite bool_decide_eq_true_2 by done. cbn [orb fst snd _first_step
    ds_name_to_labels ds_label_to_names default from_option id].
  destruct (bool_decide (e1 = e2) || negb (from_option id false (use_reference scfg)))
    eqn:Hfresh; cbn [fst snd _first_step ds_name_to_labels vertex_positions
                     vertex_gt_labels vertex_predict_labels].
  - split_and!; try done.
    intros Hu Hne. rewrite Hu in Hfresh. cbn in Hfresh.
    rewrite bool_decide_eq_false_2 in Hfresh by done. done.
  - split_and!; try done.
    intros [Hnot | ->].
    + apply orb_false_iff in Hfresh as [_ Hu].
      destruct (use_reference scfg) as [[|]|]; done.
    + by rewrite bool_decide_eq_true_2 in Hfresh.
Qed.

End SummaryFacts.

Lemma lookup_key_Ok (tb : gmap string string) key v :
  from_option Ok (Raise KeyError) (tb !! key) = Ok v <-> tb !! key = Some v.
Proof. destruct (tb !! key); simpl; split; congruence. Qed.

(** X27.  [save_config] writes nothing when [self] has no [cfg_tb].  With a
    [cfg_tb] it returns exactly when the five keys [readme], [cmd_line],
    [dataset], [model] and [pipeline] are there, and has then added five
    texts, all at step 0, under the tags [Description/Open3D-ML],
    [Description/Command line], [Configuration/Dataset],
    [Configuration/Model] and [Configuration/Pipeline], in this order; for a
    missing key it raises [KeyError]. *)
Theorem save_config_tags (code2md : string -> string -> string)
    (writer : list (string * string * Z)) :
  save_config code2md None writer = Ok writer
  /\ (forall tb w', save_config code2md (Some tb) writer = Ok w' ->
        exists texts,
          w' = writer ++ texts
          /\ texts.*1.*1 = [ "Description/Open3D-ML"; "Description/Command line";
                             "Configuration/Dataset"; "Configuration/Model";
                             "Configuration/Pipeline" ]
          /\ Forall (fun t => t.2 = 0) texts)
  /\ (forall tb,
        is_Ok (save_config code2md (Some tb) writer)
        <-> is_Some (tb !! "readme") /\ is_Some (tb !! "cmd_line")
            /\ is_Some (tb !! "dataset") /\ is_Some (tb !! "model")
            /\ is_Some (tb !! "pipeline"))
  /\ (forall tb e, save_config code2md (Some tb) writer = Raise e -> e = KeyError).
Proof.
  split_and!.
  - done.
  - intros tb w'. unfold save_config.
    intros (a & _ & (b & _ & (c & _ & (d & _ & (e & _ & [= <-])%bind_Ok)%bind_Ok)
      %bind_Ok)%bind_Ok)%bind_Ok.
    eexists [_; _; _; _; _]. rewrite <- !app_assoc. split; [reflexivity|].
    split; [done|]. by repeat constructor.
  - intros tb. unfold save_config, is_Ok. split.
    + intros [w' (a & Ha%lookup_key_Ok & (b & Hb%lookup_key_Ok & (c & Hc%lookup_key_Ok
        & (d & Hd%lookup_key_Ok & (e & He%lookup_key_Ok & _)%bind_Ok)%bind_Ok)%bind_Ok)
        %bind_Ok)%bind_Ok].
      rewrite Ha, Hb, Hc, Hd, He. by split_and!.
    + intros ([a ->] & [b ->] & [c ->] & [d ->] & [e ->]). by eexists.
  - intros tb e. unfold save_config.
    destruct (tb !! "readme"); [|by intros [= <-]].
    destruct (tb !! "cmd_line"); [|by intros [= <-]].
    destruct (tb !! "dataset"); [|by intros [= <-]].
    destruct (tb !! "model"); [|by intros [= <-]].
    destruct (tb !! "pipeline"); [|by intros [= <-]]. done.
Qed.

(** ** Evaluation of the further properties *)

Module More_facts.
Import Demo Demo_more Demo_facts.

(** Evaluation of X7: a file with the weights only. *)
Lemma load_ckpt_model_only_witness :
  exists self' w',
    load_ckpt (demo_trained 2 2) (Some "w.pth") true demo_weights = Ok (self', w')
    /\ model self' = [7; 8]
    /\ optimizer self' = Some [0] /\ scheduler self' = Some [1].
Proof.
  assert (Hfile : make_dir (Os.join (logs_dir (cfg (demo_trained 2 2))) "checkpoint")
                    (fs demo_weights) !! "w.pth"
                  = Some (Os.Pickle {[ "model_state_dict" := PyState [7; 8] ]}))
    by reflexivity.
  assert (Hd : ({[ "model_state_dict" := PyState [7; 8] ]} : ckpt_dict (list Z))
                 !! "model_state_dict" = Some (PyState [7; 8])) by reflexivity.
  assert (Ho0 : ({[ "model_state_dict" := PyState [7; 8] ]} : ckpt_dict (list Z))
                 !! "optimizer_state_dict" = None) by reflexivity.
  assert (Hs0 : ({[ "model_state_dict" := PyState [7; 8] ]} : ckpt_dict (list Z))
                 !! "scheduler_state_dict" = None) by reflexivity.
  assert (Hm0 : load_state_dict [7; 8] (model (demo_trained 2 2)) = Some [7; 8])
    by reflexivity.
  destruct (load_ckpt_model_only (demo_trained 2 2) "w.pth" true demo_weights
              {[ "model_state_dict" := PyState [7; 8] ]} [7; 8] [7; 8]
              Hfile Hd Hm0 (or_intror Ho0) (or_intror Hs0))
    as (self' & w' & Hload & Hm & Ho & Hs & _).
  exists self', w'. split; [exact Hload|]. split; [exact Hm|].
  split; [exact Ho | exact Hs].
Defined.

(** Evaluation of X8: a file without [model_state_dict]. *)
Lemma load_ckpt_KeyError_witness :
  load_ckpt (demo_trained 2 2) (Some "e.pth") true demo_no_weights = Raise KeyError.
Proof.
  assert (Hfile : make_dir (Os.join (logs_dir (cfg (demo_trained 2 2))) "checkpoint")
                    (fs demo_no_weights) !! "e.pth"
                  = Some (Os.Pickle {[ "epoch" := PyInt 3 ]})) by reflexivity.
  assert (Hd : ({[ "epoch" := PyInt 3 ]} : ckpt_dict (list Z))
                 !! "model_state_dict" = None) by reflexivity.
  exact (load_ckpt_KeyError (demo_trained 2 2) "e.pth" true demo_no_weights
           {[ "epoch" := PyInt 3 ]} Hfile Hd).
Defined.

(** Evaluation of X9. *)
Lemma load_ckpt_frame_witness :
  load_ckpt (demo_trained 2 2) None true demo_world = Ok (demo_trained 2 2, demo_loaded)
  /\ fs demo_loaded = make_dir (Os.join "./logs/m_d_torch" "checkpoint") (fs demo_world).
Proof.
  assert (Hload : load_ckpt (demo_trained 2 2) None true demo_world
                  = Ok (demo_trained 2 2, demo_loaded)) by reflexivity.
  split; [exact Hload|].
  pose proof (load_ckpt_frame (demo_trained 2 2) None true demo_world
                (demo_trained 2 2) demo_loaded Hload)
    as (_ & _ & _ & _ & _ & _ & _ & _ & _ & _ & _ & _ & _ & _ & Hfs & _).
  exact Hfs.
Defined.

(** Evaluation of X10: the same checkpoint with 9 under [epoch]. *)
Lemma load_ckpt_ignores_epoch_witness :
  (exists w', load_ckpt (demo_trained_more 2 2)
                (Some "./logs/m_d_torch/checkpoint/ckpt_00000.pth") true demo_saved
              = Ok (demo_trained 2 2, w'))
  <-> (exists w', load_ckpt (demo_trained_more 2 2)
                    (Some "./logs/m_d_torch/checkpoint/ckpt_00000.pth") true
                    demo_saved_later
                  = Ok (demo_trained 2 2, w')).
Proof.
  assert (H1 : make_dir (Os.join (logs_dir (cfg (demo_trained_more 2 2))) "checkpoint")
                 (fs demo_saved) !! "./logs/m_d_torch/checkpoint/ckpt_00000.pth"
               = Some (Os.Pickle demo_ckpt)) by reflexivity.
  assert (H2 : make_dir (Os.join (logs_dir (cfg (demo_trained_more 2 2))) "checkpoint")
                 (fs demo_saved_later) !! "./logs/m_d_torch/checkpoint/ckpt_00000.pth"
               = Some (Os.Pickle (<["epoch" := PyInt 9]> demo_ckpt))) by reflexivity.
  exact (proj1 (load_ckpt_ignores_epoch (demo_trained_more 2 2)
                  "./logs/m_d_torch/checkpoint/ckpt_00000.pth" true
                  demo_saved demo_saved_later demo_ckpt (PyInt 9) H1 H2)
               (demo_trained 2 2)).
Defined.

(** Evaluation of X11: the files of epochs 3 and 30. *)
Lemma ckpt_files_distinct_witness :
  "./logs/m_d_torch/checkpoint/ckpt_00003.pth"
  <> "./logs/m_d_torch/checkpoint/ckpt_00030.pth".
Proof.
  refine (ckpt_files_distinct (demo_trained 2 2) 3 30 _ _ _); lia.
Defined.

(** Evaluation of X12. *)
Lemma run_train_checkpoint_epochs_witness :
  exists self' w',
    run_train (demo_pipeline 2 2 "DefaultBatcher" None) demo_world = Ok (self', w')
    /\ exists d,
         fs w' !! "./logs/m_d_torch/checkpoint/ckpt_00002.pth" = Some (Os.Pickle d)
         /\ d !! "epoch" = Some (PyInt 2).
Proof.
  assert (Hload : load_ckpt (demo_trained 2 2) None true demo_world
                  = Ok (demo_trained 2 2, demo_loaded)) by reflexivity.
  destruct (run_train_checkpoint_epochs (demo_pipeline 2 2 "DefaultBatcher" None)
              demo_world DefaultBatcher (demo_trained 2 2) demo_loaded eq_refl Hload)
    as (self' & w' & Hrun & Hfiles).
  { simpl. lia. }
  exists self', w'. split; [exact Hrun|].
  apply (Hfiles 2); [simpl; lia | reflexivity].
Defined.


(** Evaluation of X14, with [save_ckpt_freq = 0]. *)
Lemma run_train_no_epochs_witness :
  exists self' w',
    run_train (demo_pipeline (-1) 0 "DefaultBatcher" None) demo_world = Ok (self', w')
    /\ model self' = model (demo_trained (-1) 0)
    /\ epochs_logged (log w') = [] /\ ckpts_logged (log w') = [].
Proof.
  assert (Hload : load_ckpt (demo_trained (-1) 0) None true demo_world
                  = Ok (demo_trained (-1) 0, demo_loaded)) by reflexivity.
  assert (Hrun : run_train (demo_pipeline (-1) 0 "DefaultBatcher" None) demo_world
                 = Ok (demo_trained (-1) 0, log_info LogStartedTraining demo_loaded))
    by reflexivity.
  assert (HN : max_epoch (cfg (demo_pipeline (-1) 0 "DefaultBatcher" None)) < 0)
    by (simpl; lia).
  destruct (run_train_no_epochs (demo_pipeline (-1) 0 "DefaultBatcher" None)
              demo_world DefaultBatcher (demo_trained (-1) 0) demo_loaded
              (demo_trained (-1) 0) (log_info LogStartedTraining demo_loaded)
              eq_refl Hload HN Hrun) as (Hm & _ & _ & He & Hc).
  eexists _, _. split; [exact Hrun|]. split; [exact Hm|].
  split; [by rewrite He | by rewrite Hc].
Defined.

(** Evaluation of X15. *)
Lemma run_train_FileNotFoundError_witness :
  run_train (demo_pipeline 2 2 "DefaultBatcher" (Some "nofile.pth")) demo_world
  = Raise FileNotFoundError.
Proof.
  exact (run_train_FileNotFoundError
           (demo_pipeline 2 2 "DefaultBatcher" (Some "nofile.pth")) demo_world
           DefaultBatcher "nofile.pth" eq_refl eq_refl eq_refl).
Defined.

(** Evaluation of X16: a covered cloud of the validation split. *)
Lemma update_tests_other_split_witness :
  exists self',
    update_tests (demo_pipeline 2 2 "DefaultBatcher" None) demo_sampler_valid tt tt
    = Ok self'
    /\ ori_test_probs self' = [] /\ ori_test_labels self' = [].
Proof.
  destruct (update_tests (demo_pipeline 2 2 "DefaultBatcher" None) demo_sampler_valid tt tt)
    as [self'|e] eqn:Hrun; [|discriminate Hrun].
  exists self'. split; [reflexivity|].
  destruct (update_tests_other_split (demo_pipeline 2 2 "DefaultBatcher" None)
              demo_sampler_valid tt tt self') as (Hp & Hl & _).
  { discriminate. }
  { exact Hrun. }
  split; [exact Hp | exact Hl].
Defined.

(** Evaluation of X17: cloud 3 is entered first. *)
Lemma update_tests_IndexError_witness :
  update_tests (demo_pipeline 2 2 "DefaultBatcher" None) demo_sampler_far tt tt
  = Raise IndexError.
Proof.
  refine (update_tests_IndexError (demo_pipeline 2 2 "DefaultBatcher" None)
            demo_sampler_far tt tt [0.7]%Q _ eq_refl _).
  - discriminate.
  - simpl. lia.
Defined.

(** Evaluation of X18: one of two points is covered. *)
Lemma update_tests_progress_witness :
  exists self' bar',
    update_tests (demo_pipeline 2 2 "DefaultBatcher" None) demo_sampler_open tt tt
    = Ok self'
    /\ pbar self' = Some bar' /\ pbar_n bar' = 1.
Proof.
  destruct (update_tests (demo_pipeline 2 2 "DefaultBatcher" None) demo_sampler_open tt tt)
    as [self'|e] eqn:Hrun; [|discriminate Hrun].
  destruct (update_tests_progress (demo_pipeline 2 2 "DefaultBatcher" None)
              demo_sampler_open tt tt self' Hrun)
    as (poss & bar' & Hposs & Hbar & _ & Hn & _).
  injection Hposs as <-.
  exists self', bar'. split; [reflexivity|]. split; [exact Hbar|].
  apply Hn. left. discriminate.
Defined.

(** Evaluation of X19. *)
Lemma update_tests_other_clouds_witness :
  exists self',
    update_tests (demo_pipeline 2 2 "DefaultBatcher" None) demo_sampler_open tt tt
    = Ok self'
    /\ length (test_probs self') = 1%nat.
Proof.
  destruct (update_tests (demo_pipeline 2 2 "DefaultBatcher" None) demo_sampler_open tt tt)
    as [self'|e] eqn:Hrun; [|discriminate Hrun].
  destruct (update_tests_other_clouds (demo_pipeline 2 2 "DefaultBatcher" None)
              demo_sampler_open tt tt self' Hrun)
    as (k & k' & _ & _ & Hlen & _).
  exists self'. split; [reflexivity | exact Hlen].
Defined.

(** Evaluation of X21: the cloud is complete at the second and at the third
    batch, so one result stays behind; the data has a label. *)
Lemma run_inference_returns_witness :
  exists self' res,
    run_inference (demo_pipeline 2 2 "DefaultBatcher" None) (Some [1; 0]) demo_batches
    = Ok (self', res)
    /\ length (ori_test_labels self') = 1%nat.
Proof.
  assert (exists s,
            infer_loop demo_batches
              (reset_tests (demo_pipeline 2 2 "DefaultBatcher" None)) = Ok s)
    as (s & Hloop) by (vm_compute; eexists; reflexivity).
  destruct (run_inference_returns (demo_pipeline 2 2 "DefaultBatcher" None)
              (Some [1; 0]) demo_batches s DefaultBatcher eq_refl Hloop)
    as (lbl & lbls & prb & prbs & _ & _ & Hlen & _ & _ & _ & Hret).
  { discriminate. }
  destruct (Hret [1; 0] eq_refl) as (self' & Hrun & Hlbls & _);
    [by exists tt|].
  exists self', {| predict_labels := lbl; predict_scores := prb |}.
  split; [exact Hrun|]. rewrite Hlbls. exact Hlen.
Defined.

(** Evaluation of X22 and X23 on the same loader. *)
Lemma run_test_no_summary_witness :
  exists tr w',
    run_test (demo_pipeline 2 2 "DefaultBatcher" None) true demo_batches demo_world
    = Ok (tr, w')
    /\ tr_summary tr = {[ "test" := ∅ ]}.
Proof.
  assert (exists tr w',
            run_test (demo_pipeline 2 2 "DefaultBatcher" None) true demo_batches
              demo_world = Ok (tr, w')) as (tr & w' & Hrun)
    by (vm_compute; eexists _, _; reflexivity).
  exists tr, w'. split; [exact Hrun|].
  exact (run_test_no_summary _ _ _ _ _ _ Hrun).
Defined.

Lemma run_test_saves_witness :
  exists tr w',
    run_test (demo_pipeline 2 2 "DefaultBatcher" None) false demo_batches demo_world
    = Ok (tr, w')
    /\ (tr_saved tr).*1 = [0; 0].
Proof.
  assert (exists tr w',
            run_test (demo_pipeline 2 2 "DefaultBatcher" None) false demo_batches
              demo_world = Ok (tr, w')) as (tr & w' & Hrun)
    by (vm_compute; eexists _, _; reflexivity).
  exists tr, w'. split; [exact Hrun|].
  exact (proj1 (run_test_saves _ _ _ _ _ _ Hrun)).
Defined.

(** Evaluation of X24 and X25. *)
Lemma name_to_labels_round_trip_witness :
  Py.dict_get (name_to_labels demo_label_to_names) "road" = Some 2.
Proof.
  apply (name_to_labels_round_trip demo_label_to_names 2 "road").
  - apply (bool_decide_unpack _). by vm_compute.
  - apply (bool_decide_unpack _). by vm_compute.
  - reflexivity.
Defined.

Lemma name_to_labels_last_wins_witness :
  Py.dict_get (name_to_labels ([(0, "car")] ++ (5, "car") :: [(2, "road")])) "car"
  = Some 5.
Proof.
  apply (name_to_labels_last_wins [(0, "car")] [(2, "road")] 5 "car").
  apply (bool_decide_unpack _). by vm_compute.
Defined.

(** Evaluation of X26: a summary at epoch 0 and one at epoch 4. *)
Lemma get_3d_summary_twice_witness :
  vertex_predict_labels
    (get_3d_summary (get_3d_summary demo_summary_state demo_summary_cfg
                       [1; 1; 0] [5; 6; 7] 0).1
       demo_summary_cfg [1; 0; 0] [5; 6; 7] 4).2
  = SNil.
Proof.
  pose proof (get_3d_summary_twice demo_summary_state demo_summary_cfg
                [1; 1; 0] [1; 0; 0] [5; 6; 7] [5; 6; 7] 0 4 eq_refl)
    as (_ & _ & _ & _ & _ & Href & _).
  destruct Href as (_ & _ & Hpred); [reflexivity | discriminate |].
  exact Hpred.
Defined.

End More_facts.
